(** * PULSE review scraper (scraper.py): model and verified properties

    The program fetches paginated review listings from G2, Capterra and
    TrustRadius, extracts one record per review card, filters the records
    by an optional date range and writes the merged list as JSON.

    The development has these layers.
    - [Py]: the parts of the Python runtime the script calls (str
      methods, naive and aware datetimes, [datetime.strptime] for the
      directives of the script's format list, [datetime.isoformat]).
    - [World]: the interface of what the script calls and does not
      define ([datetime.fromisoformat], requests, BeautifulSoup,
      [open]).  The
      script is verified against every implementation of it; [Stub]
      gives a table-driven one and [Zoom] a concrete site for runs.
    - The script itself, function by function ([parse_date_try],
      [within_range], [scrape_g2], [scrape_capterra],
      [scrape_trustradius], [main]), on an explicit state [io] of
      diagnostic lines, requests and files.  The [while True] loops take
      a bound on their iterations; a run that needs more is
      [Unfinished].

    Strings are sequences of code points below 256.  [time.sleep] is not
    modelled. *)

From Stdlib Require Import ZArith List String Ascii Bool Lia DecimalString.
Import ListNotations.

#[local] Open Scope string_scope.
#[local] Open Scope Z_scope.

(* ===================================================================== *)
(** * The Python runtime *)
(* ===================================================================== *)

Module Py.

(** ** Exceptions *)

(** The exceptions the script can meet.  Below [main]'s
    [except Exception]: a transport failure of requests and the
    [TypeError] of comparing a naive with an aware datetime.  Outside
    it: the [OSError] of [open] on a path that cannot be written. *)
Inductive exn : Type :=
| RequestException (msg : string)
| TypeError (msg : string)
| OSError (msg : string).

(** [str(e)] *)
Definition str_exn (e : exn) : string :=
  match e with
  | RequestException msg => msg
  | TypeError msg => msg
  | OSError msg => msg
  end.

(** ** str *)

(** [str(n)] for an int. *)
Definition str_int (n : Z) : string := NilZero.string_of_int (Z.to_int n).

(** Truth value of a str: non-empty. *)
Definition truthy (s : string) : bool :=
  match s with
  | EmptyString => false
  | String _ _ => true
  end.

(** [s.startswith(p)] *)
Definition startswith (s p : string) : bool := String.prefix p s.

(** [sub in s] *)
Fixpoint contains (sub s : string) : bool :=
  String.prefix sub s ||
  match s with
  | EmptyString => false
  | String _ s' => contains sub s'
  end.

(** [s.replace(old, new)] for a one-character [old]. *)
Fixpoint replace (s : string) (old : ascii) (new : string) : string :=
  match s with
  | EmptyString => EmptyString
  | String c s' =>
      if Ascii.eqb c old then new ++ replace s' old new
      else String c (replace s' old new)
  end.

(** [c.lower()] on code points below 256: A-Z and the Latin-1 capitals
    (U+00C0..U+00DE without the multiplication sign U+00D7). *)
Definition lower_ascii (c : ascii) : ascii :=
  let n := N_of_ascii c in
  if ((65 <=? n) && (n <=? 90))%N then ascii_of_N (n + 32)
  else if ((192 <=? n) && (n <=? 222) && negb (n =? 215))%N then ascii_of_N (n + 32)
  else c.

(** [s.lower()] *)
Fixpoint lower (s : string) : string :=
  match s with
  | EmptyString => EmptyString
  | String c s' => String (lower_ascii c) (lower s')
  end.

(** [s.rstrip(c)] for a one-character argument. *)
Fixpoint rstrip (s : string) (c : ascii) : string :=
  match s with
  | EmptyString => EmptyString
  | String a s' =>
      match rstrip s' c with
      | EmptyString => if Ascii.eqb a c then EmptyString else String a EmptyString
      | t => String a t
      end
  end.

(** [c.isspace()] on code points below 256. *)
Definition isspace (c : ascii) : bool :=
  let n := N_of_ascii c in
  (((9 <=? n) && (n <=? 13)) || ((28 <=? n) && (n <=? 32))
   || (n =? 133) || (n =? 160))%N.

Fixpoint lstrip_ws (s : string) : string :=
  match s with
  | EmptyString => EmptyString
  | String a s' => if isspace a then lstrip_ws s' else s
  end.

Fixpoint rstrip_ws (s : string) : string :=
  match s with
  | EmptyString => EmptyString
  | String a s' =>
      match rstrip_ws s' with
      | EmptyString => if isspace a then EmptyString else String a EmptyString
      | t => String a t
      end
  end.

(** [s.strip()] *)
Definition strip (s : string) : string := rstrip_ws (lstrip_ws s).

(** ** datetime *)

(** A [datetime.datetime]; [tzinfo] is the UTC offset in microseconds of
    an aware value and [None] for a naive one. *)
Record datetime : Type := mkdatetime {
  year : Z; month : Z; day : Z;
  hour : Z; minute : Z; second : Z; microsecond : Z;
  tzinfo : option Z
}.

Definition is_leap (y : Z) : bool :=
  (y mod 4 =? 0) && (negb (y mod 100 =? 0) || (y mod 400 =? 0)).

Definition days_in_month (y m : Z) : Z :=
  match m with
  | 2 => if is_leap y then 29 else 28
  | 4 | 6 | 9 | 11 => 30
  | _ => 31
  end.

Definition days_before_year (y : Z) : Z :=
  let y' := y - 1 in y' * 365 + y' / 4 - y' / 100 + y' / 400.

Fixpoint days_before_month_aux (y : Z) (m : nat) : Z :=
  match m with
  | O => 0
  | S m' => days_before_month_aux y m' + days_in_month y (Z.of_nat m)
  end.

Definition days_before_month (y m : Z) : Z :=
  days_before_month_aux y (Z.to_nat (m - 1)).

(** [date.toordinal()] *)
Definition toordinal (d : datetime) : Z :=
  days_before_year (year d) + days_before_month (year d) (month d) + day d.

(** Microseconds since the start of day 0 of the wall-clock reading. *)
Definition wall_us (d : datetime) : Z :=
  (((toordinal d * 24 + hour d) * 60 + minute d) * 60 + second d) * 1000000
  + microsecond d.

Fixpoint lex_compare (a b : list Z) : comparison :=
  match a, b with
  | x :: a', y :: b' =>
      match x ?= y with
      | Eq => lex_compare a' b'
      | c => c
      end
  | [], [] => Eq
  | [], _ => Lt
  | _, [] => Gt
  end.

Definition fields (d : datetime) : list Z :=
  [year d; month d; day d; hour d; minute d; second d; microsecond d].

(** The comparison behind [<] and [>]: field by field for two naive
    values or two values with one offset, on the UTC instants for two
    aware values, and a [TypeError] for a naive and an aware one. *)
Definition dt_compare (a b : datetime) : exn + comparison :=
  match tzinfo a, tzinfo b with
  | None, None => inr (lex_compare (fields a) (fields b))
  | Some oa, Some ob =>
      if oa =? ob then inr (lex_compare (fields a) (fields b))
      else inr (wall_us a - oa ?= wall_us b - ob)
  | _, _ => inl (TypeError "can't compare offset-naive and offset-aware datetimes")
  end.

Definition is_Lt (c : comparison) : bool :=
  match c with Lt => true | _ => false end.
Definition is_Gt (c : comparison) : bool :=
  match c with Gt => true | _ => false end.

(** [a < b] *)
Definition dt_lt (a b : datetime) : exn + bool :=
  match dt_compare a b with
  | inl e => inl e
  | inr c => inr (is_Lt c)
  end.

(** [a > b] *)
Definition dt_gt (a b : datetime) : exn + bool :=
  match dt_compare a b with
  | inl e => inl e
  | inr c => inr (is_Gt c)
  end.

(** ["%0<w>d" % n] for n >= 0. *)
Definition zfill (w : nat) (n : Z) : string :=
  let s := str_int n in
  string_of_list_ascii (repeat "0"%char (w - String.length s)) ++ s.

(** The UTC offset as [isoformat] prints it: sign, HH:MM, then :SS and
    .ffffff only when they are not zero. *)
Definition format_offset (off : Z) : string :=
  let sign := if off <? 0 then "-" else "+" in
  let a := Z.abs off in
  let hh := a / 3600000000 in
  let r := a mod 3600000000 in
  let mm := r / 60000000 in
  let ss := r mod 60000000 in
  sign ++ zfill 2 hh ++ ":" ++ zfill 2 mm ++
  (if ss =? 0 then ""
   else ":" ++ zfill 2 (ss / 1000000) ++
        (if ss mod 1000000 =? 0 then "" else "." ++ zfill 6 (ss mod 1000000))).

(** [d.isoformat()] *)
Definition isoformat (d : datetime) : string :=
  zfill 4 (year d) ++ "-" ++ zfill 2 (month d) ++ "-" ++ zfill 2 (day d) ++ "T" ++
  zfill 2 (hour d) ++ ":" ++ zfill 2 (minute d) ++ ":" ++ zfill 2 (second d) ++
  (if microsecond d =? 0 then "" else "." ++ zfill 6 (microsecond d)) ++
  match tzinfo d with
  | None => ""
  | Some off => format_offset off
  end.

(** ** datetime.strptime *)

(** [strptime] turns the format into a regular expression, matches it
    against the start of the text ignoring case, rejects a match that
    leaves text over, and builds the date from the captured groups.
    The model covers the directives and literals of the script's format
    list; [piece] is one element of the compiled expression. *)
Inductive piece : Type :=
| PY                (* %Y : \d\d\d\d *)
| Pm                (* %m : 1[0-2]|0[1-9]|[1-9] *)
| Pd                (* %d : 3[0-1]|[1-2]\d|0[1-9]|[1-9]| [1-9] *)
| PB                (* %B : the full month names *)
| Pb                (* %b : the abbreviated month names *)
| PSpace            (* a run of white space in the format : \s+ *)
| PLit (c : ascii). (* any other character *)

(** Compilation of a format; [None] stands for the ValueError of a
    directive outside the model or a trailing percent sign. *)
Fixpoint compile_format (fmt : string) (after_space : bool) : option (list piece) :=
  match fmt with
  | EmptyString => Some []
  | String "%"%char (String d rest) =>
      match (match d with
             | "Y"%char => Some PY
             | "m"%char => Some Pm
             | "d"%char => Some Pd
             | "B"%char => Some PB
             | "b"%char => Some Pb
             | _ => None
             end), compile_format rest false with
      | Some p, Some ps => Some (p :: ps)
      | _, _ => None
      end
  | String "%"%char EmptyString => None
  | String c rest =>
      if isspace c then
        match compile_format rest true with
        | Some ps => Some (if after_space then ps else PSpace :: ps)
        | None => None
        end
      else
        match compile_format rest false with
        | Some ps => Some (PLit c :: ps)
        | None => None
        end
  end.

(** The groups a match has captured so far, with strptime's defaults. *)
Record groups : Type := mkgroups { g_year : Z; g_month : Z; g_day : Z }.

Definition no_groups : groups := mkgroups 1900 1 1.

Definition digit (c : ascii) : option Z :=
  let n := N_of_ascii c in
  if ((48 <=? n) && (n <=? 57))%N then Some (Z.of_N n - 48) else None.

Definition in_range (lo hi : Z) (x : Z) : bool := (lo <=? x) && (x <=? hi).

(** A candidate match of one piece: the updated groups and the text
    that is left.  Candidates come in the order the regex engine tries
    them. *)
Definition candidate : Type := (groups -> groups) * string.

Definition set_year (v : Z) (g : groups) : groups := mkgroups v (g_month g) (g_day g).
Definition set_month (v : Z) (g : groups) : groups := mkgroups (g_year g) v (g_day g).
Definition set_day (v : Z) (g : groups) : groups := mkgroups (g_year g) (g_month g) v.

(** Two leading characters read as digits. *)
Definition two_digits (s : string) : option (Z * Z * string) :=
  match s with
  | String a (String b rest) =>
      match digit a, digit b with
      | Some x, Some y => Some (x, y, rest)
      | _, _ => None
      end
  | _ => None
  end.

Definition one_digit (s : string) : option (Z * string) :=
  match s with
  | String a rest =>
      match digit a with
      | Some x => Some (x, rest)
      | None => None
      end
  | _ => None
  end.

Definition cands_Y (s : string) : list candidate :=
  match two_digits s with
  | Some (a, b, s') =>
      match two_digits s' with
      | Some (c, d, rest) => [(set_year (((a * 10 + b) * 10 + c) * 10 + d), rest)]
      | None => []
      end
  | None => []
  end.

(** An alternative of two characters, the first in [lo1..hi1] and the
    second in [lo2..hi2]. *)
Definition alt2 (set : Z -> groups -> groups) (lo1 hi1 lo2 hi2 : Z) (s : string)
  : list candidate :=
  match two_digits s with
  | Some (a, b, rest) =>
      if in_range lo1 hi1 a && in_range lo2 hi2 b then [(set (a * 10 + b), rest)] else []
  | None => []
  end.

(** The alternative [[1-9]]. *)
Definition alt1 (set : Z -> groups -> groups) (s : string) : list candidate :=
  match one_digit s with
  | Some (a, rest) => if in_range 1 9 a then [(set a, rest)] else []
  | None => []
  end.

Definition cands_m (s : string) : list candidate :=
  alt2 set_month 1 1 0 2 s ++ alt2 set_month 0 0 1 9 s ++ alt1 set_month s.

Definition cands_d (s : string) : list candidate :=
  alt2 set_day 3 3 0 1 s ++ alt2 set_day 1 2 0 9 s ++ alt2 set_day 0 0 1 9 s ++
  alt1 set_day s ++
  match s with
  | String " "%char rest => alt1 set_day rest
  | _ => []
  end.

(** Month names of the C locale, lower case, with their numbers. *)
Definition f_month : list (string * Z) :=
  [("january", 1); ("february", 2); ("march", 3); ("april", 4); ("may", 5);
   ("june", 6); ("july", 7); ("august", 8); ("september", 9); ("october", 10);
   ("november", 11); ("december", 12)].

Definition a_month : list (string * Z) :=
  [("jan", 1); ("feb", 2); ("mar", 3); ("apr", 4); ("may", 5); ("jun", 6);
   ("jul", 7); ("aug", 8); ("sep", 9); ("oct", 10); ("nov", 11); ("dec", 12)].

(** [sorted(names, key=len, reverse=True)]: stable, longest first. *)
Fixpoint insert_by_len (x : string * Z) (l : list (string * Z)) : list (string * Z) :=
  match l with
  | [] => [x]
  | y :: l' =>
      if (String.length (fst y) <=? String.length (fst x))%nat then x :: l
      else y :: insert_by_len x l'
  end.

Definition sort_by_len (l : list (string * Z)) : list (string * Z) :=
  fold_right insert_by_len [] l.

(** [name] is a prefix of [s], ignoring case; returns the rest. *)
Fixpoint skip_prefix_nocase (name s : string) : option string :=
  match name, s with
  | EmptyString, _ => Some s
  | String a name', String b s' =>
      if Ascii.eqb (lower_ascii a) (lower_ascii b) then skip_prefix_nocase name' s' else None
  | _, _ => None
  end.

Definition cands_names (names : list (string * Z)) (s : string) : list candidate :=
  flat_map (fun nm => match skip_prefix_nocase (fst nm) s with
                      | Some rest => [(set_month (snd nm), rest)]
                      | None => []
                      end)
           (sort_by_len names).

(** [\s+] is greedy: the longest run first, then shorter ones. *)
Fixpoint cands_space (s : string) : list candidate :=
  match s with
  | String a rest =>
      if isspace a then cands_space rest ++ [(fun g => g, rest)] else []
  | EmptyString => []
  end.

Definition cands_lit (c : ascii) (s : string) : list candidate :=
  match s with
  | String a rest =>
      if Ascii.eqb (lower_ascii a) (lower_ascii c) then [(fun g => g, rest)] else []
  | EmptyString => []
  end.

Definition cands (p : piece) (s : string) : list candidate :=
  match p with
  | PY => cands_Y s
  | Pm => cands_m s
  | Pd => cands_d s
  | PB => cands_names f_month s
  | Pb => cands_names a_month s
  | PSpace => cands_space s
  | PLit c => cands_lit c s
  end.

(** [regex.match]: the first way, in the engine's order, of matching
    all the pieces against a prefix of the text. *)
Fixpoint regex_match (ps : list piece) (s : string) (g : groups) : option (groups * string) :=
  match ps with
  | [] => Some (g, s)
  | p :: ps' =>
      (fix try (cs : list candidate) : option (groups * string) :=
         match cs with
         | [] => None
         | (upd, rest) :: cs' =>
             match regex_match ps' rest (upd g) with
             | Some r => Some r
             | None => try cs'
             end
         end) (cands p s)
  end.

(** [datetime.strptime(data, fmt)]; [None] stands for its ValueError. *)
Definition strptime (data fmt : string) : option datetime :=
  match compile_format fmt false with
  | None => None
  | Some ps =>
      match regex_match ps data no_groups with
      | Some (g, EmptyString) =>
          if in_range 1 9999 (g_year g) && in_range 1 12 (g_month g)
             && in_range 1 (days_in_month (g_year g) (g_month g)) (g_day g)
          then Some (mkdatetime (g_year g) (g_month g) (g_day g) 0 0 0 0 None)
          else None
      | _ => None
      end
  end.

End Py.

Import Py.

(* ===================================================================== *)
(** * The environment: interpreter version, requests, BeautifulSoup *)
(* ===================================================================== *)

(** A [requests.Response], as far as the script reads it. *)
Record response : Type := mkresponse { status_code : Z; text : string }.

(** What the script calls and does not define.
    - [fromisoformat]: [datetime.fromisoformat], whose accepted grammar
      depends on the interpreter version; [None] stands for its
      exception.
    - [session_get]: [session.get(url, timeout=20)], which returns a
      response or raises.
    - [open_w]: [open(path, "w", encoding="utf-8")], which opens the
      file ([None]) or raises an [OSError] ([Some e]): an empty path, a
      missing directory, a path that may not be written.
    - the BeautifulSoup queries the script makes on a parsed document
      ([soup]) and on an element ([tag]).  A [Tag] is always true as a
      condition, so a query result is an [option]. *)
Class World : Type := {
  fromisoformat : string -> option datetime;
  session_get : string -> exn + response;
  open_w : string -> option exn;
  soup : Type;
  tag : Type;
  (** [BeautifulSoup(text, "html.parser")] *)
  BeautifulSoup : string -> soup;
  (** [soup.find(name, {attr: value})] *)
  soup_find : soup -> string -> string * string -> option tag;
  (** [soup.select(css)] *)
  select : soup -> string -> list tag;
  (** [it.find(lambda tag: ...)] *)
  find_lambda : tag -> (tag -> bool) -> option tag;
  (** [it.find(name)] and [it.find([name, ...])] *)
  find_names : tag -> list string -> option tag;
  (** [it.find(name, {attr: value})] *)
  find_name_attrs : tag -> string -> string * string -> option tag;
  (** [it.find(attrs={attr: value})] *)
  find_attrs : tag -> string * string -> option tag;
  (** [tag.name] *)
  tag_name : tag -> string;
  (** [tag.get(attr)] for a single-valued attribute *)
  tag_get : tag -> string -> option string;
  (** [tag.get("class")], a list of class names *)
  tag_get_class : tag -> option (list string);
  (** [tag.get_text(sep, strip=True)] *)
  get_text : tag -> string -> string
}.

(* ===================================================================== *)
(** * Data model and effects *)
(* ===================================================================== *)

(** The dict built for one review card. *)
Record review : Type := mkreview {
  r_title : string;
  r_review : string;
  r_date : string;
  r_rating : string;
  r_reviewer : string;
  r_source : string
}.

(** What a run leaves behind: the lines printed to [sys.stderr], the
    URLs requested, and the files written (path and dumped list), each
    in order of occurrence. *)
Record io : Type := mkio {
  stderr : list string;
  requests : list string;
  files : list (string * list review)
}.

Definition io0 : io := mkio [] [] [].

(** How a computation ends: with a value, with an exception, or not
    within the fuel given to its [while True] loop. *)
Inductive result (A : Type) : Type :=
| Return (a : A)
| Raise (e : exn)
| Unfinished.
Arguments Return {A} a.
Arguments Raise {A} e.
Arguments Unfinished {A}.

(** Computations with effects on [io]. *)
Definition M (A : Type) : Type := io -> io * result A.

Definition ret {A} (a : A) : M A := fun s => (s, Return a).

Definition bind {A B} (m : M A) (k : A -> M B) : M B :=
  fun s =>
    match m s with
    | (s', Return a) => k a s'
    | (s', Raise e) => (s', Raise e)
    | (s', Unfinished) => (s', Unfinished)
    end.

Notation "x <- m ;; k" := (bind m (fun x => k))
  (at level 61, m at next level, right associativity).
Notation "m ;;; k" := (bind m (fun _ => k))
  (at level 61, right associativity).

(** A computation without effects that may raise. *)
Definition E (A : Type) : Type := (exn + A)%type.

Definition ebind {A B} (m : E A) (k : A -> E B) : E B :=
  match m with
  | inl e => inl e
  | inr a => k a
  end.

Notation "x <-? m ;; k" := (ebind m (fun x => k))
  (at level 61, m at next level, right associativity).

Definition lift {A} (m : E A) : M A :=
  fun s =>
    match m with
    | inl e => (s, Raise e)
    | inr a => (s, Return a)
    end.

Definition unfinished {A} : M A := fun s => (s, Unfinished).

(** [print(line, file=sys.stderr)] *)
Definition eprint (line : string) : M unit :=
  fun s => (mkio (stderr s ++ [line]) (requests s) (files s), Return tt).

(** [try: body  except Exception as e: handler(e)] *)
Definition try_except {A} (body : M A) (handler : exn -> M A) : M A :=
  fun s =>
    match body s with
    | (s', Raise e) => handler e s'
    | r => r
    end.

(** A [for] loop over a list whose body may raise. *)
Fixpoint for_each {A S} (body : A -> S -> E S) (l : list A) (s : S) : E S :=
  match l with
  | [] => inr s
  | x :: l' => s' <-? body x s ;; for_each body l' s'
  end.

(** [x or y] on query results. *)
Definition orelse {A} (x y : option A) : option A :=
  match x with
  | Some _ => x
  | None => y
  end.

(** [l if l else l'] on lists: an empty list is false. *)
Definition or_list {A} (l l' : list A) : list A :=
  match l with
  | [] => l'
  | _ => l
  end.

(* ===================================================================== *)
(** * The script *)
(* ===================================================================== *)

Section Script.

Context {W : World}.

(** [session.get(url, timeout=20)]: the request is recorded, then the
    response comes back or the transport error is raised. *)
Definition get (url : string) : M response :=
  fun s =>
    let s' := mkio (stderr s) (requests s ++ [url]) (files s) in
    match session_get url with
    | inl e => (s', Raise e)
    | inr r => (s', Return r)
    end.

(** [with open(path, "w", encoding="utf-8") as fh: json.dump(data, fh, ...)]
    (lines 281-282).  When [open] raises, nothing is written and the
    error goes up: the statement is outside [main]'s try/except.  When
    it opens the file, the file holds the list; writing to the open
    file is taken to succeed. *)
Definition dump_json (path : string) (data : list review) : M unit :=
  fun s =>
    match open_w path with
    | Some e => (s, Raise e)
    | None =>
        (mkio (stderr s) (requests s) (files s ++ [(path, data)]), Return tt)
    end.

(** ** parse_date_try (lines 28-38) *)

Definition formats : list string :=
  ["%Y-%m-%d"; "%d-%m-%Y"; "%d %B %Y"; "%B %d, %Y"; "%b %d, %Y"].

(** The [for fmt in (...)] loop: return at the first format that
    parses, pass on a failure. *)
Fixpoint try_formats (dt_str : string) (fmts : list string) : option datetime :=
  match fmts with
  | [] => None
  | fmt :: fmts' =>
      match strptime (strip dt_str) fmt with
      | Some d => Some d
      | None => try_formats dt_str fmts'
      end
  end.

Definition parse_date_try (dt_str : string) : option datetime :=
  match try_formats dt_str formats with
  | Some d => Some d
  | None => fromisoformat dt_str
  end.

(** ** within_range (lines 40-45) *)

Definition within_range (date_obj : datetime) (start end_ : option datetime) : E bool :=
  before <-? match start with
             | Some s => dt_lt date_obj s
             | None => inr false
             end ;;
  if before then inr false
  else
    after <-? match end_ with
              | Some e => dt_gt date_obj e
              | None => inr false
              end ;;
    if after then inr false else inr true.

(** ** Idioms shared by the three scrapers *)

(** [t.get_text(strip=True) if t else ""] *)
Definition text_or_empty (t : option tag) : string :=
  match t with
  | Some t => get_text t ""
  | None => ""
  end.

(** [t.get_text(" ", strip=True) if t else ""] *)
Definition body_or_empty (t : option tag) : string :=
  match t with
  | Some t => get_text t " "
  | None => ""
  end.

(** [date_tag.get("datetime") if date_tag and date_tag.get("datetime")
     else (date_tag.get_text(strip=True) if date_tag else "")] *)
Definition date_text_of (date_tag : option tag) : string :=
  match date_tag with
  | Some t =>
      match tag_get t "datetime" with
      | Some v => if truthy v then v else get_text t ""
      | None => get_text t ""
      end
  | None => ""
  end.

(** [parse_date_try(date_text) if date_text else None] *)
Definition date_obj_of (date_text : string) : option datetime :=
  if truthy date_text then parse_date_try date_text else None.

(** [date_obj and not within_range(date_obj, start, end)] *)
Definition out_of_range (date_obj : option datetime) (start end_ : option datetime) : E bool :=
  match date_obj with
  | Some d => ok <-? within_range d start end_ ;; inr (negb ok)
  | None => inr false
  end.

(** [date_obj.isoformat() if date_obj else date_text] *)
Definition date_field (date_obj : option datetime) (date_text : string) : string :=
  match date_obj with
  | Some d => isoformat d
  | None => date_text
  end.

(** [link.get("href")] when [link and link.get("href")] holds. *)
Definition href_of (link : option tag) : option string :=
  match link with
  | Some l =>
      match tag_get l "href" with
      | Some h => if truthy h then Some h else None
      | None => None
      end
  | None => None
  end.

(** ** scrape_g2 (lines 47-120) *)

(** Lines 58-73: the product URL. *)
Definition g2_product_url (company : string) : M string :=
  if startswith company "http" then ret (rstrip company "/")
  else
    let q := replace company " " "+" in
    let search_url := "https://www.g2.com/search?q=" ++ q in
    r <- get search_url ;;
    let soup := BeautifulSoup (text r) in
    let link := soup_find soup "a" ("data-qa", "product-card-link") in
    match href_of link with
    | Some href => ret ("https://www.g2.com" ++ href)
    | None =>
        let slug := replace (lower company) " " "-" in
        ret ("https://www.g2.com/products/" ++ slug ++ "/reviews")
    end.

(** Line 78. *)
Definition g2_page_url (product_url : string) (page : Z) : string :=
  product_url ++ (if negb (contains "?" product_url) then "?page=" ++ str_int page
                  else "&page=" ++ str_int page).

(** Lines 84-87. *)
Definition g2_items (soup : soup) : list tag :=
  or_list (select soup "div[itemprop='review']")
          (select soup "div.g2-review, div.review-card, div[class*='review']").

Definition is_h3_h4_h2 (t : tag) : bool :=
  existsb (String.eqb (tag_name t)) ["h3"; "h4"; "h2"].

Definition is_time_or_date_span (t : tag) : bool :=
  String.eqb (tag_name t) "time"
  || (String.eqb (tag_name t) "span"
      && existsb (String.eqb "date") (match tag_get_class t with
                                      | Some l => l
                                      | None => []
                                      end)).

(** Lines 91-115: the body of [for it in items], on the pair of
    [reviews] and [added]. *)
Definition g2_card (start end_ : option datetime) (it : tag) (st : list review * Z)
  : E (list review * Z) :=
  let '(reviews, added) := st in
  let title := find_lambda it is_h3_h4_h2 in
  let title_text := text_or_empty title in
  let body_tag := find_names it ["p"] in
  let body_text := body_or_empty body_tag in
  let date_tag := find_lambda it is_time_or_date_span in
  let date_text := date_text_of date_tag in
  let date_obj := date_obj_of date_text in
  skip <-? out_of_range date_obj start end_ ;;
  if skip then inr (reviews, added)
  else
    let rating_tag := find_attrs it ("data-qa", "rating") in
    let rating := text_or_empty rating_tag in
    let reviewer := orelse (find_attrs it ("data-qa", "reviewer-name"))
                           (find_names it ["strong"]) in
    let reviewer_text := text_or_empty reviewer in
    let review := mkreview title_text body_text (date_field date_obj date_text)
                           rating reviewer_text "g2" in
    inr ((reviews ++ [review])%list, added + 1).

(** Lines 76-120: the [while True] loop, with [fuel] bounding the number
    of iterations. *)
Fixpoint g2_pages (fuel : nat) (product_url : string) (start end_ : option datetime)
  (page : Z) (reviews : list review) : M (list review) :=
  match fuel with
  | O => unfinished
  | S fuel' =>
      let page_url := g2_page_url product_url page in
      eprint ("Fetching " ++ page_url) ;;;
      r <- get page_url ;;
      if negb (status_code r =? 200) then ret reviews
      else
        let soup := BeautifulSoup (text r) in
        let items := g2_items soup in
        match items with
        | [] => ret reviews
        | _ =>
            st <- lift (for_each (g2_card start end_) items (reviews, 0)) ;;
            let '(reviews, added) := st in
            if added =? 0 then ret reviews
            else g2_pages fuel' product_url start end_ (page + 1) reviews
        end
  end.

Definition scrape_g2 (fuel : nat) (company : string) (start end_ : option datetime)
  : M (list review) :=
  product_url <- g2_product_url company ;;
  g2_pages fuel product_url start end_ 1 [].

(** ** scrape_capterra (lines 122-186) *)

(** Lines 129-142. *)
Definition capterra_product_url (company : string) : M string :=
  if startswith company "http" then ret (rstrip company "/")
  else
    let q := replace company " " "+" in
    let search_url := "https://www.capterra.com/search?q=" ++ q in
    r <- get search_url ;;
    let soup := BeautifulSoup (text r) in
    let link := soup_find soup "a" ("data-qa", "product-name") in
    match href_of link with
    | Some href => ret ("https://www.capterra.com" ++ href)
    | None =>
        let slug := replace (lower company) " " "-" in
        ret ("https://www.capterra.com/p/" ++ slug ++ "/#reviews")
    end.

(** Line 146. *)
Definition capterra_page_url (product_url : string) (page : Z) : string :=
  product_url ++ (if negb (contains "?" product_url) then "?page=" ++ str_int page
                  else "&page=" ++ str_int page).

(** Lines 152-154. *)
Definition capterra_items (soup : soup) : list tag :=
  or_list (select soup "div.c-review") (select soup "div.review, li.review").

Definition is_time_or_span (t : tag) : bool :=
  String.eqb (tag_name t) "time" || String.eqb (tag_name t) "span".

(** Lines 158-181. *)
Definition capterra_card (start end_ : option datetime) (it : tag) (st : list review * Z)
  : E (list review * Z) :=
  let '(reviews, added) := st in
  let title := find_names it ["h3"; "h4"] in
  let title_text := text_or_empty title in
  let body := find_names it ["p"] in
  let body_text := body_or_empty body in
  let date_tag := find_lambda it is_time_or_span in
  let date_text := date_text_of date_tag in
  let date_obj := date_obj_of date_text in
  skip <-? out_of_range date_obj start end_ ;;
  if skip then inr (reviews, added)
  else
    let rating := find_attrs it ("class", "rating") in
    let rating_text := text_or_empty rating in
    let reviewer := orelse (find_attrs it ("class", "reviewer-name"))
                           (find_names it ["strong"]) in
    let reviewer_text := text_or_empty reviewer in
    let review := mkreview title_text body_text (date_field date_obj date_text)
                           rating_text reviewer_text "capterra" in
    inr ((reviews ++ [review])%list, added + 1).

(** Lines 144-186. *)
Fixpoint capterra_pages (fuel : nat) (product_url : string) (start end_ : option datetime)
  (page : Z) (reviews : list review) : M (list review) :=
  match fuel with
  | O => unfinished
  | S fuel' =>
      let page_url := capterra_page_url product_url page in
      eprint ("Fetching " ++ page_url) ;;;
      r <- get page_url ;;
      if negb (status_code r =? 200) then ret reviews
      else
        let soup := BeautifulSoup (text r) in
        let items := capterra_items soup in
        match items with
        | [] => ret reviews
        | _ =>
            st <- lift (for_each (capterra_card start end_) items (reviews, 0)) ;;
            let '(reviews, added) := st in
            if added =? 0 then ret reviews
            else capterra_pages fuel' product_url start end_ (page + 1) reviews
        end
  end.

Definition scrape_capterra (fuel : nat) (company : string) (start end_ : option datetime)
  : M (list review) :=
  product_url <- capterra_product_url company ;;
  capterra_pages fuel product_url start end_ 1 [].

(** ** scrape_trustradius (lines 188-249) *)

(** Lines 195-207. *)
Definition trustradius_product_url (company : string) : M string :=
  if startswith company "http" then ret (rstrip company "/")
  else
    let q := replace company " " "+" in
    let search_url := "https://www.trustradius.com/search?query=" ++ q in
    r <- get search_url ;;
    let soup := BeautifulSoup (text r) in
    let link := soup_find soup "a" ("class", "search-result-link") in
    match href_of link with
    | Some href => ret ("https://www.trustradius.com" ++ href)
    | None =>
        let slug := replace (lower company) " " "-" in
        ret ("https://www.trustradius.com/products/" ++ slug ++ "/reviews")
    end.

(** Line 211. *)
Definition trustradius_page_url (product_url : string) (page : Z) : string :=
  product_url ++ (if negb (contains "/reviews" product_url)
                  then "/reviews?page=" ++ str_int page
                  else "?page=" ++ str_int page).

(** Line 217. *)
Definition trustradius_items (soup : soup) : list tag :=
  select soup "div.review-card, article.review".

(** Lines 221-244. *)
Definition trustradius_card (start end_ : option datetime) (it : tag) (st : list review * Z)
  : E (list review * Z) :=
  let '(reviews, added) := st in
  let title := find_names it ["h3"; "h4"] in
  let title_text := text_or_empty title in
  let body := orelse (find_name_attrs it "div" ("class", "review-body"))
                     (find_names it ["p"]) in
  let body_text := body_or_empty body in
  let date_tag := find_names it ["time"] in
  let date_text := date_text_of date_tag in
  let date_obj := date_obj_of date_text in
  skip <-? out_of_range date_obj start end_ ;;
  if skip then inr (reviews, added)
  else
    let rating := find_attrs it ("class", "rating") in
    let rating_text := text_or_empty rating in
    let reviewer := orelse (find_attrs it ("class", "user-name"))
                           (find_names it ["strong"]) in
    let reviewer_text := text_or_empty reviewer in
    let review := mkreview title_text body_text (date_field date_obj date_text)
                           rating_text reviewer_text "trustradius" in
    inr ((reviews ++ [review])%list, added + 1).

(** Lines 209-249. *)
Fixpoint trustradius_pages (fuel : nat) (product_url : string) (start end_ : option datetime)
  (page : Z) (reviews : list review) : M (list review) :=
  match fuel with
  | O => unfinished
  | S fuel' =>
      let page_url := trustradius_page_url product_url page in
      eprint ("Fetching " ++ page_url) ;;;
      r <- get page_url ;;
      if negb (status_code r =? 200) then ret reviews
      else
        let soup := BeautifulSoup (text r) in
        let items := trustradius_items soup in
        match items with
        | [] => ret reviews
        | _ =>
            st <- lift (for_each (trustradius_card start end_) items (reviews, 0)) ;;
            let '(reviews, added) := st in
            if added =? 0 then ret reviews
            else trustradius_pages fuel' product_url start end_ (page + 1) reviews
        end
  end.

Definition scrape_trustradius (fuel : nat) (company : string) (start end_ : option datetime)
  : M (list review) :=
  product_url <- trustradius_product_url company ;;
  trustradius_pages fuel product_url start end_ 1 [].

(** ** main (lines 251-283) *)

(** The parsed command line.  [a_start] and [a_end] are [None] when the
    flag is absent; argparse admits only "g2", "capterra", "trustradius"
    and "all" for [a_source]. *)
Record args : Type := mkargs {
  a_company : string;
  a_start : option string;
  a_end : option string;
  a_source : string;
  a_output : string
}.

(** [parse_date_try(x) if x else None] on an optional flag. *)
Definition parse_bound (x : option string) : option datetime :=
  match x with
  | Some s => if truthy s then parse_date_try s else None
  | None => None
  end.

(** Lines 267-274: the dispatch on the source name. *)
Definition run_source (fuel : nat) (s : string) (company : string)
  (start end_ : option datetime) : M (list review) :=
  if String.eqb s "g2" then scrape_g2 fuel company start end_
  else if String.eqb s "capterra" then scrape_capterra fuel company start end_
  else if String.eqb s "trustradius" then scrape_trustradius fuel company start end_
  else ret [].

(** Lines 265-278: the [for s in sources] loop with its try/except. *)
Fixpoint run_sources (fuel : nat) (sources : list string) (company : string)
  (start end_ : option datetime) (all_reviews : list review) : M (list review) :=
  match sources with
  | [] => ret all_reviews
  | s :: sources' =>
      all_reviews' <-
        try_except
          (res <- run_source fuel s company start end_ ;;
           eprint ("Found " ++ str_int (Z.of_nat (List.length res)) ++ " reviews from " ++ s) ;;;
           ret (all_reviews ++ res)%list)
          (fun e =>
             eprint ("Error scraping " ++ s ++ ": " ++ str_exn e) ;;;
             ret all_reviews) ;;
      run_sources fuel sources' company start end_ all_reviews'
  end.

Definition sources_of (source : string) : list string :=
  if String.eqb source "all" then ["g2"; "capterra"; "trustradius"] else [source].

Definition main (fuel : nat) (a : args) : M unit :=
  let start := parse_bound (a_start a) in
  let end_ := parse_bound (a_end a) in
  let sources := sources_of (a_source a) in
  all_reviews <- run_sources fuel sources (a_company a) start end_ [] ;;
  dump_json (a_output a) all_reviews ;;;
  eprint ("Wrote " ++ str_int (Z.of_nat (List.length all_reviews)) ++ " reviews to "
          ++ a_output a).

End Script.

(* ===================================================================== *)
(** * The three scrapers as one loop *)
(* ===================================================================== *)

(** The three scrapers differ in their constants only.  [site] collects
    what differs; [pages] and [scrape] are the loop and the function
    they share, and [site_of] gives the constants of each scraper.  The
    equations that relate them to the definitions above are proved
    below. *)

Inductive source : Type := G2 | Capterra | TrustRadius.

Section Generic.

Context {W : World}.

Record site : Type := mksite {
  site_name : string;
  site_product_url : string -> M string;
  site_page_url : string -> Z -> string;
  site_items : soup -> list tag;
  site_date_tag : tag -> option tag;
  (** the record of a card, given its [date] field *)
  site_record : tag -> string -> review
}.

Variable cfg : site.

(** The text handed to the date parser for a card. *)
Definition card_date_text (it : tag) : string := date_text_of (site_date_tag cfg it).

(** The parsed date of a card. *)
Definition card_date_obj (it : tag) : option datetime :=
  date_obj_of (card_date_text it).

(** The record appended for a card that is kept. *)
Definition card_record (it : tag) : review :=
  site_record cfg it (date_field (card_date_obj it) (card_date_text it)).

Definition card (start end_ : option datetime) (it : tag) (st : list review * Z)
  : E (list review * Z) :=
  let '(reviews, added) := st in
  skip <-? out_of_range (card_date_obj it) start end_ ;;
  if skip then inr (reviews, added)
  else inr ((reviews ++ [card_record it])%list, added + 1).

Fixpoint pages (fuel : nat) (product_url : string) (start end_ : option datetime)
  (page : Z) (reviews : list review) : M (list review) :=
  match fuel with
  | O => unfinished
  | S fuel' =>
      let page_url := site_page_url cfg product_url page in
      eprint ("Fetching " ++ page_url) ;;;
      r <- get page_url ;;
      if negb (status_code r =? 200) then ret reviews
      else
        let soup := BeautifulSoup (text r) in
        let items := site_items cfg soup in
        match items with
        | [] => ret reviews
        | _ =>
            st <- lift (for_each (card start end_) items (reviews, 0)) ;;
            let '(reviews, added) := st in
            if added =? 0 then ret reviews
            else pages fuel' product_url start end_ (page + 1) reviews
        end
  end.

Definition scrape (fuel : nat) (company : string) (start end_ : option datetime)
  : M (list review) :=
  product_url <- site_product_url cfg company ;;
  pages fuel product_url start end_ 1 [].

End Generic.

Section Sites.

Context {W : World}.

Definition g2_site : site :=
  mksite "g2" g2_product_url g2_page_url g2_items
    (fun it => find_lambda it is_time_or_date_span)
    (fun it date =>
       mkreview (text_or_empty (find_lambda it is_h3_h4_h2))
                (body_or_empty (find_names it ["p"]))
                date
                (text_or_empty (find_attrs it ("data-qa", "rating")))
                (text_or_empty (orelse (find_attrs it ("data-qa", "reviewer-name"))
                                       (find_names it ["strong"])))
                "g2").

Definition capterra_site : site :=
  mksite "capterra" capterra_product_url capterra_page_url capterra_items
    (fun it => find_lambda it is_time_or_span)
    (fun it date =>
       mkreview (text_or_empty (find_names it ["h3"; "h4"]))
                (body_or_empty (find_names it ["p"]))
                date
                (text_or_empty (find_attrs it ("class", "rating")))
                (text_or_empty (orelse (find_attrs it ("class", "reviewer-name"))
                                       (find_names it ["strong"])))
                "capterra").

Definition trustradius_site : site :=
  mksite "trustradius" trustradius_product_url trustradius_page_url trustradius_items
    (fun it => find_names it ["time"])
    (fun it date =>
       mkreview (text_or_empty (find_names it ["h3"; "h4"]))
                (body_or_empty (orelse (find_name_attrs it "div" ("class", "review-body"))
                                       (find_names it ["p"])))
                date
                (text_or_empty (find_attrs it ("class", "rating")))
                (text_or_empty (orelse (find_attrs it ("class", "user-name"))
                                       (find_names it ["strong"])))
                "trustradius").

Definition site_of (src : source) : site :=
  match src with
  | G2 => g2_site
  | Capterra => capterra_site
  | TrustRadius => trustradius_site
  end.

(** The script's own functions, by source. *)
Definition scrape_of (src : source)
  : nat -> string -> option datetime -> option datetime -> M (list review) :=
  match src with
  | G2 => scrape_g2
  | Capterra => scrape_capterra
  | TrustRadius => scrape_trustradius
  end.

Definition pages_of (src : source)
  : nat -> string -> option datetime -> option datetime -> Z -> list review
    -> M (list review) :=
  match src with
  | G2 => g2_pages
  | Capterra => capterra_pages
  | TrustRadius => trustradius_pages
  end.

Definition card_of (src : source)
  : option datetime -> option datetime -> tag -> list review * Z -> E (list review * Z) :=
  match src with
  | G2 => g2_card
  | Capterra => capterra_card
  | TrustRadius => trustradius_card
  end.

Definition product_url_of (src : source) : string -> M string :=
  match src with
  | G2 => g2_product_url
  | Capterra => capterra_product_url
  | TrustRadius => trustradius_product_url
  end.

Definition page_url_of (src : source) : string -> Z -> string :=
  match src with
  | G2 => g2_page_url
  | Capterra => capterra_page_url
  | TrustRadius => trustradius_page_url
  end.

Definition items_of (src : source) : soup -> list tag :=
  match src with
  | G2 => g2_items
  | Capterra => capterra_items
  | TrustRadius => trustradius_items
  end.

End Sites.


(* ===================================================================== *)
(** * A table-driven environment for concrete runs *)
(* ===================================================================== *)

Module Stub.

(** A document tree.  Element queries follow BeautifulSoup: [find]
    returns the first descendant in document order that matches, an
    attribute filter on [class] matches one of the class names or the
    whole value, and [get_text(sep, strip=True)] joins the stripped,
    non-empty text nodes below the element. *)
#[local] Set Warnings "-register-all".
Inductive node : Type :=
| Text (s : string)
| Elem (name : string) (attrs : list (string * string)) (kids : list node).

Definition is_elem (n : node) : bool :=
  match n with
  | Elem _ _ _ => true
  | Text _ => false
  end.

Fixpoint descendants (n : node) : list node :=
  match n with
  | Text _ => []
  | Elem _ _ kids =>
      (fix go (l : list node) : list node :=
         match l with
         | [] => []
         | k :: l' => ((if is_elem k then [k] else []) ++ descendants k ++ go l')%list
         end) kids
  end.

Fixpoint texts (n : node) : list string :=
  match n with
  | Text s => [s]
  | Elem _ _ kids =>
      (fix go (l : list node) : list string :=
         match l with
         | [] => []
         | k :: l' => (texts k ++ go l')%list
         end) kids
  end.

Fixpoint assoc {A} (k : string) (l : list (string * A)) : option A :=
  match l with
  | [] => None
  | (k', v) :: l' => if String.eqb k k' then Some v else assoc k l'
  end.

Definition name_of (n : node) : string :=
  match n with
  | Elem nm _ _ => nm
  | Text _ => ""
  end.

Definition attr (n : node) (a : string) : option string :=
  match n with
  | Elem _ attrs _ => assoc a attrs
  | Text _ => None
  end.

(** White-space separated words of an attribute value. *)
Fixpoint words_aux (s : string) (cur : string) : list string :=
  match s with
  | EmptyString => if truthy cur then [cur] else []
  | String c s' =>
      if isspace c then (if truthy cur then cur :: words_aux s' "" else words_aux s' "")
      else words_aux s' (cur ++ String c "")
  end.

Definition words (s : string) : list string := words_aux s "".

Definition classes (n : node) : option (list string) :=
  match attr n "class" with
  | Some v => Some (words v)
  | None => None
  end.

Definition attr_matches (n : node) (av : string * string) : bool :=
  let '(a, v) := av in
  match attr n a with
  | Some x =>
      String.eqb x v || (String.eqb a "class" && existsb (String.eqb v) (words x))
  | None => false
  end.

Definition first_desc (n : node) (p : node -> bool) : option node :=
  List.find p (descendants n).

Fixpoint join (sep : string) (l : list string) : string :=
  match l with
  | [] => ""
  | [x] => x
  | x :: l' => x ++ sep ++ join sep l'
  end.

Definition node_text (n : node) (sep : string) : string :=
  join sep (filter truthy (map strip (texts n))).

(** A parsed document: its tree, and the elements each CSS selector of
    the script picks in it. *)
Record document : Type := mkdocument {
  root : node;
  selections : list (string * list node)
}.

Definition empty_document : document := mkdocument (Elem "html" [] []) [].

(** ** datetime.fromisoformat of CPython 3.11

    The interpreter runs [datetime_fromisoformat] of its C module
    [_datetime].  The definitions below follow that function and the
    functions it calls, one by one and under their names, on the UTF-8
    bytes of the text, with a pointer into the buffer as an index.  A
    read at the end of the buffer gives the NUL that ends it.  [None]
    stands for the ValueError.  The grammar is wider than the forms
    [isoformat] prints: basic and week dates, any one character as
    separator, a time cut after the hour or the minute, a fraction of
    any length, [Z] and offsets with seconds are accepted, and so are
    some malformed times that the function does not notice. *)

Definition utf8 (s : string) : list Z :=
  flat_map (fun c => let n := Z.of_N (N_of_ascii c) in
                     if n <? 128 then [n] else [192 + n / 64; 128 + n mod 64])
           (list_ascii_of_string s).

(** [buf[i]] *)
Definition byte_at (b : list Z) (i : nat) : Z := nth i b 0.

Definition chr (c : ascii) : Z := Z.of_N (N_of_ascii c).

Definition is_digit (c : Z) : bool := (48 <=? c) && (c <=? 57).

(** [num_digits] decimal digits at [p], added to [var]; the index after
    them. *)
Fixpoint parse_digits (b : list Z) (p : nat) (var : Z) (num_digits : nat)
  : option (nat * Z) :=
  match num_digits with
  | O => Some (p, var)
  | S n =>
      let c := byte_at b p in
      if is_digit c then parse_digits b (S p) (var * 10 + (c - 48)) n else None
  end.

(** The index past the run of digits at [idx], within [fuel] bytes. *)
Fixpoint skip_digits (b : list Z) (idx : nat) (fuel : nat) : nat :=
  match fuel with
  | O => idx
  | S fuel' => if is_digit (byte_at b idx) then skip_digits b (S idx) fuel' else idx
  end.

(** Where the character between date and time is looked for, by the
    shape of the date; [None] is the function's -1. *)
Definition find_isoformat_datetime_separator (b : list Z) (len : nat) : option nat :=
  if (len =? 7)%nat then Some 7%nat
  else if byte_at b 4 =? chr "-" then
    if byte_at b 5 =? chr "W" then
      if (len <? 8)%nat then None
      else if (8 <? len)%nat && (byte_at b 8 =? chr "-") then
        if (len =? 9)%nat then None
        else if (10 <? len)%nat && is_digit (byte_at b 10) then Some 8%nat
        else Some 10%nat
      else Some 8%nat
    else Some 10%nat
  else if byte_at b 4 =? chr "W" then
    let idx := skip_digits b 7 (len - 7) in
    if (idx <? 9)%nat then Some idx
    else if Nat.even idx then Some 7%nat else Some 8%nat
  else Some 8%nat.

(** The calendar arithmetic of the C module; [/] and [%] of C truncate
    towards zero. *)
Definition c_days_before_year (year : Z) : Z :=
  let y := year - 1 in
  y * 365 + Z.quot y 4 - Z.quot y 100 + Z.quot y 400.

Definition ymd_to_ord (year month day : Z) : Z :=
  c_days_before_year year + days_before_month year month + day.

Definition weekday (year month day : Z) : Z :=
  Z.rem (ymd_to_ord year month day + 6) 7.

Definition iso_week1_monday (year : Z) : Z :=
  let first_day := ymd_to_ord year 1 1 in
  let first_weekday := Z.rem (first_day + 6) 7 in
  let week1_monday := first_day - first_weekday in
  if 3 <? first_weekday then week1_monday + 7 else week1_monday.

Definition c_days_before_month : list Z :=
  [0; 0; 31; 59; 90; 120; 151; 181; 212; 243; 273; 304; 334].

(** For an ordinal from 1 on. *)
Definition ord_to_ymd (ordinal : Z) : Z * Z * Z :=
  let ordinal := ordinal - 1 in
  let n400 := Z.quot ordinal 146097 in
  let n := Z.rem ordinal 146097 in
  let year := n400 * 400 + 1 in
  let n100 := Z.quot n 36524 in
  let n := Z.rem n 36524 in
  let n4 := Z.quot n 1461 in
  let n := Z.rem n 1461 in
  let n1 := Z.quot n 365 in
  let n := Z.rem n 365 in
  let year := year + n100 * 100 + n4 * 4 + n1 in
  if (n1 =? 4) || (n100 =? 4) then (year - 1, 12, 31)
  else
    let leapyear := (n1 =? 3) && (negb (n4 =? 24) || (n100 =? 3)) in
    let month := Z.shiftr (n + 50) 5 in
    let preceding := nth (Z.to_nat month) c_days_before_month 0
                     + (if (2 <? month) && leapyear then 1 else 0) in
    if n <? preceding then
      (year, month - 1, n - (preceding - days_in_month year (month - 1)) + 1)
    else (year, month, n - preceding + 1).

(** An ordinal below 1, which only a week of the year 0000 gives,
    leaves [ord_to_ymd] of the C module with a month below 1, and the
    constructor of the datetime rejects it. *)
Definition iso_to_ymd (iso_year iso_week iso_day : Z) : option (Z * Z * Z) :=
  let out_of_range :=
    if (iso_week <=? 0) || (53 <=? iso_week) then
      if iso_week =? 53 then
        let first_weekday := weekday iso_year 1 1 in
        negb ((first_weekday =? 3) || ((first_weekday =? 2) && is_leap iso_year))
      else true
    else false in
  if out_of_range then None
  else if (iso_day <=? 0) || (8 <=? iso_day) then None
  else
    let ordinal := iso_week1_monday iso_year + (iso_week - 1) * 7 + iso_day - 1 in
    if ordinal <? 1 then None else Some (ord_to_ymd ordinal).

(** The date, which runs up to [len]: [YYYY-MM-DD], [YYYYMMDD],
    [YYYY-Www], [YYYYWww], [YYYY-Www-d] or [YYYYWwwd]. *)
Definition parse_isoformat_date (b : list Z) (len : option nat) : option (Z * Z * Z) :=
  match parse_digits b 0 0 4 with
  | None => None
  | Some (p, year) =>
      let uses_separator := byte_at b p =? chr "-" in
      let p := if uses_separator then S p else p in
      if byte_at b p =? chr "W" then
        match parse_digits b (S p) 0 2 with
        | None => None
        | Some (p, iso_week) =>
            if match len with
               | Some len => (p <? len)%nat
               | None => true
               end
            then
              if uses_separator && negb (byte_at b p =? chr "-") then None
              else
                match parse_digits b (if uses_separator then S p else p) 0 1 with
                | None => None
                | Some (_, iso_day) => iso_to_ymd year iso_week iso_day
                end
            else iso_to_ymd year iso_week 1
        end
      else
        match parse_digits b p 0 2 with
        | None => None
        | Some (p, month) =>
            if uses_separator && negb (byte_at b p =? chr "-") then None
            else
              match parse_digits b (if uses_separator then S p else p) 0 2 with
              | None => None
              | Some (_, day) => Some (year, month, day)
              end
        end
  end.

(** How the loop over hour, minute and second ends: with an error,
    with a return (of 1 when the byte after the last field is not NUL),
    or at the fraction. *)
Inductive fields_end : Type :=
| Malformed
| Returned (rest : bool)
| Fraction (p : nat).

(** The loop [for (i = 0; i < 3; ++i)] of [parse_hh_mm_ss_ff], with
    [n] turns to go; the fields read so far are in [vals]. *)
Fixpoint parse_hh_mm_ss (b : list Z) (p_end : nat) (n i : nat) (p : nat)
  (has_separator : bool) (vals : list Z) : fields_end * list Z :=
  match n with
  | O => (Fraction p, vals)
  | S n' =>
      match parse_digits b p 0 2 with
      | None => (Malformed, vals)
      | Some (p, v) =>
          let vals := (vals ++ [v])%list in
          let c := byte_at b p in
          let p := S p in
          let has_separator := if (i =? 0)%nat then c =? chr ":" else has_separator in
          if (p_end <=? p)%nat then (Returned (negb (c =? 0)), vals)
          else if has_separator && (c =? chr ":") then
            parse_hh_mm_ss b p_end n' (S i) p has_separator vals
          else if (c =? chr ".") || (c =? chr ",") then (Fraction p, vals)
          else if negb has_separator then
            parse_hh_mm_ss b p_end n' (S i) (p - 1) has_separator vals
          else (Malformed, vals)
      end
  end.

Definition correction : list Z := [100000; 10000; 1000; 100; 10].

(** [HH[:?MM[:?SS[{.,}f+]]]] between [p] and [p_end]: whether the
    function returns 1, and hour, minute, second and microsecond. *)
Definition parse_hh_mm_ss_ff (b : list Z) (p p_end : nat)
  : option (bool * (Z * Z * Z * Z)) :=
  let '(e, vals) := parse_hh_mm_ss b p_end 3 0 p true [] in
  let hour := nth 0 vals 0 in
  let minute := nth 1 vals 0 in
  let second := nth 2 vals 0 in
  match e with
  | Malformed => None
  | Returned rest => Some (rest, (hour, minute, second, 0))
  | Fraction p =>
      let len_remains := (p_end - p)%nat in
      let to_parse := Nat.min len_remains 6 in
      match parse_digits b p 0 to_parse with
      | None => None
      | Some (p, microsecond) =>
          let microsecond :=
            if (to_parse <? 6)%nat then microsecond * nth (to_parse - 1) correction 1
            else microsecond in
          let p := skip_digits b p (List.length b) in
          Some (negb (byte_at b p =? 0), (hour, minute, second, microsecond))
      end
  end.

Definition is_tz_start (c : Z) : bool :=
  (c =? chr "Z") || (c =? chr "+") || (c =? chr "-").

(** The do-while loop that looks for the first [Z], [+] or [-]: the
    byte at [pos] is tested before [pos] is compared with the end, and
    [todo] bytes lie between the next index and the end. *)
Fixpoint find_tzinfo (b : list Z) (pos : nat) (todo : nat) : nat :=
  if is_tz_start (byte_at b pos) then pos
  else
    match todo with
    | O => S pos
    | S todo' => find_tzinfo b (S pos) todo'
    end.

(** The time of [dtlen] bytes at [p]: hour, minute, second,
    microsecond, and the offset in seconds and microseconds when one
    is given. *)
Definition parse_isoformat_time (b : list Z) (p dtlen : nat)
  : option (Z * Z * Z * Z * option (Z * Z)) :=
  let p_end := (p + dtlen)%nat in
  let tzinfo_pos := find_tzinfo b p (dtlen - 1) in
  match parse_hh_mm_ss_ff b p tzinfo_pos with
  | None => None
  | Some (rest, t) =>
      if (tzinfo_pos =? p_end)%nat then
        if rest then None else Some (t, None)
      else if byte_at b tzinfo_pos =? chr "Z" then
        if byte_at b (S tzinfo_pos) =? 0 then Some (t, Some (0, 0)) else None
      else
        let tzsign := if byte_at b tzinfo_pos =? chr "-" then -1 else 1 in
        match parse_hh_mm_ss_ff b (S tzinfo_pos) p_end with
        | Some (false, (tzhour, tzminute, tzsecond, tzmicrosecond)) =>
            Some (t, Some (tzsign * (tzhour * 3600 + tzminute * 60 + tzsecond),
                           tzsign * tzmicrosecond))
        | _ => None
        end
  end.

(** The tzinfo, as an offset in microseconds: UTC for an offset of
    zero seconds, else a timezone, whose offset must lie strictly
    between minus and plus 24 hours. *)
Definition tzinfo_from_isoformat_results (tz : option (Z * Z)) : option (option Z) :=
  match tz with
  | None => Some None
  | Some (tzoffset, tz_useconds) =>
      if tzoffset =? 0 then Some (Some 0)
      else
        let offset := tzoffset * 1000000 + tz_useconds in
        if (-86400000000 <? offset) && (offset <? 86400000000) then Some (Some offset)
        else None
  end.

(** The constructor, which checks the ranges of the fields. *)
Definition new_datetime (year month day hour minute second usecond : Z)
  (tz : option Z) : option datetime :=
  if in_range 1 9999 year && in_range 1 12 month
     && in_range 1 (days_in_month year month) day
     && in_range 0 23 hour && in_range 0 59 minute && in_range 0 59 second
     && in_range 0 999999 usecond
  then Some (mkdatetime year month day hour minute second usecond tz)
  else None.

(** Bytes of the UTF-8 character whose first byte is [c]. *)
Definition utf8_width (c : Z) : nat :=
  if Z.land c 128 =? 0 then 1
  else if Z.land c 240 =? 224 then 3
  else if Z.land c 240 =? 240 then 4
  else 2.

(** [datetime.fromisoformat(s)] *)
Definition datetime_fromisoformat (s : string) : option datetime :=
  if (String.length s <? 7)%nat then None
  else
    let b := utf8 s in
    let len := List.length b in
    let separator_location := find_isoformat_datetime_separator b len in
    match parse_isoformat_date b separator_location, separator_location with
    | Some (year, month, day), Some sep =>
        match (if (sep <? len)%nat
               then let p := (sep + utf8_width (byte_at b sep))%nat in
                    parse_isoformat_time b p (len - p)
               else Some (0, 0, 0, 0, None)) with
        | Some (hour, minute, second, microsecond, tz) =>
            match tzinfo_from_isoformat_results tz with
            | Some tzinfo =>
                new_datetime year month day hour minute second microsecond tzinfo
            | None => None
            end
        | None => None
        end
    | _, _ => None
    end.

(** The environment given by a table of responses by URL (a URL that
    is not listed answers 404) and a table of documents by response
    text.  The interpreter is CPython 3.11, and [open] fails on the
    empty path and opens every other. *)
Definition world (net : list (string * (exn + response)))
                 (docs : list (string * document)) : World :=
  {| fromisoformat := datetime_fromisoformat;
     open_w := fun path =>
       if truthy path then None
       else Some (OSError "[Errno 2] No such file or directory: ''");
     session_get := fun url =>
       match assoc url net with
       | Some r => r
       | None => inr (mkresponse 404 "")
       end;
     soup := document;
     tag := node;
     BeautifulSoup := fun txt =>
       match assoc txt docs with
       | Some d => d
       | None => empty_document
       end;
     soup_find := fun d nm av =>
       first_desc (root d) (fun n => String.eqb (name_of n) nm && attr_matches n av);
     select := fun d css =>
       match assoc css (selections d) with
       | Some l => l
       | None => []
       end;
     find_lambda := first_desc;
     find_names := fun n nms =>
       first_desc n (fun k => existsb (String.eqb (name_of k)) nms);
     find_name_attrs := fun n nm av =>
       first_desc n (fun k => String.eqb (name_of k) nm && attr_matches k av);
     find_attrs := fun n av => first_desc n (fun k => attr_matches k av);
     tag_name := name_of;
     tag_get := attr;
     tag_get_class := classes;
     get_text := node_text |}.

End Stub.

(* ===================================================================== *)
(** * A concrete run: the product "Zoom" *)
(* ===================================================================== *)

(** G2 finds the product by search and serves three listing pages;
    Capterra's search fails at the transport layer; TrustRadius has no
    search hit, so the slug URL is used, and serves one page of five
    cards. *)
Module Zoom.

Import Stub.

Definition card_node (heading title body : string) (date : list node)
  (rating reviewer : string) : node :=
  Elem "div" [("itemprop", "review"); ("class", "review-card")]
    ([Elem heading [] [Text title]; Elem "p" [] [Text body]] ++ date ++
     [Elem "span" [("data-qa", "rating"); ("class", "rating")] [Text rating];
      Elem "strong" [] [Text reviewer]]).

Definition time_node (iso : string) (shown : string) : node :=
  Elem "time" [("datetime", iso)] [Text shown].

(** Page 1 of G2: a card dated inside 2023, a card whose date text is
    not a date, and a card without a date element. *)
Definition g2_card_a : node :=
  card_node "h3" "Great" "Works  well" [time_node "2023-03-01" "Mar 1, 2023"] "5" "Ann".
Definition g2_card_b : node :=
  card_node "h3" "Fine" "Does the job" [Elem "span" [("class", "meta date")] [Text "garbage"]]
            "4" "Bob".
Definition g2_card_c : node :=
  card_node "h4" "No date" "Undated" [] "3" "Cy".

(** Page 2 of G2: both cards dated before 2023. *)
Definition g2_card_d : node :=
  card_node "h3" "Old" "From 2020" [time_node "2020-05-01" "May 1, 2020"] "2" "Di".
Definition g2_card_e : node :=
  card_node "h3" "Older" "From 2021" [Elem "time" [] [Text " January 3, 2021 "]] "1" "Ed".

(** Page 3 of G2: one card dated inside 2023. *)
Definition g2_card_f : node :=
  card_node "h3" "Recent" "From June" [time_node "2023-06-01" "Jun 1, 2023"] "5" "Flo".

Definition tr_card (n : string) : node :=
  card_node "h3" ("Review " ++ n) "Text" [time_node ("2023-04-0" ++ n) ""] "4" ("User " ++ n).

Definition tr_cards : list node := map tr_card ["1"; "2"; "3"; "4"; "5"].

Definition page_document (css : string) (cards : list node) : document :=
  mkdocument (Elem "html" [] [Elem "body" [] cards]) [(css, cards)].

Definition g2_search_document : document :=
  mkdocument
    (Elem "html" []
       [Elem "body" []
          [Elem "a" [("href", "/about")] [Text "About"];
           Elem "a" [("data-qa", "product-card-link"); ("href", "/products/zoom/reviews")]
                [Text "Zoom"]]])
    [].

Definition docs : list (string * document) :=
  [("g2 search", g2_search_document);
   ("g2 page 1", page_document "div[itemprop='review']" [g2_card_a; g2_card_b; g2_card_c]);
   ("g2 page 2", page_document "div[itemprop='review']" [g2_card_d; g2_card_e]);
   ("g2 page 3", page_document "div[itemprop='review']" [g2_card_f]);
   ("tr search", empty_document);
   ("tr page 1", page_document "div.review-card, article.review" tr_cards)].

Definition net : list (string * (exn + response)) :=
  [("https://www.g2.com/search?q=Zoom", inr (mkresponse 200 "g2 search"));
   ("https://www.g2.com/products/zoom/reviews?page=1", inr (mkresponse 200 "g2 page 1"));
   ("https://www.g2.com/products/zoom/reviews?page=2", inr (mkresponse 200 "g2 page 2"));
   ("https://www.g2.com/products/zoom/reviews?page=3", inr (mkresponse 200 "g2 page 3"));
   ("https://www.capterra.com/search?q=Zoom", inl (RequestException "connection refused"));
   ("https://www.trustradius.com/search?query=Zoom", inr (mkresponse 200 "tr search"));
   ("https://www.trustradius.com/products/zoom/reviews?page=1",
    inr (mkresponse 200 "tr page 1"))].

Definition W : World := world net docs.

(** The G2 listing URL that the search leads to. *)
Definition listing : string := "https://www.g2.com/products/zoom/reviews".

Definition jan_1_2023 : datetime := mkdatetime 2023 1 1 0 0 0 0 None.
Definition dec_31_2023 : datetime := mkdatetime 2023 12 31 0 0 0 0 None.

Definition cli (start end_ : option string) (source : string) : args :=
  mkargs "Zoom" start end_ source "reviews_output.json".

End Zoom.

(** A second site: a G2 listing, given by its URL, whose only card
    carries a date with a UTC offset. *)
Module Meet.

Import Stub.

Definition company : string := "https://www.g2.com/products/meet/reviews/".

Definition card : node :=
  Zoom.card_node "h3" "Calls" "Clear sound"
    [Zoom.time_node "2023-05-01T10:00:00+00:00" "May 1, 2023"] "5" "Gus".

Definition docs : list (string * document) :=
  [("meet page 1", Zoom.page_document "div[itemprop='review']" [card])].

Definition net : list (string * (exn + response)) :=
  [("https://www.g2.com/products/meet/reviews?page=1", inr (mkresponse 200 "meet page 1"))].

Definition W : World := world net docs.

End Meet.

(* ===================================================================== *)
(** * Notions used to state the properties *)
(* ===================================================================== *)

(** ** Order on dates *)

(** [a <= b] on datetimes: the comparison is defined and is not [Gt]. *)
Definition dt_le (a b : datetime) : Prop :=
  dt_compare a b = inr Lt \/ dt_compare a b = inr Eq.

(** A boundary endpoint holds of a date; an absent endpoint always
    does. *)
Definition start_ok (start : option datetime) (d : datetime) : Prop :=
  match start with
  | Some s => dt_le s d
  | None => True
  end.

Definition end_ok (end_ : option datetime) (d : datetime) : Prop :=
  match end_ with
  | Some e => dt_le d e
  | None => True
  end.

(** ** Effects *)

(** The effects of one computation joined to those before it. *)
Definition io_app (s d : io) : io :=
  mkio (stderr s ++ stderr d) (requests s ++ requests d) (files s ++ files d).

(** A computation that only adds to [io]: what it adds and how it ends
    do not depend on what was there. *)
Definition writer {A} (m : M A) : Prop :=
  forall s, m s = (io_app s (fst (m io0)), snd (m io0)).

(** A computation that writes no file. *)
Definition no_files {A} (m : M A) : Prop :=
  forall s, files (fst (m s)) = files s.

(** How a computation ends, and what it leaves behind, from scratch. *)
Definition outcome {A} (m : M A) : result A := snd (m io0).
Definition effects {A} (m : M A) : io := fst (m io0).

(** The URLs requested between two states of [io]. *)
Definition requested_since (before after : io) : list string :=
  skipn (List.length (requests before)) (requests after).

(** The records a source contributes: those it returned, none when it
    raised. *)
Definition records_of (r : result (list review)) : list review :=
  match r with
  | Return l => l
  | _ => []
  end.

(** The line [main] prints for a source that raised. *)
Definition error_line (s : string) (e : exn) : string :=
  "Error scraping " ++ s ++ ": " ++ str_exn e.

(** ** Pages and cards *)

(** The [source] value of a scraper's records. *)
Definition source_tag (src : source) : string :=
  match src with
  | G2 => "g2"
  | Capterra => "capterra"
  | TrustRadius => "trustradius"
  end.

(** The pages [page], [page + 1], ..., [k] of them. *)
Definition page_range (page : Z) (k : nat) : list Z :=
  map (fun i => page + Z.of_nat i) (seq 0 k).

(** What fetching the listing pages [pages] of [product_url] adds. *)
Definition fetched `{W : World} (cfg : site) (product_url : string) (pages : list Z) : io :=
  let urls := map (site_page_url cfg product_url) pages in
  mkio (map (fun u => "Fetching " ++ u) urls) urls [].

(** A card the date filter lets through. *)
Definition kept `{W : World} (cfg : site) (start end_ : option datetime) (it : tag) : bool :=
  match out_of_range (card_date_obj cfg it) start end_ with
  | inr false => true
  | _ => false
  end.

(** A card the date filter drops: its date parsed and the range check
    said no. *)
Definition dropped `{W : World} (cfg : site) (start end_ : option datetime) (it : tag) : Prop :=
  exists d, card_date_obj cfg it = Some d /\ within_range d start end_ = inr false.

(** [it] is a card selected on page [n], one of the [k] pages from
    [page] on, and that page answered with status 200. *)
Definition card_on_page `{W : World} (cfg : site) (p : string) (k : nat) (page : Z)
  (n : Z) (it : tag) : Prop :=
  In n (page_range page k) /\
  exists r, session_get (site_page_url cfg p n) = inr r /\ status_code r = 200
            /\ In it (site_items cfg (BeautifulSoup (text r))).

(** What a returned run of the page loop guarantees about the [k]
    pages it fetched from [page] on: the result is the records it
    started with followed by records of kept cards of those pages;
    every kept card of those pages is among them; and every card of
    those pages is kept or dropped. *)
Definition run_ok `{W : World} (cfg : site) (start end_ : option datetime) (p : string)
  (k : nat) (page : Z) (reviews out : list review) : Prop :=
  exists more,
    out = (reviews ++ more)%list
    /\ Forall (fun rec => exists n it, card_on_page cfg p k page n it
                           /\ kept cfg start end_ it = true
                           /\ rec = card_record cfg it) more
    /\ (forall n it, card_on_page cfg p k page n it -> kept cfg start end_ it = true ->
                     In (card_record cfg it) more)
    /\ (forall n it, card_on_page cfg p k page n it ->
                     kept cfg start end_ it = true \/ dropped cfg start end_ it).

(** The [date] field of the record of a card: the [isoformat] of the
    parsed date, the text handed to the parser when it did not parse,
    and the empty text when the card has no date element. *)
Definition date_field_ok `{W : World} (cfg : site) (it : tag) (rec : review) : Prop :=
  match card_date_obj cfg it with
  | Some d => r_date rec = isoformat d
  | None => r_date rec = card_date_text cfg it
  end
  /\ (site_date_tag cfg it = None -> r_date rec = "").

(** ** Strings *)

(** Last character of a string. *)
Fixpoint last_char (s : string) : option ascii :=
  match s with
  | EmptyString => None
  | String a EmptyString => Some a
  | String _ s' => last_char s'
  end.

(** [k] copies of a character. *)
Fixpoint copies (c : ascii) (k : nat) : string :=
  match k with
  | O => EmptyString
  | S k' => String c (copies c k')
  end.

(** The spec's calendar date: [YYYY-MM-DD] and nothing else. *)
Definition iso_calendar_date (s : string) : bool :=
  match cands_Y s with
  | [(_, String "-" s1)] =>
      match two_digits s1 with
      | Some (_, _, String "-" s2) =>
          match two_digits s2 with
          | Some (_, _, EmptyString) => true
          | _ => false
          end
      | _ => false
      end
  | _ => false
  end.

(** A character of a calendar date: a digit or a hyphen. *)
Definition date_char (c : ascii) : bool :=
  match digit c with
  | Some _ => true
  | None => Ascii.eqb c "-"
  end.

Fixpoint date_chars (s : string) : bool :=
  match s with
  | EmptyString => true
  | String c s' => date_char c && date_chars s'
  end.

(** ** Three statements as the spec words them *)

(** C1 as stated: a page that answered 200 and on which cards were
    selected is always followed by a request for the next page. *)
Definition next_page_after_any_cards `{W : World} (src : source) (p : string)
  (start end_ : option datetime) (page : Z) : Prop :=
  forall r,
    session_get (page_url_of src p page) = inr r ->
    status_code r = 200 ->
    items_of src (BeautifulSoup (text r)) <> [] ->
    In (page_url_of src p (page + 1))
       (requests (effects (pages_of src 2 p start end_ page []))).

(** C3 as stated: [?page=N] without a query string, [&page=N] with
    one, for every scraper. *)
Definition page_param_as_stated (src : source) (p : string) (n : Z) : Prop :=
  page_url_of src p n
  = p ++ (if contains "?" p then "&page=" else "?page=") ++ str_int n.

(** C6 as stated: a calendar date when the text parsed, the raw text
    otherwise. *)
Definition date_as_stated `{W : World} (cfg : site) (it : tag) (rec : review) : Prop :=
  match card_date_obj cfg it with
  | Some _ => iso_calendar_date (r_date rec) = true
  | None => r_date rec = card_date_text cfg it
  end.

(** ** Whole runs *)

(** The cards of listing page [n]: those selected on it when it answers
    with status 200, none otherwise. *)
Definition page_cards `{W : World} (cfg : site) (p : string) (n : Z) : list tag :=
  match session_get (site_page_url cfg p n) with
  | inr r => if status_code r =? 200 then site_items cfg (BeautifulSoup (text r)) else []
  | inl _ => []
  end.

(** The records of listing page [n]: those of its kept cards, in the
    order of the cards. *)
Definition page_records `{W : World} (cfg : site) (start end_ : option datetime)
  (p : string) (n : Z) : list review :=
  map (card_record cfg) (filter (kept cfg start end_) (page_cards cfg p n)).

(** A page at which the page loop ends whatever the cards: the request
    raises, the status is not 200, or no card is selected. *)
Definition last_page `{W : World} (cfg : site) (p : string) (n : Z) : Prop :=
  match session_get (site_page_url cfg p n) with
  | inl _ => True
  | inr r => status_code r <> 200 \/ site_items cfg (BeautifulSoup (text r)) = []
  end.

(** The message of the TypeError of a comparison. *)
Definition compare_error : exn :=
  TypeError "can't compare offset-naive and offset-aware datetimes".

(** A datetime with a UTC offset. *)
Definition aware (d : datetime) : bool :=
  match tzinfo d with
  | Some _ => true
  | None => false
  end.

(** Two datetimes that [<] and [>] accept: both naive or both aware. *)
Definition comparable (a b : datetime) : bool := Bool.eqb (aware a) (aware b).

(** The URL of each site that the locator and the fallback start from. *)
Definition site_base (src : source) : string :=
  match src with
  | G2 => "https://www.g2.com"
  | Capterra => "https://www.capterra.com"
  | TrustRadius => "https://www.trustradius.com"
  end.

(** The search URL of each site for a name. *)
Definition search_url_of (src : source) (company : string) : string :=
  match src with
  | G2 => "https://www.g2.com/search?q="
  | Capterra => "https://www.capterra.com/search?q="
  | TrustRadius => "https://www.trustradius.com/search?query="
  end ++ replace company " " "+".

(** What every URL of a run starts with: the URL given, without its
    trailing slashes, or the base URL of the site for a name. *)
Definition run_root (src : source) (company : string) : string :=
  if startswith company "http" then rstrip company "/" else site_base src.

(** A string of white space only. *)
Fixpoint all_space (s : string) : bool :=
  match s with
  | EmptyString => true
  | String c s' => isspace c && all_space s'
  end.

(** The line [main] prints for a source that returned. *)
Definition found_line (s : string) (res : list review) : string :=
  "Found " ++ str_int (Z.of_nat (List.length res)) ++ " reviews from " ++ s.

(** The last line [main] prints. *)
Definition wrote_line (all_reviews : list review) (output : string) : string :=
  "Wrote " ++ str_int (Z.of_nat (List.length all_reviews)) ++ " reviews to " ++ output.

(** The attribute that marks the first search hit on each site. *)
Definition search_link (src : source) : string * string :=
  match src with
  | G2 => ("data-qa", "product-card-link")
  | Capterra => ("data-qa", "product-name")
  | TrustRadius => ("class", "search-result-link")
  end.

(** The URL guessed from the name when the search gives no link. *)
Definition fallback_url (src : source) (company : string) : string :=
  let slug := replace (lower company) " " "-" in
  match src with
  | G2 => "https://www.g2.com/products/" ++ slug ++ "/reviews"
  | Capterra => "https://www.capterra.com/p/" ++ slug ++ "/#reviews"
  | TrustRadius => "https://www.trustradius.com/products/" ++ slug ++ "/reviews"
  end.

(** The product URL read from the search response [r] for a name. *)
Definition located `{W : World} (src : source) (company : string) (r : response) : string :=
  match href_of (soup_find (BeautifulSoup (text r)) "a" (search_link src)) with
  | Some href => site_base src ++ href
  | None => fallback_url src company
  end.

(** [io] after one more request. *)
Definition after_request (st : io) (url : string) : io :=
  mkio (stderr st) (requests st ++ [url]) (files st).

(* ===================================================================== *)
(** * The script's functions are the shared loop at their constants *)
(* ===================================================================== *)

Lemma card_of_site `{W : World} (src : source) : card_of src = card (site_of src).
Proof. destruct src; reflexivity. Qed.

Lemma pages_of_site `{W : World} (src : source) : pages_of src = pages (site_of src).
Proof. destruct src; reflexivity. Qed.

Lemma scrape_of_site `{W : World} (src : source) : scrape_of src = scrape (site_of src).
Proof. destruct src; reflexivity. Qed.

Lemma product_url_of_site `{W : World} (src : source) :
  product_url_of src = site_product_url (site_of src).
Proof. destruct src; reflexivity. Qed.

Lemma page_url_of_site `{W : World} (src : source) :
  page_url_of src = site_page_url (site_of src).
Proof. destruct src; reflexivity. Qed.

Lemma items_of_site `{W : World} (src : source) :
  items_of src = site_items (site_of src).
Proof. destruct src; reflexivity. Qed.

(* ===================================================================== *)
(** * Date filter: within_range and parse_date_try *)
(* ===================================================================== *)

Lemma lex_compare_antisym (a b : list Z) :
  lex_compare b a = CompOpp (lex_compare a b).
Proof.
  revert b; induction a as [|x a IH]; intros [|y b]; simpl; try reflexivity.
  rewrite (Z.compare_antisym x y).
  destruct (x ?= y); simpl; auto.
Qed.

Lemma dt_compare_antisym (a b : datetime) (c : comparison) :
  dt_compare a b = inr c -> dt_compare b a = inr (CompOpp c).
Proof.
  unfold dt_compare.
  destruct (tzinfo a) as [oa|], (tzinfo b) as [ob|]; try discriminate.
  - rewrite (Z.eqb_sym ob oa).
    destruct (oa =? ob); intros H; inversion H; subst; f_equal.
    + apply lex_compare_antisym.
    + apply Z.compare_antisym.
  - intros H; inversion H; subst; f_equal. apply lex_compare_antisym.
Qed.

(** [not (d < s)] is [s <= d], and [not (d > e)] is [d <= e]. *)
Lemma dt_lt_false_iff (d s : datetime) : dt_lt d s = inr false <-> dt_le s d.
Proof.
  unfold dt_lt, dt_le; split.
  - destruct (dt_compare d s) as [e|c] eqn:H; [discriminate|].
    apply dt_compare_antisym in H. rewrite H.
    destruct c; simpl; intros E; try discriminate; auto.
  - intros [H|H]; apply dt_compare_antisym in H; rewrite H; reflexivity.
Qed.

Lemma dt_gt_false_iff (d e : datetime) : dt_gt d e = inr false <-> dt_le d e.
Proof.
  unfold dt_gt, dt_le; split.
  - destruct (dt_compare d e) as [x|c]; [discriminate|].
    destruct c; simpl; intros E; try discriminate; auto.
  - intros [H|H]; rewrite H; reflexivity.
Qed.

(** On two naive datetimes with the same time of day, as the patterns
    of the parser produce them, [<=] is the order of the calendar. *)
Lemma dt_le_calendar (a b : datetime) :
  tzinfo a = None -> tzinfo b = None ->
  hour a = hour b -> minute a = minute b -> second a = second b ->
  microsecond a = microsecond b ->
  dt_le a b <->
  year a < year b
  \/ (year a = year b
      /\ (month a < month b \/ (month a = month b /\ day a <= day b))).
Proof.
  intros Ha Hb Hh Hm Hs Hu. unfold dt_le, dt_compare, fields. rewrite Ha, Hb.
  cbn [lex_compare]. rewrite Hh, Hm, Hs, Hu, !Z.compare_refl.
  destruct (Z.compare_spec (year a) (year b)) as [Ey|Ey|Ey];
    destruct (Z.compare_spec (month a) (month b)) as [Em|Em|Em];
    destruct (Z.compare_spec (day a) (day b)) as [Ed|Ed|Ed];
    split; intros H; try (destruct H as [H|H]; discriminate H);
    try (left; reflexivity); try (right; reflexivity); try lia.
Qed.

Section DateFilter.

Context {W : World}.

(** C4.  The range check returns true exactly when [start <= d <= end],
    an absent endpoint imposing no constraint and both present
    endpoints being inclusive; without endpoints it is true for every
    date. *)
Theorem within_range_iff (d : datetime) (start end_ : option datetime) :
  (within_range d start end_ = inr true <-> start_ok start d /\ end_ok end_ d)
  /\ within_range d None None = inr true.
Proof.
  split; [|reflexivity].
  unfold within_range, ebind, start_ok, end_ok.
  destruct start as [s|], end_ as [e|].
  - rewrite <- dt_lt_false_iff, <- dt_gt_false_iff.
    destruct (dt_lt d s) as [x|[|]]; destruct (dt_gt d e) as [y|[|]];
      split; try discriminate; try (intros [? ?]; discriminate); auto.
  - rewrite <- dt_lt_false_iff.
    destruct (dt_lt d s) as [x|[|]];
      split; try discriminate; try (intros [? ?]; discriminate); auto.
  - rewrite <- dt_gt_false_iff.
    destruct (dt_gt d e) as [y|[|]];
      split; try discriminate; try (intros [? ?]; discriminate); auto.
  - split; auto.
Qed.

(** Both endpoints are inclusive, and the day after the end is out. *)
Example within_range_inclusive :
  within_range Zoom.jan_1_2023 (Some Zoom.jan_1_2023) (Some Zoom.dec_31_2023) = inr true
  /\ within_range Zoom.dec_31_2023 (Some Zoom.jan_1_2023) (Some Zoom.dec_31_2023) = inr true
  /\ within_range (mkdatetime 2024 1 1 0 0 0 0 None)
                  (Some Zoom.jan_1_2023) (Some Zoom.dec_31_2023) = inr false
  /\ within_range (mkdatetime 2022 12 31 23 59 59 999999 None)
                  (Some Zoom.jan_1_2023) None = inr false.
Proof. repeat split. Qed.

(** A naive date against an aware endpoint is a TypeError, not a
    verdict. *)
Example within_range_mixed :
  within_range (mkdatetime 2023 5 1 10 0 0 0 (Some 0)) (Some Zoom.jan_1_2023) None
  = inl (TypeError "can't compare offset-naive and offset-aware datetimes").
Proof. reflexivity. Qed.

(** Two naive datetimes always compare, so the range check on naive
    values always returns a verdict. *)
Lemma within_range_naive (d : datetime) (start end_ : option datetime) :
  tzinfo d = None ->
  (forall s, start = Some s -> tzinfo s = None) ->
  (forall e, end_ = Some e -> tzinfo e = None) ->
  exists b, within_range d start end_ = inr b.
Proof.
  intros Hd Hs He.
  unfold within_range, ebind, dt_lt, dt_gt, dt_compare. rewrite Hd.
  destruct start as [s|]; [rewrite (Hs s eq_refl)|];
    destruct end_ as [e|]; try rewrite (He e eq_refl);
    repeat match goal with
           | |- context [is_Lt ?c] => destruct (is_Lt c)
           | |- context [is_Gt ?c] => destruct (is_Gt c)
           end; eauto.
Qed.

Lemma try_formats_some (s : string) (fmts : list string) (d : datetime) :
  try_formats s fmts = Some d ->
  exists i fmt,
    nth_error fmts i = Some fmt /\ strptime (strip s) fmt = Some d /\
    forall j fmt', (j < i)%nat -> nth_error fmts j = Some fmt' ->
                   strptime (strip s) fmt' = None.
Proof.
  induction fmts as [|fmt fmts IH]; simpl; [discriminate|].
  destruct (strptime (strip s) fmt) as [d'|] eqn:E.
  - intros H; inversion H; subst. exists 0%nat, fmt. repeat split; auto.
    intros j fmt' Hj; lia.
  - intros H. destruct (IH H) as (i & f & Hn & Hp & Hprev).
    exists (S i), f. repeat split; auto.
    intros [|j] fmt' Hj Hn'; simpl in Hn'.
    + inversion Hn'; subst; assumption.
    + apply (Hprev j); [lia|assumption].
Qed.

Lemma try_formats_none (s : string) (fmts : list string) :
  try_formats s fmts = None <->
  forall fmt, In fmt fmts -> strptime (strip s) fmt = None.
Proof.
  induction fmts as [|fmt fmts IH]; simpl.
  - split; [intros _ f []|reflexivity].
  - destruct (strptime (strip s) fmt) as [d'|] eqn:E.
    + split; [discriminate|]. intros H. rewrite (H fmt) in E; [discriminate|auto].
    + rewrite IH. split.
      * intros H f [<-|Hin]; auto.
      * intros H f Hin; auto.
Qed.

(** C5.  The parser tries the patterns [%Y-%m-%d], [%d-%m-%Y],
    [%d %B %Y], [%B %d, %Y], [%b %d, %Y] in this order on the stripped
    text and returns the first successful parse; when every pattern
    fails it returns what the generic ISO-8601 parse returns, which is
    null when that parse fails too. *)
Theorem parse_date_try_first_success (s : string) :
  formats = ["%Y-%m-%d"; "%d-%m-%Y"; "%d %B %Y"; "%B %d, %Y"; "%b %d, %Y"]
  /\ match parse_date_try s with
     | Some d =>
         (exists i fmt,
             nth_error formats i = Some fmt /\ strptime (strip s) fmt = Some d /\
             forall j fmt', (j < i)%nat -> nth_error formats j = Some fmt' ->
                            strptime (strip s) fmt' = None)
         \/ ((forall fmt, In fmt formats -> strptime (strip s) fmt = None)
             /\ fromisoformat s = Some d)
     | None =>
         (forall fmt, In fmt formats -> strptime (strip s) fmt = None)
         /\ fromisoformat s = None
     end.
Proof.
  split; [reflexivity|].
  unfold parse_date_try.
  destruct (try_formats s formats) as [d|] eqn:E.
  - left. apply try_formats_some; assumption.
  - pose proof (proj1 (try_formats_none s formats) E) as E'.
    destruct (fromisoformat s) as [d|]; [right|]; split; auto.
Qed.

End DateFilter.

(** One text per pattern, and the two ways to fall through. *)
Example parse_date_try_patterns :
  let p := @parse_date_try Zoom.W in
  let d := Some (mkdatetime 2023 1 15 0 0 0 0 None) in
  p "2023-01-15" = d /\ p "15-01-2023" = d /\ p "15 January 2023" = d
  /\ p "January 15, 2023" = d /\ p "Jan 15, 2023" = d /\ p "  2023-01-15 " = d
  /\ p "2023-01-15T08:30:00" = Some (mkdatetime 2023 1 15 8 30 0 0 None)
  /\ p "garbage" = None /\ p "2023-02-30" = None.
Proof. vm_compute. repeat split. Qed.

(** Texts that the patterns leave to the generic ISO parse, with the
    parse of CPython 3.11: a time without seconds, a fraction, [Z], a
    basic date, a week date, an offset; an hour of 24 and a text with
    white space before it are rejected. *)
Example parse_date_try_iso_forms :
  let p := @parse_date_try Zoom.W in
  p "2023-01-15T08:30" = Some (mkdatetime 2023 1 15 8 30 0 0 None)
  /\ p "2023-01-15T08:30:45.5Z" = Some (mkdatetime 2023 1 15 8 30 45 500000 (Some 0))
  /\ p "20230115" = Some (mkdatetime 2023 1 15 0 0 0 0 None)
  /\ p "2023-W03-2" = Some (mkdatetime 2023 1 17 0 0 0 0 None)
  /\ p "2023-01-15 10:30:45-05:30"
     = Some (mkdatetime 2023 1 15 10 30 45 0 (Some (-19800000000)))
  /\ p "2023-01-15T10:30:45,123456789" = Some (mkdatetime 2023 1 15 10 30 45 123456 None)
  /\ p "2023-01-15T24:00" = None
  /\ p " 2023-01-15T08:30" = None
  /\ p "2023-01-15T" = None
  /\ p "2023-01" = None.
Proof. vm_compute. repeat split. Qed.

(** Malformed texts that the parse of CPython 3.11 takes all the same:
    a colon for the point of the fraction, a stray character before
    the offset, an offset of 99 minutes. *)
Example datetime_fromisoformat_lenient :
  Stub.datetime_fromisoformat "2023-01-15T10:30:45:99"
  = Some (mkdatetime 2023 1 15 10 30 45 990000 None)
  /\ Stub.datetime_fromisoformat "2023-01-15T10x+05:00"
     = Some (mkdatetime 2023 1 15 10 0 0 0 (Some 18000000000))
  /\ Stub.datetime_fromisoformat "2023-01-15T10:30+00:99"
     = Some (mkdatetime 2023 1 15 10 30 0 0 (Some 5940000000))
  /\ Stub.datetime_fromisoformat "2023-01-15T10:30+24:00" = None.
Proof. vm_compute. repeat split. Qed.

(* ===================================================================== *)
(** * Effects: every computation of the script only adds to [io] *)
(* ===================================================================== *)

Lemma io_app_io0_l (d : io) : io_app io0 d = d.
Proof. destruct d; reflexivity. Qed.

Lemma io_app_io0_r (s : io) : io_app s io0 = s.
Proof. destruct s; unfold io_app; simpl. now rewrite !app_nil_r. Qed.

Lemma io_app_assoc (a b c : io) : io_app (io_app a b) c = io_app a (io_app b c).
Proof. unfold io_app; simpl. now rewrite !app_assoc. Qed.

Lemma writer_ret {A} (a : A) : writer (ret a).
Proof. intros s. unfold ret; simpl. now rewrite io_app_io0_r. Qed.

Lemma writer_unfinished {A} : writer (@unfinished A).
Proof. intros s. unfold unfinished; simpl. now rewrite io_app_io0_r. Qed.

Lemma writer_lift {A} (m : E A) : writer (lift m).
Proof. intros s. unfold lift; destruct m; simpl; now rewrite io_app_io0_r. Qed.

Lemma writer_eprint (line : string) : writer (eprint line).
Proof. intros s. unfold eprint, io_app; simpl. now rewrite !app_nil_r. Qed.

Lemma writer_dump_json `{W : World} (path : string) (data : list review) :
  writer (dump_json path data).
Proof.
  intros s. unfold dump_json. destruct (open_w path); cbn [fst snd].
  - now rewrite io_app_io0_r.
  - unfold io_app; simpl. now rewrite !app_nil_r.
Qed.

Lemma writer_get `{W : World} (url : string) : writer (get url).
Proof.
  intros s. unfold get, io_app; simpl.
  destruct (session_get url); simpl; now rewrite !app_nil_r.
Qed.

Lemma writer_bind {A B} (m : M A) (k : A -> M B) :
  writer m -> (forall a, writer (k a)) -> writer (bind m k).
Proof.
  intros Hm Hk s. unfold bind.
  rewrite (Hm s). destruct (m io0) as [d [a|e|]] eqn:E; simpl.
  - rewrite (Hk a (io_app s d)), (Hk a d), io_app_assoc. reflexivity.
  - reflexivity.
  - reflexivity.
Qed.

Lemma writer_try_except {A} (body : M A) (handler : exn -> M A) :
  writer body -> (forall e, writer (handler e)) -> writer (try_except body handler).
Proof.
  intros Hb Hh s. unfold try_except.
  rewrite (Hb s). destruct (body io0) as [d [a|e|]] eqn:E; simpl.
  - reflexivity.
  - rewrite (Hh e (io_app s d)), (Hh e d), io_app_assoc. reflexivity.
  - reflexivity.
Qed.

Create HintDb writer.
#[export] Hint Resolve writer_ret writer_unfinished writer_lift writer_eprint
  writer_dump_json writer_get : writer.

Ltac writer_tac :=
  repeat first
    [ apply writer_bind; [|intros ?]
    | apply writer_try_except; [|intros ?]
    | progress auto with writer
    | match goal with
      | |- writer (if ?b then _ else _) => destruct b
      | |- writer (match ?x with _ => _ end) => destruct x
      | |- writer (let '(_, _) := ?x in _) => destruct x
      end ].

Section WriterScript.

Context {W : World}.

Lemma writer_pages (cfg : site) (fuel : nat) (p : string) (start end_ : option datetime)
  (page : Z) (reviews : list review) :
  writer (pages cfg fuel p start end_ page reviews).
Proof.
  revert page reviews; induction fuel as [|fuel IH]; intros page reviews; simpl.
  - apply writer_unfinished.
  - writer_tac.
Qed.

Lemma writer_product_url (src : source) (company : string) :
  writer (product_url_of src company).
Proof.
  destruct src; simpl;
    unfold g2_product_url, capterra_product_url, trustradius_product_url; writer_tac.
Qed.

Lemma writer_scrape (src : source) (fuel : nat) (company : string)
  (start end_ : option datetime) :
  writer (scrape_of src fuel company start end_).
Proof.
  rewrite scrape_of_site. unfold scrape.
  apply writer_bind.
  - rewrite <- product_url_of_site. apply writer_product_url.
  - intros p. apply writer_pages.
Qed.

Lemma writer_run_source (fuel : nat) (s company : string) (start end_ : option datetime) :
  writer (run_source fuel s company start end_).
Proof.
  unfold run_source.
  destruct (String.eqb s "g2"); [apply (writer_scrape G2)|].
  destruct (String.eqb s "capterra"); [apply (writer_scrape Capterra)|].
  destruct (String.eqb s "trustradius"); [apply (writer_scrape TrustRadius)|].
  apply writer_ret.
Qed.

Lemma writer_run_sources (fuel : nat) (sources : list string) (company : string)
  (start end_ : option datetime) (all_reviews : list review) :
  writer (run_sources fuel sources company start end_ all_reviews).
Proof.
  revert all_reviews; induction sources as [|s sources IH]; intros all_reviews; simpl.
  - apply writer_ret.
  - apply writer_bind; [|intros a; apply IH].
    apply writer_try_except; [|intros e; writer_tac].
    apply writer_bind; [apply writer_run_source|intros res; writer_tac].
Qed.

Lemma writer_main (fuel : nat) (a : args) : writer (main fuel a).
Proof.
  unfold main. apply writer_bind; [apply writer_run_sources|intros l; writer_tac].
Qed.

End WriterScript.

Lemma no_files_bind {A B} (m : M A) (k : A -> M B) :
  no_files m -> (forall a, no_files (k a)) -> no_files (bind m k).
Proof.
  intros Hm Hk s. unfold bind. specialize (Hm s).
  destruct (m s) as [s' [a|e|]]; simpl in *; auto.
  now rewrite Hk.
Qed.

Lemma no_files_try_except {A} (body : M A) (handler : exn -> M A) :
  no_files body -> (forall e, no_files (handler e)) -> no_files (try_except body handler).
Proof.
  intros Hb Hh s. unfold try_except. specialize (Hb s).
  destruct (body s) as [s' [a|e|]]; simpl in *; auto.
  now rewrite Hh.
Qed.

Lemma no_files_ret {A} (a : A) : no_files (ret a).
Proof. intros s; reflexivity. Qed.

Lemma no_files_unfinished {A} : no_files (@unfinished A).
Proof. intros s; reflexivity. Qed.

Lemma no_files_lift {A} (m : E A) : no_files (lift m).
Proof. intros s. unfold lift. destruct m; reflexivity. Qed.

Lemma no_files_eprint (line : string) : no_files (eprint line).
Proof. intros s; reflexivity. Qed.

Lemma no_files_get `{W : World} (url : string) : no_files (get url).
Proof. intros s. unfold get. destruct (session_get url); reflexivity. Qed.

#[export] Hint Resolve no_files_ret no_files_unfinished no_files_lift no_files_eprint
  no_files_get : writer.

Ltac no_files_tac :=
  repeat first
    [ apply no_files_bind; [|intros ?]
    | apply no_files_try_except; [|intros ?]
    | progress auto with writer
    | match goal with
      | |- no_files (if ?b then _ else _) => destruct b
      | |- no_files (match ?x with _ => _ end) => destruct x
      | |- no_files (let '(_, _) := ?x in _) => destruct x
      end ].

Section NoFiles.

Context {W : World}.

Lemma no_files_pages (cfg : site) (fuel : nat) (p : string) (start end_ : option datetime)
  (page : Z) (reviews : list review) :
  no_files (pages cfg fuel p start end_ page reviews).
Proof.
  revert page reviews; induction fuel as [|fuel IH]; intros page reviews; simpl.
  - apply no_files_unfinished.
  - no_files_tac.
Qed.

Lemma no_files_run_source (fuel : nat) (s company : string) (start end_ : option datetime) :
  no_files (run_source fuel s company start end_).
Proof.
  assert (H : forall src, no_files (scrape_of src fuel company start end_)).
  { intros src. rewrite scrape_of_site. unfold scrape.
    apply no_files_bind; [|intros p; apply no_files_pages].
    rewrite <- product_url_of_site.
    destruct src; simpl;
      unfold g2_product_url, capterra_product_url, trustradius_product_url; no_files_tac. }
  unfold run_source.
  destruct (String.eqb s "g2"); [apply (H G2)|].
  destruct (String.eqb s "capterra"); [apply (H Capterra)|].
  destruct (String.eqb s "trustradius"); [apply (H TrustRadius)|].
  apply no_files_ret.
Qed.

End NoFiles.

(* ===================================================================== *)
(** * The card loop and the page loop *)
(* ===================================================================== *)

Section Loop.

Context {W : World}.
Variable cfg : site.
Variables (start end_ : option datetime).

Lemma out_of_range_true (o : option datetime) :
  out_of_range o start end_ = inr true <->
  exists d, o = Some d /\ within_range d start end_ = inr false.
Proof.
  unfold out_of_range, ebind. destruct o as [d|].
  - destruct (within_range d start end_) as [e|[|]] eqn:Hw; simpl; split; intros H;
      try discriminate.
    + destruct H as (d' & H & H'). inversion H; subst. rewrite Hw in H'. discriminate.
    + destruct H as (d' & H & H'). inversion H; subst. rewrite Hw in H'. discriminate.
    + exists d. split; [reflexivity|assumption].
    + reflexivity.
  - split; [discriminate|]. intros (d & H & _); discriminate.
Qed.

Lemma kept_unparsed (it : tag) : card_date_obj cfg it = None -> kept cfg start end_ it = true.
Proof. unfold kept. intros ->. reflexivity. Qed.

(** What the body of the card loop does, by the verdict of the date
    filter. *)
Lemma card_cases (it : tag) (reviews : list review) (added : Z) :
  match out_of_range (card_date_obj cfg it) start end_ with
  | inl e => card cfg start end_ it (reviews, added) = inl e
  | inr true => card cfg start end_ it (reviews, added) = inr (reviews, added)
  | inr false =>
      card cfg start end_ it (reviews, added)
      = inr ((reviews ++ [card_record cfg it])%list, added + 1)
  end.
Proof.
  unfold card, ebind.
  destruct (out_of_range (card_date_obj cfg it) start end_) as [e|[|]]; reflexivity.
Qed.

Lemma card_kept (it : tag) (reviews : list review) (added : Z) :
  kept cfg start end_ it = true ->
  card cfg start end_ it (reviews, added)
  = inr ((reviews ++ [card_record cfg it])%list, added + 1).
Proof.
  unfold kept. intros H. pose proof (card_cases it reviews added) as C.
  destruct (out_of_range (card_date_obj cfg it) start end_) as [e|[|]];
    try discriminate; assumption.
Qed.

Lemma card_dropped_iff (it : tag) (reviews : list review) (added : Z) :
  card cfg start end_ it (reviews, added) = inr (reviews, added)
  <-> dropped cfg start end_ it.
Proof.
  unfold dropped. rewrite <- out_of_range_true.
  pose proof (card_cases it reviews added) as C.
  destruct (out_of_range (card_date_obj cfg it) start end_) as [e|[|]];
    rewrite C; split; try discriminate; auto.
  intros H; inversion H; lia.
Qed.

(** The three ways the body of the card loop can end. *)
Lemma card_result (it : tag) (reviews : list review) (added : Z) :
  (kept cfg start end_ it = true
   /\ card cfg start end_ it (reviews, added)
      = inr ((reviews ++ [card_record cfg it])%list, added + 1))
  \/ (kept cfg start end_ it = false /\ dropped cfg start end_ it
      /\ card cfg start end_ it (reviews, added) = inr (reviews, added))
  \/ (exists e, card cfg start end_ it (reviews, added) = inl e).
Proof.
  pose proof (card_cases it reviews added) as C.
  pose proof (out_of_range_true (card_date_obj cfg it)) as D.
  unfold kept.
  destruct (out_of_range (card_date_obj cfg it) start end_) as [e|[|]].
  - right; right. eauto.
  - right; left. repeat split; auto. apply D; reflexivity.
  - left. auto.
Qed.

(** The card loop appends the records of the cards the filter lets
    through, in order, and counts them. *)
Lemma for_each_card (items : list tag) (reviews reviews' : list review) (added added' : Z) :
  for_each (card cfg start end_) items (reviews, added) = inr (reviews', added') ->
  reviews' = (reviews ++ map (card_record cfg) (filter (kept cfg start end_) items))%list
  /\ added' = added + Z.of_nat (List.length (filter (kept cfg start end_) items))
  /\ Forall (fun it => kept cfg start end_ it = true \/ dropped cfg start end_ it) items.
Proof.
  revert reviews added; induction items as [|it items IH]; intros reviews added;
    cbn [for_each filter].
  - intros H; inversion H; subst. rewrite app_nil_r.
    split; [reflexivity|]. split; [simpl; lia|constructor].
  - destruct (card_result it reviews added) as [(K & C)|[(K & D & C)|(e & C)]];
      rewrite C; unfold ebind; try discriminate; rewrite K; intros H; apply IH in H;
      destruct H as (H1 & H2 & H3).
    + subst. rewrite <- app_assoc. cbn [map List.length app].
      split; [reflexivity|]. split; [lia|]. constructor; auto.
    + split; [assumption|]. split; [assumption|]. constructor; auto.
Qed.

Variable p : string.

(** One iteration of the page loop. *)
Lemma pages_S (fuel : nat) (page : Z) (reviews : list review) (st : io) :
  pages cfg (S fuel) p start end_ page reviews st =
  let st1 := io_app st (fetched cfg p [page]) in
  match session_get (site_page_url cfg p page) with
  | inl e => (st1, Raise e)
  | inr r =>
      if negb (status_code r =? 200) then (st1, Return reviews)
      else
        match site_items cfg (BeautifulSoup (text r)) with
        | [] => (st1, Return reviews)
        | items =>
            match for_each (card cfg start end_) items (reviews, 0) with
            | inl e => (st1, Raise e)
            | inr (reviews', added) =>
                if added =? 0 then (st1, Return reviews')
                else pages cfg fuel p start end_ (page + 1) reviews' st1
            end
        end
  end.
Proof.
  cbn [pages]. unfold bind, eprint, get, lift, ret, io_app, fetched.
  cbn [map stderr requests files app]. rewrite app_nil_r.
  destruct (session_get (site_page_url cfg p page)) as [e|r]; [reflexivity|].
  destruct (negb (status_code r =? 200)); [reflexivity|].
  destruct (site_items cfg (BeautifulSoup (text r))) as [|it items]; [reflexivity|].
  destruct (for_each (card cfg start end_) (it :: items) (reviews, 0)) as [e|[reviews' added]];
    [reflexivity|].
  destruct (added =? 0); reflexivity.
Qed.

Lemma page_range_S (page : Z) (k : nat) :
  page_range page (S k) = page :: page_range (page + 1) k.
Proof.
  unfold page_range. simpl. rewrite Z.add_0_r. f_equal.
  rewrite <- seq_shift, map_map. apply map_ext. intros i. lia.
Qed.

Lemma page_range_1 (page : Z) : page_range page 1 = [page].
Proof. now rewrite page_range_S. Qed.

Lemma fetched_cons (page : Z) (l : list Z) :
  fetched cfg p (page :: l) = io_app (fetched cfg p [page]) (fetched cfg p l).
Proof. reflexivity. Qed.

Lemma card_on_single_page (page n : Z) (it : tag) :
  card_on_page cfg p 1 page n it -> n = page.
Proof.
  intros [Hn _]. rewrite page_range_1 in Hn. destruct Hn as [Hn|[]]. auto.
Qed.

(** The page loop fetches the pages [page], [page + 1], ... in order
    and nothing else, and a returned run is [run_ok]. *)
Lemma pages_run (fuel : nat) :
  forall (page : Z) (reviews : list review) (st st' : io) (res : result (list review)),
    pages cfg fuel p start end_ page reviews st = (st', res) ->
    exists k,
      (k <= fuel)%nat /\ st' = io_app st (fetched cfg p (page_range page k)) /\
      match res with
      | Return out => run_ok cfg start end_ p k page reviews out
      | _ => True
      end.
Proof.
  induction fuel as [|fuel IH]; intros page reviews st st' res.
  - simpl. unfold unfinished. intros H; inversion H; subst.
    exists 0%nat. repeat split; auto. now rewrite io_app_io0_r.
  - rewrite pages_S. cbv zeta.
    assert (Hstop : forall out, (st', res) = (io_app st (fetched cfg p [page]), Return out) ->
              out = reviews ->
              (forall it, card_on_page cfg p 1 page page it ->
                          kept cfg start end_ it = false /\ dropped cfg start end_ it) ->
              exists k, (k <= S fuel)%nat /\ st' = io_app st (fetched cfg p (page_range page k)) /\
                match res with
                | Return out => run_ok cfg start end_ p k page reviews out
                | _ => True
                end).
    { intros out H -> Hno. inversion H; subst.
      exists 1%nat. split; [lia|]. split; [now rewrite page_range_1|].
      exists []. rewrite app_nil_r. repeat split; auto.
      - intros n it Hc Hk. exfalso. pose proof (card_on_single_page _ _ _ Hc); subst.
        destruct (Hno it Hc) as [Hf _]. congruence.
      - intros n it Hc. pose proof (card_on_single_page _ _ _ Hc); subst.
        right. apply (Hno it Hc). }
    destruct (session_get (site_page_url cfg p page)) as [e|r] eqn:Hget.
    { intros H; inversion H; subst. exists 1%nat. rewrite page_range_1.
      repeat split; auto; lia. }
    destruct (status_code r =? 200) eqn:Hstatus; cbn [negb].
    2:{ intros H. symmetry in H. apply (Hstop reviews H eq_refl).
        intros it (_ & r' & Hr' & H200 & _). rewrite Hget in Hr'. inversion Hr'; subst.
        rewrite H200 in Hstatus. discriminate. }
    destruct (site_items cfg (BeautifulSoup (text r))) as [|it0 items0] eqn:Hitems.
    { intros H. symmetry in H. apply (Hstop reviews H eq_refl).
      intros it (_ & r' & Hr' & _ & Hin). rewrite Hget in Hr'. inversion Hr'; subst.
      rewrite Hitems in Hin. destruct Hin. }
    rewrite <- Hitems.
    destruct (for_each (card cfg start end_) (site_items cfg (BeautifulSoup (text r)))
                       (reviews, 0)) as [e|[reviews' added]] eqn:Hfor.
    { intros H; inversion H; subst. exists 1%nat. rewrite page_range_1.
      repeat split; auto; lia. }
    apply for_each_card in Hfor. destruct Hfor as (Hrev & Hadd & Hall).
    rewrite Forall_forall in Hall.
    destruct (added =? 0) eqn:Hzero.
    + intros H. symmetry in H.
      assert (Hnil : filter (kept cfg start end_) (site_items cfg (BeautifulSoup (text r))) = []).
      { apply Z.eqb_eq in Hzero.
        destruct (filter (kept cfg start end_) (site_items cfg (BeautifulSoup (text r))));
          [reflexivity|]. simpl in Hadd. lia. }
      rewrite Hnil in Hrev. simpl in Hrev. rewrite app_nil_r in Hrev.
      apply (Hstop reviews' H Hrev).
      intros it (_ & r' & Hr' & _ & Hin). rewrite Hget in Hr'. inversion Hr'; subst r'.
      assert (Hk : kept cfg start end_ it = false).
      { destruct (kept cfg start end_ it) eqn:Hk; [|reflexivity].
        assert (Hf : In it (filter (kept cfg start end_)
                                   (site_items cfg (BeautifulSoup (text r)))))
          by (apply filter_In; auto).
        rewrite Hnil in Hf. destruct Hf. }
      split; [assumption|].
      destruct (Hall it Hin) as [Hk'|Hd]; [congruence|assumption].
    + intros H. apply IH in H. destruct H as (k & Hk & Hst & Hres).
      exists (S k). split; [lia|].
      rewrite page_range_S, fetched_cons, <- io_app_assoc. split; [assumption|].
      destruct res as [out| |]; auto.
      destruct Hres as (more & Hout & Hsound & Hcomplete & Hcases).
      exists (map (card_record cfg)
                  (filter (kept cfg start end_) (site_items cfg (BeautifulSoup (text r))))
              ++ more)%list.
      rewrite app_assoc, <- Hrev. split; [assumption|].
      assert (Hshift : forall n it, card_on_page cfg p k (page + 1) n it ->
                                    card_on_page cfg p (S k) page n it).
      { intros n it (Hn & Hr). split; [|assumption].
        rewrite page_range_S. right; assumption. }
      assert (Hsplit : forall n it, card_on_page cfg p (S k) page n it ->
                 (n = page /\ In it (site_items cfg (BeautifulSoup (text r))))
                 \/ card_on_page cfg p k (page + 1) n it).
      { intros n it (Hn & r' & Hr' & H200 & Hin).
        rewrite page_range_S in Hn. destruct Hn as [<-|Hn].
        - left. rewrite Hget in Hr'. inversion Hr'; subst r'. auto.
        - right. split; eauto. }
      split; [|split].
      * apply Forall_app. split.
        -- apply Forall_forall. intros rec Hin. apply in_map_iff in Hin.
           destruct Hin as (it & <- & Hin). apply filter_In in Hin. destruct Hin as (Hin & Hkept).
           exists page, it. repeat split; auto.
           ++ rewrite page_range_S. left; reflexivity.
           ++ exists r. apply Z.eqb_eq in Hstatus. auto.
        -- eapply Forall_impl; [|exact Hsound].
           intros rec (n & it & Hc & Hkept & ->). exists n, it. auto.
      * intros n it Hc Hkept. apply in_or_app.
        destruct (Hsplit n it Hc) as [(-> & Hin)|Hc'].
        -- left. apply in_map. apply filter_In; auto.
        -- right. apply (Hcomplete n it); auto.
      * intros n it Hc. destruct (Hsplit n it Hc) as [(-> & Hin)|Hc']; eauto.
Qed.

(** The loop ends within [fuel] iterations when one of the next [fuel]
    pages raises, does not answer with status 200, or has no card
    selected on it. *)
Lemma pages_finishes (fuel : nat) :
  forall (page : Z) (reviews : list review) (st : io) (k : nat),
    (k < fuel)%nat ->
    match session_get (site_page_url cfg p (page + Z.of_nat k)) with
    | inl _ => True
    | inr r => status_code r <> 200 \/ site_items cfg (BeautifulSoup (text r)) = []
    end ->
    snd (pages cfg fuel p start end_ page reviews st) <> Unfinished.
Proof.
  induction fuel as [|fuel IH]; intros page reviews st k Hk Hbad; [lia|].
  rewrite pages_S. cbv zeta.
  destruct (session_get (site_page_url cfg p page)) as [e|r] eqn:Hget; [discriminate|].
  destruct (status_code r =? 200) eqn:Hstatus; cbn [negb]; [|discriminate].
  destruct (site_items cfg (BeautifulSoup (text r))) as [|it0 items0] eqn:Hitems;
    [discriminate|].
  destruct (for_each (card cfg start end_) (it0 :: items0) (reviews, 0))
    as [e|[reviews' added]]; [discriminate|].
  destruct (added =? 0); [discriminate|].
  destruct k as [|k].
  - exfalso. rewrite Z.add_0_r, Hget in Hbad. apply Z.eqb_eq in Hstatus.
    destruct Hbad as [Hbad|Hbad]; [auto|]. rewrite Hitems in Hbad. discriminate.
  - apply (IH _ _ _ k); [lia|].
    replace (page + 1 + Z.of_nat k) with (page + Z.of_nat (S k)) by lia. assumption.
Qed.

End Loop.

(* ===================================================================== *)
(** * A whole scraper run *)
(* ===================================================================== *)

Section ScrapeRun.

Context {W : World}.

(** A scraper is its locator followed by its page loop from page 1. *)
Lemma scrape_of_unfold (src : source) (fuel : nat) (company : string)
  (start end_ : option datetime) (st : io) :
  scrape_of src fuel company start end_ st =
  match product_url_of src company st with
  | (st1, Return p) => pages_of src fuel p start end_ 1 [] st1
  | (st1, Raise e) => (st1, Raise e)
  | (st1, Unfinished) => (st1, Unfinished)
  end.
Proof. destruct src; reflexivity. Qed.

Lemma requested_since_app (s d : io) : requested_since s (io_app s d) = requests d.
Proof.
  unfold requested_since, io_app; simpl.
  induction (requests s) as [|u l IH]; simpl; auto.
Qed.

Lemma requests_fetched (cfg : site) (p : string) (l : list Z) :
  requests (fetched cfg p l) = map (site_page_url cfg p) l.
Proof. reflexivity. Qed.

(** A returned run of a scraper: the locator returned a product URL,
    the loop fetched the pages 1..k of it, and the result is [run_ok]. *)
Lemma scrape_of_run (src : source) (fuel : nat) (company : string)
  (start end_ : option datetime) (st st' : io) (out : list review) :
  scrape_of src fuel company start end_ st = (st', Return out) ->
  exists p st1 k,
    product_url_of src company st = (st1, Return p)
    /\ (k <= fuel)%nat
    /\ st' = io_app st1 (fetched (site_of src) p (page_range 1 k))
    /\ run_ok (site_of src) start end_ p k 1 [] out.
Proof.
  rewrite scrape_of_unfold.
  destruct (product_url_of src company st) as [st1 [p|e|]]; try discriminate.
  rewrite pages_of_site. intros H. apply pages_run in H.
  destruct H as (k & Hk & Hst & Hres). exists p, st1, k. auto.
Qed.

(** A card without a date element, or whose date text does not parse,
    has no parsed date. *)
Lemma unparsed_no_date_obj (cfg : site) (it : tag) :
  site_date_tag cfg it = None \/ parse_date_try (card_date_text cfg it) = None ->
  card_date_obj cfg it = None.
Proof.
  unfold card_date_obj, card_date_text, date_obj_of.
  intros [H|H].
  - rewrite H. reflexivity.
  - destruct (truthy (date_text_of (site_date_tag cfg it))); auto.
Qed.

(** The locator has no loop: it returns or raises. *)
Lemma product_url_of_finishes (src : source) (company : string) (st : io) :
  snd (product_url_of src company st) <> Unfinished.
Proof.
  destruct src; simpl;
    unfold g2_product_url, capterra_product_url, trustradius_product_url;
    destruct (startswith company "http"); try discriminate;
    unfold bind, get;
    match goal with |- context [session_get ?u] => destruct (session_get u) end;
    try discriminate;
    match goal with |- context [href_of ?l] => destruct (href_of l) end;
    discriminate.
Qed.

(** A scraper ends within [fuel] iterations when one of the first
    [fuel] pages of the product URL raises, does not answer with status
    200, or has no card selected on it. *)
Lemma scrape_of_finishes (src : source) (fuel : nat) (company : string)
  (start end_ : option datetime) (st : io) (k : nat) :
  (k < fuel)%nat ->
  (forall st1 p,
      product_url_of src company st = (st1, Return p) ->
      match session_get (page_url_of src p (1 + Z.of_nat k)) with
      | inl _ => True
      | inr r => status_code r <> 200 \/ items_of src (BeautifulSoup (text r)) = []
      end) ->
  snd (scrape_of src fuel company start end_ st) <> Unfinished.
Proof.
  intros Hk Hbad. pose proof (product_url_of_finishes src company st) as Hloc.
  rewrite scrape_of_unfold.
  destruct (product_url_of src company st) as [st1 [p|e|]] eqn:E;
    [|discriminate|exfalso; apply Hloc; reflexivity].
  rewrite pages_of_site. apply (pages_finishes _ _ _ _ _ _ _ _ k Hk).
  rewrite <- page_url_of_site, <- items_of_site. apply (Hbad st1 p eq_refl).
Qed.

End ScrapeRun.

(* ===================================================================== *)
(** * rstrip and isoformat as strings *)
(* ===================================================================== *)

Lemma append_copies_S (c : ascii) (k : nat) : copies c k ++ String c "" = copies c (S k).
Proof. induction k as [|k IH]; simpl; [reflexivity|]. now rewrite IH. Qed.

(** [rstrip] removes copies of the character from the end and nothing
    else. *)
Lemma rstrip_copies (s : string) (c : ascii) :
  exists k, s = rstrip s c ++ copies c k.
Proof.
  induction s as [|a s IH]; simpl.
  - exists 0%nat. reflexivity.
  - destruct IH as (k & IH). destruct (rstrip s c) as [|b t] eqn:E.
    + destruct (Ascii.eqb_spec a c) as [->|Hne].
      * exists (S k). simpl in *. now rewrite <- IH.
      * exists k. simpl in *. now rewrite <- IH.
    + exists k. simpl in *. now rewrite <- IH.
Qed.

(** What [rstrip] returns does not end with the character. *)
Lemma rstrip_last_char (s : string) (c : ascii) : last_char (rstrip s c) <> Some c.
Proof.
  induction s as [|a s IH]; simpl; [discriminate|].
  destruct (rstrip s c) as [|b t] eqn:E.
  - destruct (Ascii.eqb_spec a c) as [->|Hne]; simpl; [discriminate|].
    intros H; inversion H; auto.
  - exact IH.
Qed.

Lemma date_chars_app (a b : string) : date_chars (a ++ b) = date_chars a && date_chars b.
Proof.
  induction a as [|c a IH]; simpl; [reflexivity|]. now rewrite IH, andb_assoc.
Qed.

(** A calendar date consists of digits and hyphens. *)
Lemma iso_calendar_date_chars (s : string) :
  iso_calendar_date s = true -> date_chars s = true.
Proof.
  unfold iso_calendar_date, cands_Y, two_digits.
  intros H.
  repeat match type of H with
         | context [match ?x with EmptyString => _ | String _ _ => _ end] =>
             destruct x; try discriminate
         | context [match digit ?c with Some _ => _ | None => _ end] =>
             let E := fresh "E" in destruct (digit c) eqn:E; try discriminate
         | context [match ?c with Ascii _ _ _ _ _ _ _ _ => _ end] =>
             destruct c as [[] [] [] [] [] [] [] []]; try discriminate
         end.
  simpl. unfold date_char.
  repeat match goal with E : digit _ = Some _ |- _ => rewrite E; clear E end.
  reflexivity.
Qed.

(** [isoformat] never prints a bare calendar date: there is always the
    [T] and the time after the day. *)
Lemma isoformat_not_calendar_date (d : datetime) : iso_calendar_date (isoformat d) = false.
Proof.
  destruct (iso_calendar_date (isoformat d)) eqn:E; [|reflexivity].
  apply iso_calendar_date_chars in E. unfold isoformat in E.
  rewrite !date_chars_app in E. simpl in E.
  rewrite !andb_false_r in E. discriminate.
Qed.

(** A date parsed by one of the patterns is naive and at midnight, so
    its [isoformat] is the date followed by [T00:00:00]. *)
Lemma strptime_isoformat (s fmt : string) (d : datetime) :
  strptime s fmt = Some d ->
  isoformat d
  = zfill 4 (year d) ++ "-" ++ zfill 2 (month d) ++ "-" ++ zfill 2 (day d) ++ "T00:00:00".
Proof.
  unfold strptime.
  destruct (compile_format fmt false) as [ps|]; [|discriminate].
  destruct (regex_match ps s no_groups) as [[g [|c rest]]|]; try discriminate.
  destruct (_ && _); [|discriminate].
  intros H; inversion H; subst. reflexivity.
Qed.

(* ===================================================================== *)
(** * The aggregation loop of main *)
(* ===================================================================== *)

Section Aggregator.

Context {W : World}.
Variables (fuel : nat) (company : string) (start end_ : option datetime).

(** One turn of the [for s in sources] loop, by the way the source
    ends. *)
Lemma run_sources_cons (s : string) (sources : list string) (all_reviews : list review)
  (st : io) :
  run_sources fuel (s :: sources) company start end_ all_reviews st =
  let st1 := io_app st (effects (run_source fuel s company start end_)) in
  match outcome (run_source fuel s company start end_) with
  | Return res =>
      run_sources fuel sources company start end_ (all_reviews ++ res)
        (mkio (stderr st1 ++ ["Found " ++ str_int (Z.of_nat (List.length res))
                              ++ " reviews from " ++ s])
              (requests st1) (files st1))
  | Raise e =>
      run_sources fuel sources company start end_ all_reviews
        (mkio (stderr st1 ++ [error_line s e]) (requests st1) (files st1))
  | Unfinished => (st1, Unfinished)
  end.
Proof.
  cbn [run_sources]. unfold bind at 1. unfold try_except. unfold bind at 1.
  rewrite (writer_run_source fuel s company start end_ st).
  unfold outcome, effects.
  destruct (run_source fuel s company start end_ io0) as [d [res|e|]]; reflexivity.
Qed.

(** The loop returns the records of the sources that returned, in the
    order of the sources; a source that raised adds nothing but its
    error line, and the sources after it still run. *)
Lemma run_sources_spec (sources : list string) :
  forall (all_reviews : list review) (st : io),
    (forall s, In s sources ->
               outcome (run_source fuel s company start end_) <> Unfinished) ->
    exists st',
      run_sources fuel sources company start end_ all_reviews st
      = (st', Return (all_reviews ++
                      List.concat (map (fun s => records_of
                                              (outcome (run_source fuel s company start end_)))
                                  sources))%list)
      /\ files st' = files st
      /\ (forall l, In l (stderr st) -> In l (stderr st'))
      /\ forall s e, In s sources ->
                     outcome (run_source fuel s company start end_) = Raise e ->
                     In (error_line s e) (stderr st').
Proof.
  induction sources as [|s sources IH]; intros all_reviews st Hfin.
  - exists st. simpl. rewrite app_nil_r. repeat split; auto. intros s e [].
  - rewrite run_sources_cons. cbv zeta.
    assert (Hfiles : files (io_app st (effects (run_source fuel s company start end_)))
                     = files st).
    { pose proof (no_files_run_source fuel s company start end_ st) as Hn.
      rewrite (writer_run_source fuel s company start end_ st) in Hn. exact Hn. }
    assert (Hrest : forall s', In s' sources ->
                      outcome (run_source fuel s' company start end_) <> Unfinished)
      by (intros s' Hin; apply Hfin; right; assumption).
    pose proof (Hfin s (or_introl eq_refl)) as Hs.
    cbn [map List.concat].
    destruct (outcome (run_source fuel s company start end_)) as [res|e|] eqn:Hout;
      [| |congruence].
    + destruct (IH (all_reviews ++ res)%list
                   (mkio (stderr (io_app st (effects (run_source fuel s company start end_)))
                          ++ ["Found " ++ str_int (Z.of_nat (List.length res))
                              ++ " reviews from " ++ s])
                         (requests (io_app st (effects (run_source fuel s company start end_))))
                         (files (io_app st (effects (run_source fuel s company start end_)))))
                   Hrest)
        as (st' & Hrun & Hf & Hmono & Herr).
      exists st'. rewrite Hrun. cbn [records_of]. rewrite <- app_assoc.
      split; [reflexivity|]. split; [cbn [files] in Hf; rewrite Hf; exact Hfiles|]. split.
      * intros l Hl. apply Hmono. simpl. apply in_or_app. left. apply in_or_app. auto.
      * intros s' e [<-|Hin] He; [congruence|]. apply (Herr s' e Hin He).
    + destruct (IH all_reviews
                   (mkio (stderr (io_app st (effects (run_source fuel s company start end_)))
                          ++ [error_line s e])
                         (requests (io_app st (effects (run_source fuel s company start end_))))
                         (files (io_app st (effects (run_source fuel s company start end_)))))
                   Hrest)
        as (st' & Hrun & Hf & Hmono & Herr).
      exists st'. rewrite Hrun. cbn [records_of app].
      split; [reflexivity|]. split; [cbn [files] in Hf; rewrite Hf; exact Hfiles|]. split.
      * intros l Hl. apply Hmono. simpl. apply in_or_app. left. apply in_or_app. auto.
      * intros s' e' [<-|Hin] He.
        -- rewrite Hout in He. inversion He; subst e'.
           apply Hmono. simpl. apply in_or_app. right. left. reflexivity.
        -- apply (Herr s' e' Hin He).
Qed.

End Aggregator.

(** [main] after its loop.  [open] raises and the run ends there with
    its error, or the file is written and the last line printed. *)
Lemma main_after_sources `{W : World} (fuel : nat) (a : args) (st st1 : io)
  (all_reviews : list review) :
  run_sources fuel (sources_of (a_source a)) (a_company a)
              (parse_bound (a_start a)) (parse_bound (a_end a)) [] st
  = (st1, Return all_reviews) ->
  main fuel a st
  = match open_w (a_output a) with
    | Some e => (st1, Raise e)
    | None =>
        (mkio (stderr st1 ++ [wrote_line all_reviews (a_output a)]) (requests st1)
              (files st1 ++ [(a_output a, all_reviews)]),
         Return tt)
    end.
Proof.
  intros Hrun. unfold main. unfold bind at 1. rewrite Hrun.
  unfold bind, dump_json. destruct (open_w (a_output a)); reflexivity.
Qed.

(* ===================================================================== *)
(** * Properties of the scrapers *)
(* ===================================================================== *)

Section Properties.

Context {W : World}.

(** C2.  Take a returned run of a scraper and a card selected on a page
    that the page loop fetched with status 200.  If the card has no
    date element or its date text does not parse, its record is in the
    output, whatever the boundary; and any card of such a page whose
    record is not in the output was dropped, that is, its date parsed
    and the range check rejected it.  At the level of one card: the
    loop body appends the record of a card without a parsed date, and
    it leaves a card out exactly when the card is dropped. *)
Theorem unparsed_date_never_excluded (src : source) (fuel : nat) (company : string)
  (start end_ : option datetime) (st st1 st' : io) (p : string) (out : list review)
  (n : Z) (r : response) (it : tag) :
  product_url_of src company st = (st1, Return p) ->
  scrape_of src fuel company start end_ st = (st', Return out) ->
  In (page_url_of src p n) (requested_since st1 st') ->
  session_get (page_url_of src p n) = inr r ->
  status_code r = 200 ->
  In it (items_of src (BeautifulSoup (text r))) ->
  (site_date_tag (site_of src) it = None
   \/ parse_date_try (card_date_text (site_of src) it) = None
   -> In (card_record (site_of src) it) out
      /\ forall reviews added,
           card_of src start end_ it (reviews, added)
           = inr ((reviews ++ [card_record (site_of src) it])%list, added + 1))
  /\ (In (card_record (site_of src) it) out \/ dropped (site_of src) start end_ it)
  /\ (forall reviews added,
        card_of src start end_ it (reviews, added) = inr (reviews, added)
        <-> dropped (site_of src) start end_ it).
Proof.
  intros Hloc Hrun Hreq Hget H200 Hin.
  apply scrape_of_run in Hrun.
  destruct Hrun as (p' & st1' & k & Hloc' & _ & Hst & more & Hout & _ & Hcomplete & Hcases).
  rewrite Hloc in Hloc'. inversion Hloc'; subst p' st1'. simpl in Hout. subst out.
  rewrite Hst, requested_since_app, requests_fetched in Hreq.
  apply in_map_iff in Hreq. destruct Hreq as (m & Hm & Hrange).
  rewrite page_url_of_site in *. rewrite items_of_site in Hin.
  assert (Hc : card_on_page (site_of src) p k 1 m it).
  { split; [assumption|]. exists r. rewrite Hm. auto. }
  rewrite card_of_site.
  split; [|split].
  - intros Hun. apply unparsed_no_date_obj in Hun.
    pose proof (kept_unparsed (site_of src) start end_ it Hun) as Hk.
    split.
    + apply (Hcomplete m it Hc Hk).
    + intros reviews added. apply card_kept; assumption.
  - destruct (Hcases m it Hc) as [Hk|Hd]; [left|right; assumption].
    apply (Hcomplete m it Hc Hk).
  - intros reviews added. apply card_dropped_iff.
Qed.

(** C9.  Every record a scraper returns carries the tag of that
    scraper: "g2", "capterra" or "trustradius". *)
Theorem records_carry_source_tag (src : source) (fuel : nat) (company : string)
  (start end_ : option datetime) (st st' : io) (out : list review) :
  scrape_of src fuel company start end_ st = (st', Return out) ->
  Forall (fun rec => r_source rec = source_tag src) out.
Proof.
  intros Hrun. apply scrape_of_run in Hrun.
  destruct Hrun as (p & st1 & k & _ & _ & _ & more & Hout & Hsound & _).
  simpl in Hout; subst out.
  eapply Forall_impl; [|exact Hsound].
  intros rec (n & it & _ & _ & ->). destruct src; reflexivity.
Qed.

(** C1 (amended).  [added] counts the records appended, not the cards
    selected.  The page loop returns at a page that did not answer 200.
    On a page that answered 200 the card loop appends the records of
    the kept cards and [added] is their number; the page loop returns
    at that page when every card of it was dropped by the date filter
    (and when no card was selected), and goes on to the next page when
    at least one card was kept. *)
Theorem pagination_stops_without_kept_cards (src : source) (fuel : nat) (p : string)
  (start end_ : option datetime) (page : Z) (reviews : list review) (st : io)
  (r : response) :
  let items := items_of src (BeautifulSoup (text r)) in
  let kept_items := filter (kept (site_of src) start end_) items in
  let st1 := io_app st (fetched (site_of src) p [page]) in
  session_get (page_url_of src p page) = inr r ->
  (status_code r <> 200 ->
   pages_of src (S fuel) p start end_ page reviews st = (st1, Return reviews))
  /\ (status_code r = 200 ->
      forall reviews' added,
        for_each (card_of src start end_) items (reviews, 0) = inr (reviews', added) ->
        added = Z.of_nat (List.length kept_items)
        /\ reviews' = (reviews ++ map (card_record (site_of src)) kept_items)%list
        /\ (Forall (dropped (site_of src) start end_) items ->
            pages_of src (S fuel) p start end_ page reviews st = (st1, Return reviews))
        /\ ((exists it, In it items /\ kept (site_of src) start end_ it = true) ->
            pages_of src (S fuel) p start end_ page reviews st
            = pages_of src fuel p start end_ (page + 1) reviews' st1)).
Proof.
  intros items kept_items st1 Hget.
  subst items kept_items st1.
  rewrite pages_of_site, page_url_of_site, items_of_site, card_of_site in *.
  rewrite pages_S, Hget. cbv zeta. split.
  - intros Hne. apply Z.eqb_neq in Hne. rewrite Hne. reflexivity.
  - intros H200 reviews' added Hfor.
    pose proof (for_each_card _ _ _ _ _ _ _ _ Hfor) as (Hrev & Hadd & Hall).
    split; [lia|]. split; [assumption|].
    apply Z.eqb_eq in H200. rewrite H200. cbn [negb].
    destruct (site_items (site_of src) (BeautifulSoup (text r))) as [|it0 items0] eqn:Hitems.
    + split; [reflexivity|]. intros (it & [] & _).
    + rewrite Hfor. split.
      * intros Hdropped.
        assert (Hnil : filter (kept (site_of src) start end_) (it0 :: items0) = []).
        { clear - Hdropped. induction Hdropped as [|it l Hd _ IH]; [reflexivity|].
          cbn [filter]. rewrite IH.
          destruct Hd as (d & Hobj & Hw). unfold kept, out_of_range, ebind.
          rewrite Hobj, Hw. reflexivity. }
        rewrite Hnil in *. simpl in Hadd, Hrev. rewrite app_nil_r in Hrev. subst.
        reflexivity.
      * intros (it & Hin & Hk).
        assert (Hf : In it (filter (kept (site_of src) start end_) (it0 :: items0)))
          by (apply filter_In; auto).
        destruct (filter (kept (site_of src) start end_) (it0 :: items0)); [destruct Hf|].
        simpl in Hadd. destruct (added =? 0) eqn:Hz; [apply Z.eqb_eq in Hz; lia|reflexivity].
Qed.

(** C3 (amended).  G2 and Capterra append [?page=N] to a listing URL
    without a question mark and [&page=N] to one with it.  TrustRadius
    appends [/reviews?page=N] to a listing URL (without a query string)
    that does not contain [/reviews], and [?page=N] to one that does.
    The page loop requests these URLs for N = 1, 2, ... and no other. *)
Theorem page_url_by_source (src : source) (p : string) (n : Z) :
  (src = TrustRadius -> contains "?" p = false) ->
  page_url_of src p n
  = p ++ match src with
         | TrustRadius => if contains "/reviews" p then "?page=" else "/reviews?page="
         | _ => if contains "?" p then "&page=" else "?page="
         end ++ str_int n
  /\ forall fuel start end_ st,
       exists k,
         requests (fst (pages_of src fuel p start end_ 1 [] st))
         = (requests st ++ map (page_url_of src p) (page_range 1 k))%list.
Proof.
  intros _. split.
  - destruct src; simpl;
      unfold g2_page_url, capterra_page_url, trustradius_page_url;
      match goal with |- context [contains ?a ?b] => destruct (contains a b) end;
      reflexivity.
  - intros fuel start end_ st.
    destruct (pages_of src fuel p start end_ 1 [] st) as [st' res] eqn:Hrun.
    rewrite pages_of_site in Hrun. apply pages_run in Hrun.
    destruct Hrun as (k & _ & -> & _). exists k.
    rewrite page_url_of_site. reflexivity.
Qed.

(** C6 (amended).  The [date] field of every returned record is the
    [isoformat] of the parsed date when the date text parsed, the text
    handed to the parser when it did not parse, and the empty text when
    the card has no date element.  [isoformat] prints a date and a time
    ([YYYY-MM-DDT00:00:00] for a date parsed by one of the patterns),
    never a bare calendar date. *)
Theorem date_field_isoformat_or_raw (src : source) (fuel : nat) (company : string)
  (start end_ : option datetime) (st st' : io) (out : list review) :
  scrape_of src fuel company start end_ st = (st', Return out) ->
  Forall (fun rec => exists it, rec = card_record (site_of src) it
                                /\ date_field_ok (site_of src) it rec) out
  /\ (forall d, iso_calendar_date (isoformat d) = false)
  /\ (forall s fmt d, strptime s fmt = Some d ->
        isoformat d = zfill 4 (year d) ++ "-" ++ zfill 2 (month d) ++ "-"
                      ++ zfill 2 (day d) ++ "T00:00:00").
Proof.
  intros Hrun. split; [|split; [apply isoformat_not_calendar_date|apply strptime_isoformat]].
  apply scrape_of_run in Hrun.
  destruct Hrun as (p & st1 & k & _ & _ & _ & more & Hout & Hsound & _).
  simpl in Hout; subst out.
  eapply Forall_impl; [|exact Hsound].
  intros rec (n & it & _ & _ & ->). exists it. split; [reflexivity|].
  assert (Hdate : r_date (card_record (site_of src) it)
                  = date_field (card_date_obj (site_of src) it)
                               (card_date_text (site_of src) it))
    by (destruct src; reflexivity).
  unfold date_field_ok. rewrite Hdate. split.
  - unfold date_field. destruct (card_date_obj (site_of src) it); reflexivity.
  - intros Hnone. unfold card_date_obj, card_date_text. rewrite Hnone. reflexivity.
Qed.

(** C7.  When every requested source ends (returns or raises), the
    loop over the sources returns the records of the sources that
    returned, concatenated in the order of the sources: a source that
    raised is caught, contributes nothing, has its error line naming it
    on the diagnostic stream, and the sources after it are still run.
    [main] then opens the output path, outside the try/except.  When
    the path opens, [main] returns, the file holds the merged list and
    the error lines are still there; when [open] raises, [main] ends
    with that error and no file is written. *)
Theorem failing_source_is_skipped (fuel : nat) (a : args) (st : io) :
  let start := parse_bound (a_start a) in
  let end_ := parse_bound (a_end a) in
  let sources := sources_of (a_source a) in
  let run := fun s => outcome (run_source fuel s (a_company a) start end_) in
  let merged := List.concat (map (fun s => records_of (run s)) sources) in
  (forall s, In s sources -> run s <> Unfinished) ->
  exists st1,
    run_sources fuel sources (a_company a) start end_ [] st = (st1, Return merged)
    /\ files st1 = files st
    /\ (forall s e, In s sources -> run s = Raise e -> In (error_line s e) (stderr st1))
    /\ match open_w (a_output a) with
       | None =>
           exists st',
             main fuel a st = (st', Return tt)
             /\ files st' = (files st ++ [(a_output a, merged)])%list
             /\ forall l, In l (stderr st1) -> In l (stderr st')
       | Some e => main fuel a st = (st1, Raise e)
       end.
Proof.
  intros start end_ sources run merged Hfin.
  destruct (run_sources_spec fuel (a_company a) start end_ sources [] st Hfin)
    as (st1 & Hrun & Hfiles & _ & Herr).
  cbn [app] in Hrun. exists st1.
  split; [exact Hrun|]. split; [exact Hfiles|]. split; [exact Herr|].
  rewrite (main_after_sources fuel a st st1 merged Hrun).
  destruct (open_w (a_output a)) as [e|]; [reflexivity|].
  eexists. split; [reflexivity|]. cbn [files stderr]. split.
  - rewrite Hfiles. reflexivity.
  - intros l Hl. apply in_or_app. left. exact Hl.
Qed.

(** C8.  For an input that starts with "http" the locator returns the
    input without its trailing slashes, and nothing else changes: the
    input is the result followed by slashes only, the result does not
    end with a slash, and no request is made ([io] is as before). *)
Theorem locator_keeps_given_url (src : source) (company : string) (st : io) :
  startswith company "http" = true ->
  product_url_of src company st = (st, Return (rstrip company "/"))
  /\ (exists k, company = rstrip company "/" ++ copies "/" k)
  /\ last_char (rstrip company "/") <> Some "/"%char.
Proof.
  intros H. split; [|split].
  - destruct src; simpl;
      unfold g2_product_url, capterra_product_url, trustradius_product_url;
      rewrite H; reflexivity.
  - apply rstrip_copies.
  - apply rstrip_last_char.
Qed.

(** C10.  A [--start] or [--end] value that the date parser cannot
    parse gives the same run as the flag left out: the same result, the
    same output file and the same diagnostic lines, so no error and no
    message of its own. *)
Theorem unparseable_bound_is_no_bound (fuel : nat) (company : string)
  (start end_ : option string) (source output : string) (s : string) (st : io) :
  parse_date_try s = None ->
  main fuel (mkargs company (Some s) end_ source output) st
  = main fuel (mkargs company None end_ source output) st
  /\ main fuel (mkargs company start (Some s) source output) st
     = main fuel (mkargs company start None source output) st.
Proof.
  intros H. unfold main, parse_bound. cbn [a_start a_end a_company a_source a_output].
  rewrite H. destruct (truthy s); split; reflexivity.
Qed.

End Properties.

(* ===================================================================== *)
(** * When the range check raises *)
(* ===================================================================== *)

Lemma dt_compare_comparable (a b : datetime) :
  comparable a b = true -> exists c, dt_compare a b = inr c.
Proof.
  unfold comparable, aware, dt_compare.
  destruct (tzinfo a) as [oa|], (tzinfo b) as [ob|]; try discriminate; intros _.
  - destruct (oa =? ob); eauto.
  - eauto.
Qed.

Lemma dt_compare_incomparable (a b : datetime) :
  comparable a b = false -> dt_compare a b = inl compare_error.
Proof.
  unfold comparable, aware, dt_compare.
  destruct (tzinfo a) as [oa|], (tzinfo b) as [ob|]; try discriminate; reflexivity.
Qed.

Lemma dt_lt_cases (a b : datetime) :
  (comparable a b = false /\ dt_lt a b = inl compare_error)
  \/ (comparable a b = true /\ exists v, dt_lt a b = inr v).
Proof.
  unfold dt_lt. destruct (comparable a b) eqn:C.
  - right. destruct (dt_compare_comparable a b C) as (c & ->). eauto.
  - left. rewrite (dt_compare_incomparable a b C). auto.
Qed.

Lemma dt_gt_cases (a b : datetime) :
  (comparable a b = false /\ dt_gt a b = inl compare_error)
  \/ (comparable a b = true /\ exists v, dt_gt a b = inr v).
Proof.
  unfold dt_gt. destruct (comparable a b) eqn:C.
  - right. destruct (dt_compare_comparable a b C) as (c & ->). eauto.
  - left. rewrite (dt_compare_incomparable a b C). auto.
Qed.

(** The only exception of the range check is the TypeError of a
    comparison, and it needs a bound. *)
Lemma within_range_error (d : datetime) (start end_ : option datetime) (e : exn) :
  within_range d start end_ = inl e ->
  e = compare_error /\ (start <> None \/ end_ <> None).
Proof.
  unfold within_range, ebind.
  destruct start as [s|].
  - destruct (dt_lt_cases d s) as [(_ & ->)|(_ & v & ->)].
    + intros H; inversion H. split; [reflexivity|left; discriminate].
    + destruct v; [discriminate|].
      destruct end_ as [en|]; [|discriminate].
      destruct (dt_gt_cases d en) as [(_ & ->)|(_ & w & ->)].
      * intros H; inversion H. split; [reflexivity|left; discriminate].
      * destruct w; discriminate.
  - destruct end_ as [en|]; [|discriminate].
    destruct (dt_gt_cases d en) as [(_ & ->)|(_ & w & ->)].
    + intros H; inversion H. split; [reflexivity|right; discriminate].
    + destruct w; discriminate.
Qed.

(** A date parsed by one of the patterns is naive, at midnight. *)
Lemma strptime_midnight (s fmt : string) (d : datetime) :
  strptime s fmt = Some d ->
  hour d = 0 /\ minute d = 0 /\ second d = 0 /\ microsecond d = 0 /\ tzinfo d = None.
Proof.
  unfold strptime.
  destruct (compile_format fmt false) as [ps|]; [|discriminate].
  destruct (regex_match ps s no_groups) as [[g [|c rest]]|]; try discriminate.
  destruct (_ && _); [|discriminate].
  intros H; inversion H; subst. repeat split.
Qed.

Lemma try_formats_midnight (s : string) (fmts : list string) (d : datetime) :
  try_formats s fmts = Some d ->
  hour d = 0 /\ minute d = 0 /\ second d = 0 /\ microsecond d = 0 /\ tzinfo d = None.
Proof.
  intros H. apply try_formats_some in H. destruct H as (i & fmt & _ & H & _).
  apply (strptime_midnight _ _ _ H).
Qed.

(* ===================================================================== *)
(** * Further properties of the page loop *)
(* ===================================================================== *)

Section PageOrder.

Context {W : World}.
Variable cfg : site.
Variables (start end_ : option datetime) (p : string).

Lemma page_records_stop (page : Z) :
  (forall r, session_get (site_page_url cfg p page) = inr r ->
             status_code r = 200 ->
             filter (kept cfg start end_) (site_items cfg (BeautifulSoup (text r))) = []) ->
  page_records cfg start end_ p page = [].
Proof.
  intros H. unfold page_records, page_cards.
  destruct (session_get (site_page_url cfg p page)) as [e|r] eqn:Hget; [reflexivity|].
  destruct (status_code r =? 200) eqn:Hs; [|reflexivity].
  apply Z.eqb_eq in Hs. rewrite (H r eq_refl Hs). reflexivity.
Qed.

(** A returned run of the page loop gives the records it started with
    followed by the records of the pages it fetched, page after page. *)
Lemma pages_in_order (fuel : nat) :
  forall (page : Z) (reviews : list review) (st st' : io) (out : list review),
    pages cfg fuel p start end_ page reviews st = (st', Return out) ->
    exists k,
      st' = io_app st (fetched cfg p (page_range page k))
      /\ out = (reviews ++ flat_map (page_records cfg start end_ p) (page_range page k))%list.
Proof.
  induction fuel as [|fuel IH]; intros page reviews st st' out.
  - simpl. unfold unfinished. discriminate.
  - rewrite pages_S. cbv zeta.
    assert (Hstop : page_records cfg start end_ p page = [] ->
              exists k,
                io_app st (fetched cfg p [page])
                = io_app st (fetched cfg p (page_range page k))
                /\ reviews
                   = (reviews ++ flat_map (page_records cfg start end_ p)
                                          (page_range page k))%list).
    { intros Hnil. exists 1%nat. rewrite page_range_1. cbn [flat_map].
      rewrite Hnil, !app_nil_r. auto. }
    destruct (session_get (site_page_url cfg p page)) as [e|r] eqn:Hget; [discriminate|].
    destruct (status_code r =? 200) eqn:Hstatus; cbn [negb].
    2:{ intros H; inversion H; subst. apply Hstop. apply page_records_stop.
        intros r' Hr' H200. rewrite Hget in Hr'. inversion Hr'; subst r'.
        rewrite H200 in Hstatus. discriminate. }
    destruct (site_items cfg (BeautifulSoup (text r))) as [|it0 items0] eqn:Hitems.
    { intros H; inversion H; subst. apply Hstop. apply page_records_stop.
      intros r' Hr' _. rewrite Hget in Hr'. inversion Hr'; subst r'.
      rewrite Hitems. reflexivity. }
    rewrite <- Hitems.
    destruct (for_each (card cfg start end_) (site_items cfg (BeautifulSoup (text r)))
                       (reviews, 0)) as [e|[reviews' added]] eqn:Hfor; [discriminate|].
    apply for_each_card in Hfor. destruct Hfor as (Hrev & Hadd & _).
    assert (Hpage : page_records cfg start end_ p page
                    = map (card_record cfg)
                          (filter (kept cfg start end_)
                                  (site_items cfg (BeautifulSoup (text r))))).
    { unfold page_records, page_cards. rewrite Hget, Hstatus. reflexivity. }
    destruct (added =? 0) eqn:Hzero.
    + intros H; inversion H; subst st' out.
      assert (Hnil : filter (kept cfg start end_) (site_items cfg (BeautifulSoup (text r))) = []).
      { apply Z.eqb_eq in Hzero.
        destruct (filter (kept cfg start end_) (site_items cfg (BeautifulSoup (text r))));
          [reflexivity|]. simpl in Hadd. lia. }
      rewrite Hnil in Hrev, Hpage. simpl in Hrev. rewrite app_nil_r in Hrev. subst reviews'.
      apply Hstop. exact Hpage.
    + intros H. apply IH in H. destruct H as (k & Hst & Hout).
      exists (S k). rewrite page_range_S, fetched_cons, <- io_app_assoc.
      split; [assumption|]. cbn [flat_map]. rewrite Hpage, app_assoc, <- Hrev. assumption.
Qed.

(** The page loop ends at a [last_page] at the latest: with [k] more
    pages to go before one, it makes at most [k + 1] requests, however
    large the bound on its iterations. *)
Lemma pages_bounded (fuel : nat) :
  forall (page : Z) (reviews : list review) (st : io) (k : nat),
    (k < fuel)%nat ->
    last_page cfg p (page + Z.of_nat k) ->
    exists k',
      (k' <= S k)%nat
      /\ fst (pages cfg fuel p start end_ page reviews st)
         = io_app st (fetched cfg p (page_range page k'))
      /\ snd (pages cfg fuel p start end_ page reviews st) <> Unfinished.
Proof.
  induction fuel as [|fuel IH]; intros page reviews st k Hk Hlast; [lia|].
  rewrite pages_S. cbv zeta.
  assert (Hone : forall res : result (list review), res <> Unfinished ->
            exists k', (k' <= S k)%nat
              /\ fst (io_app st (fetched cfg p [page]), res)
                 = io_app st (fetched cfg p (page_range page k'))
              /\ snd (io_app st (fetched cfg p [page]), res) <> Unfinished).
  { intros res Hres. exists 1%nat. rewrite page_range_1. split; [lia|]. split; auto. }
  destruct (session_get (site_page_url cfg p page)) as [e|r] eqn:Hget;
    [apply Hone; discriminate|].
  destruct (status_code r =? 200) eqn:Hstatus; cbn [negb]; [|apply Hone; discriminate].
  destruct (site_items cfg (BeautifulSoup (text r))) as [|it0 items0] eqn:Hitems;
    [apply Hone; discriminate|].
  destruct (for_each (card cfg start end_) (it0 :: items0) (reviews, 0))
    as [e|[reviews' added]]; [apply Hone; discriminate|].
  destruct (added =? 0); [apply Hone; discriminate|].
  destruct k as [|k].
  - exfalso. unfold last_page in Hlast. rewrite Z.add_0_r, Hget in Hlast.
    apply Z.eqb_eq in Hstatus.
    destruct Hlast as [Hbad|Hbad]; [auto|]. rewrite Hitems in Hbad. discriminate.
  - destruct (IH (page + 1) reviews' (io_app st (fetched cfg p [page])) k) as (k' & Hk' & Hst & Hres).
    + lia.
    + replace (page + 1 + Z.of_nat k) with (page + Z.of_nat (S k)) by lia. assumption.
    + exists (S k'). split; [lia|]. split; [|assumption].
      rewrite Hst, page_range_S, fetched_cons, io_app_assoc. reflexivity.
Qed.

(** The card loop raises only the TypeError of a comparison, and only
    when a bound is given. *)
Lemma for_each_card_raise (items : list tag) (st0 : list review * Z) (e : exn) :
  for_each (card cfg start end_) items st0 = inl e ->
  e = compare_error /\ (start <> None \/ end_ <> None).
Proof.
  revert st0; induction items as [|it items IH]; intros [reviews added];
    cbn [for_each]; [discriminate|].
  pose proof (card_cases cfg start end_ it reviews added) as C.
  destruct (out_of_range (card_date_obj cfg it) start end_) as [e0|[|]] eqn:Ho;
    rewrite C; unfold ebind; try apply IH.
  intros H; inversion H; subst e0.
  unfold out_of_range, ebind in Ho.
  destruct (card_date_obj cfg it) as [d|]; [|discriminate].
  destruct (within_range d start end_) as [e1|b] eqn:Hw; [|discriminate].
  inversion Ho; subst e1. apply (within_range_error _ _ _ _ Hw).
Qed.

(** The page loop raises what the request of its last page raised, or
    the TypeError of a comparison when a bound is given. *)
Lemma pages_raise (fuel : nat) :
  forall (page : Z) (reviews : list review) (st st' : io) (e : exn),
    pages cfg fuel p start end_ page reviews st = (st', Raise e) ->
    exists k,
      st' = io_app st (fetched cfg p (page_range page k))
      /\ ((exists n, In n (page_range page k)
                     /\ session_get (site_page_url cfg p n) = inl e)
          \/ (e = compare_error /\ (start <> None \/ end_ <> None))).
Proof.
  induction fuel as [|fuel IH]; intros page reviews st st' e.
  - simpl. unfold unfinished. discriminate.
  - rewrite pages_S. cbv zeta.
    destruct (session_get (site_page_url cfg p page)) as [e0|r] eqn:Hget.
    { intros H; inversion H; subst. exists 1%nat. rewrite page_range_1.
      split; [reflexivity|]. left. exists page. split; [left; reflexivity|assumption]. }
    destruct (status_code r =? 200); cbn [negb]; [|discriminate].
    destruct (site_items cfg (BeautifulSoup (text r))) as [|it0 items0]; [discriminate|].
    destruct (for_each (card cfg start end_) (it0 :: items0) (reviews, 0))
      as [e0|[reviews' added]] eqn:Hfor.
    { intros H; inversion H; subst. exists 1%nat. rewrite page_range_1.
      split; [reflexivity|]. right. apply (for_each_card_raise _ _ _ Hfor). }
    destruct (added =? 0); [discriminate|].
    intros H. apply IH in H. destruct H as (k & Hst & Hcause).
    exists (S k). rewrite page_range_S, fetched_cons, <- io_app_assoc.
    split; [assumption|].
    destruct Hcause as [(n & Hn & Hget')|Hcmp]; [left|right; assumption].
    exists n. split; [right; assumption|assumption].
Qed.

End PageOrder.

(* ===================================================================== *)
(** * Diagnostic lines of main, white space around a date *)
(* ===================================================================== *)

Section Diagnostics.

Context {W : World}.
Variables (fuel : nat) (company : string) (start end_ : option datetime).

(** Every source that returns gets its line with the number of its
    records, and lines once printed stay. *)
Lemma run_sources_found (sources : list string) :
  forall (all_reviews : list review) (st : io),
    (forall s, In s sources ->
               outcome (run_source fuel s company start end_) <> Unfinished) ->
    (forall l, In l (stderr st) ->
               In l (stderr (fst (run_sources fuel sources company start end_ all_reviews st))))
    /\ forall s res, In s sources ->
         outcome (run_source fuel s company start end_) = Return res ->
         In (found_line s res)
            (stderr (fst (run_sources fuel sources company start end_ all_reviews st))).
Proof.
  induction sources as [|s sources IH]; intros all_reviews st Hfin.
  - simpl. split; [auto|intros s res []].
  - rewrite run_sources_cons. cbv zeta.
    assert (Hrest : forall s', In s' sources ->
                      outcome (run_source fuel s' company start end_) <> Unfinished)
      by (intros s' Hin; apply Hfin; right; assumption).
    pose proof (Hfin s (or_introl eq_refl)) as Hs.
    destruct (outcome (run_source fuel s company start end_)) as [res|e|] eqn:Hout;
      [| |congruence].
    + match goal with |- context [run_sources _ _ _ _ _ ?a ?st1] =>
        destruct (IH a st1 Hrest) as (Hmono & Hfound) end.
      split.
      * intros l Hl. apply Hmono. cbn [stderr io_app].
        apply in_or_app. left. apply in_or_app. auto.
      * intros s' res' [<-|Hin] Hr.
        -- rewrite Hout in Hr. inversion Hr; subst res'.
           apply Hmono. cbn [stderr]. apply in_or_app. right. left. reflexivity.
        -- apply (Hfound s' res' Hin Hr).
    + match goal with |- context [run_sources _ _ _ _ _ ?a ?st1] =>
        destruct (IH a st1 Hrest) as (Hmono & Hfound) end.
      split.
      * intros l Hl. apply Hmono. cbn [stderr io_app].
        apply in_or_app. left. apply in_or_app. auto.
      * intros s' res' [<-|Hin] Hr; [congruence|]. apply (Hfound s' res' Hin Hr).
Qed.

End Diagnostics.

Lemma length_concat_sum {A} (l : list (list A)) :
  List.length (List.concat l) = list_sum (map (@List.length A) l).
Proof.
  induction l as [|x l IH]; simpl; [reflexivity|]. now rewrite length_app, IH.
Qed.

Lemma lstrip_ws_space (a s : string) :
  all_space a = true -> lstrip_ws (a ++ s) = lstrip_ws s.
Proof.
  induction a as [|c a IH]; simpl; [reflexivity|].
  destruct (isspace c); [apply IH|discriminate].
Qed.

Lemma rstrip_ws_space (a : string) : all_space a = true -> rstrip_ws a = "".
Proof.
  induction a as [|c a IH]; simpl; [reflexivity|].
  destruct (isspace c); [|discriminate]. intros H. rewrite (IH H). reflexivity.
Qed.

Lemma rstrip_ws_app_space (s b : string) :
  all_space b = true -> rstrip_ws (s ++ b) = rstrip_ws s.
Proof.
  intros H. induction s as [|c s IH]; simpl.
  - apply rstrip_ws_space; assumption.
  - rewrite IH. reflexivity.
Qed.

(** White space around a text does not change what [strip] gives. *)
Lemma strip_surrounded (pre s post : string) :
  all_space pre = true -> all_space post = true ->
  strip (pre ++ s ++ post) = strip s.
Proof.
  intros Hpre Hpost. unfold strip. rewrite lstrip_ws_space by assumption.
  induction s as [|c s IH].
  - simpl. replace post with (post ++ "") by (clear; induction post as [|x y IH]; simpl; [reflexivity|now rewrite IH]).
    rewrite lstrip_ws_space by assumption. reflexivity.
  - cbn [append lstrip_ws]. destruct (isspace c); [apply IH|].
    change (String c (s ++ post)) with (String c s ++ post).
    apply rstrip_ws_app_space; assumption.
Qed.

(* ===================================================================== *)
(** * URLs of a run *)
(* ===================================================================== *)

From Stdlib Require DecimalPos DecimalZ.

Lemma prefix_app (a b : string) : String.prefix a (a ++ b) = true.
Proof.
  induction a as [|c a IH]; simpl; [destruct b; reflexivity|].
  destruct (ascii_dec c c) as [_|N]; [assumption|congruence].
Qed.

Lemma prefix_app_r (a b c : string) :
  String.prefix a b = true -> String.prefix a (b ++ c) = true.
Proof.
  revert b; induction a as [|x a IH]; intros b.
  - intros _. destruct (b ++ c); reflexivity.
  - destruct b as [|y b]; simpl; [discriminate|].
    destruct (ascii_dec x y); [apply IH|discriminate].
Qed.

Lemma append_inj_r (a b c : string) : a ++ b = a ++ c -> b = c.
Proof.
  induction a as [|x a IH]; simpl; intros H; [assumption|].
  inversion H. auto.
Qed.

(** [str] of an int determines the int. *)
Lemma str_int_inj (a b : Z) : str_int a = str_int b -> a = b.
Proof.
  unfold str_int. intros H.
  assert (Hn : forall z, NilZero.int_of_string (NilZero.string_of_int (Z.to_int z))
                         = Some (Z.to_int z)).
  { intros z. apply NilZero.isi; destruct z; simpl; try discriminate;
      intros E; inversion E as [E']; apply (DecimalPos.Unsigned.to_uint_nonnil _ E'). }
  pose proof (Hn a) as Ha. rewrite H, Hn in Ha. inversion Ha as [E].
  rewrite <- (DecimalZ.of_to a), <- (DecimalZ.of_to b), E. reflexivity.
Qed.

(** The page URL of a scraper is the product URL followed by a suffix
    that ends with the page number and otherwise depends on the product
    URL only. *)
Lemma page_url_of_shape (src : source) (p : string) :
  exists sfx, forall n, page_url_of src p n = p ++ sfx ++ str_int n.
Proof.
  destruct src; simpl; unfold g2_page_url, capterra_page_url, trustradius_page_url;
    match goal with |- context [contains ?a ?b] => destruct (contains a b) end;
    eexists; intros n; reflexivity.
Qed.

Lemma page_url_of_inj (src : source) (p : string) (n m : Z) :
  page_url_of src p n = page_url_of src p m -> n = m.
Proof.
  destruct (page_url_of_shape src p) as (sfx & H). rewrite !H.
  intros E. apply append_inj_r, append_inj_r in E. apply str_int_inj; assumption.
Qed.

Lemma page_url_of_prefix (src : source) (root p : string) (n : Z) :
  String.prefix root p = true -> String.prefix root (page_url_of src p n) = true.
Proof.
  intros H. destruct (page_url_of_shape src p) as (sfx & ->). apply prefix_app_r; assumption.
Qed.

Lemma NoDup_map_inj {A B} (f : A -> B) (l : list A) :
  (forall x y, f x = f y -> x = y) -> NoDup l -> NoDup (map f l).
Proof.
  intros Hinj H. induction H as [|x l Hx _ IH]; simpl; constructor; [|assumption].
  intros Hin. apply in_map_iff in Hin. destruct Hin as (y & Hy & Hin).
  apply Hinj in Hy. subst. contradiction.
Qed.

Lemma NoDup_page_range (page : Z) (k : nat) : NoDup (page_range page k).
Proof.
  unfold page_range. apply NoDup_map_inj; [|apply seq_NoDup].
  intros i j H. lia.
Qed.

(** One character occurs in a concatenation when it occurs in a part. *)
Lemma contains_char_app (c : ascii) (a b : string) :
  contains (String c "") (a ++ b) = contains (String c "") a || contains (String c "") b.
Proof.
  induction a as [|x a IH].
  - simpl. destruct b; reflexivity.
  - cbn [append contains]. rewrite IH.
    assert (Hp : forall y, String.prefix (String c "") (String x y)
                           = String.prefix (String c "") (String x "")).
    { intros y. simpl. destruct (ascii_dec c x); [destruct y|]; reflexivity. }
    rewrite (Hp (a ++ b)), (Hp a). now rewrite orb_assoc.
Qed.

(** Replacing every occurrence of a character leaves none, when the
    replacement has none. *)
Lemma contains_replace (c : ascii) (new s : string) :
  contains (String c "") new = false ->
  contains (String c "") (replace s c new) = false.
Proof.
  intros Hnew. induction s as [|x s IH]; [reflexivity|].
  cbn [replace]. destruct (Ascii.eqb_spec x c) as [->|Hne].
  - rewrite contains_char_app, Hnew, IH. reflexivity.
  - cbn [contains]. rewrite IH. simpl.
    destruct (ascii_dec c x) as [E|_]; [congruence|reflexivity].
Qed.

Lemma contains_app_l (sub a b : string) :
  contains sub a = true -> contains sub (a ++ b) = true.
Proof.
  induction a as [|x a IH].
  - simpl. rewrite orb_false_r. intros H. destruct sub; [|discriminate].
    destruct b; reflexivity.
  - intros H. cbn [contains] in H. apply orb_true_iff in H.
    cbn [append contains]. apply orb_true_iff. destruct H as [H|H].
    + left. apply (prefix_app_r sub (String x a) b H).
    + right. apply IH; assumption.
Qed.

Lemma contains_app_r (sub a b : string) :
  contains sub b = true -> contains sub (a ++ b) = true.
Proof.
  intros H. induction a as [|x a IH]; [assumption|].
  cbn [append contains]. rewrite IH. apply orb_true_r.
Qed.

Section Locator.

Context {W : World}.

(** The locator on a name: one request, to the search URL; its
    exception is passed on, and its response gives the product URL. *)
Lemma product_url_of_name (src : source) (company : string) (st : io) :
  startswith company "http" = false ->
  product_url_of src company st
  = (after_request st (search_url_of src company),
     match session_get (search_url_of src company) with
     | inl e => Raise e
     | inr r => Return (located src company r)
     end).
Proof.
  intros H.
  destruct src; simpl;
    unfold g2_product_url, capterra_product_url, trustradius_product_url, located,
           search_url_of, after_request, search_link, site_base, fallback_url;
    rewrite H; unfold bind, get, ret;
    match goal with |- context [session_get ?u] => destruct (session_get u) end;
    try reflexivity;
    match goal with |- context [href_of ?l] => destruct (href_of l) end;
    reflexivity.
Qed.

Lemma located_prefix (src : source) (company : string) (r : response) :
  String.prefix (site_base src) (located src company r) = true.
Proof.
  unfold located.
  destruct (href_of _); [apply prefix_app|].
  destruct src; reflexivity.
Qed.

Lemma search_url_prefix (src : source) (company : string) :
  String.prefix (site_base src) (search_url_of src company) = true.
Proof. destruct src; reflexivity. Qed.

(** The locator on a URL: no request, the URL without its trailing
    slashes. *)
Lemma product_url_of_url (src : source) (company : string) (st : io) :
  startswith company "http" = true ->
  product_url_of src company st = (st, Return (rstrip company "/")).
Proof.
  intros H. destruct src; simpl;
    unfold g2_product_url, capterra_product_url, trustradius_product_url;
    rewrite H; reflexivity.
Qed.

(** The requests of a page loop are the page URLs of the pages it
    fetched. *)
Lemma pages_of_requests (src : source) (fuel : nat) (p : string)
  (start end_ : option datetime) (page : Z) (reviews : list review) (st : io) :
  exists k,
    (k <= fuel)%nat
    /\ fst (pages_of src fuel p start end_ page reviews st)
       = io_app st (fetched (site_of src) p (page_range page k)).
Proof.
  destruct (pages_of src fuel p start end_ page reviews st) as [st' res] eqn:Hrun.
  rewrite pages_of_site in Hrun. apply pages_run in Hrun.
  destruct Hrun as (k & Hk & -> & _). exists k. auto.
Qed.

End Locator.

Lemma prefix_refl (a : string) : String.prefix a a = true.
Proof.
  induction a as [|c a IH]; simpl; [reflexivity|].
  destruct (ascii_dec c c); [assumption|congruence].
Qed.

Lemma requested_since_after (st : io) (url : string) (d : io) :
  requested_since st (io_app (after_request st url) d) = url :: requests d.
Proof.
  unfold requested_since, io_app, after_request; simpl.
  induction (requests st) as [|u l IH]; simpl; auto.
Qed.

Lemma requested_since_after0 (st : io) (url : string) :
  requested_since st (after_request st url) = [url].
Proof.
  unfold requested_since, after_request; simpl.
  induction (requests st) as [|u l IH]; simpl; auto.
Qed.

(* ===================================================================== *)
(** * Further properties of the script *)
(* ===================================================================== *)

Section MoreProperties.

Context {W : World}.

Lemma length_page_range (page : Z) (k : nat) : List.length (page_range page k) = k.
Proof. unfold page_range. now rewrite length_map, length_seq. Qed.

(** X1.  A scraper that returns has requested the listing pages 1, 2,
    ..., k and no other after the locator, and its result is the
    records of the kept cards of page 1 in the order of the cards,
    then those of page 2, and so on to page k. *)
Theorem scrape_output_in_page_order (src : source) (fuel : nat) (company : string)
  (start end_ : option datetime) (st st1 st' : io) (p : string) (out : list review) :
  product_url_of src company st = (st1, Return p) ->
  scrape_of src fuel company start end_ st = (st', Return out) ->
  requested_since st1 st'
  = map (page_url_of src p) (page_range 1 (List.length (requested_since st1 st')))
  /\ out = flat_map (page_records (site_of src) start end_ p)
                    (page_range 1 (List.length (requested_since st1 st'))).
Proof.
  intros Hloc Hrun. rewrite scrape_of_unfold, Hloc, pages_of_site in Hrun.
  apply pages_in_order in Hrun. destruct Hrun as (k & -> & ->).
  rewrite requested_since_app, requests_fetched, length_map, length_page_range.
  rewrite page_url_of_site. split; reflexivity.
Qed.

(** X2.  The range check raises only the TypeError of comparing a
    naive with an aware datetime.  It raises exactly when the start
    bound cannot be compared with the date, or the date is not before
    the start bound and the end bound cannot be compared with it: a
    date before the start is rejected without a look at the end. *)
Theorem within_range_raises_iff (d : datetime) (start end_ : option datetime) :
  (forall e, within_range d start end_ = inl e -> e = compare_error)
  /\ ((exists e, within_range d start end_ = inl e) <->
      (exists s, start = Some s /\ comparable d s = false)
      \/ (start_ok start d /\ exists en, end_ = Some en /\ comparable d en = false)).
Proof.
  split; [intros e H; apply (within_range_error _ _ _ _ H)|].
  unfold within_range, ebind, start_ok.
  destruct start as [s|].
  - rewrite <- dt_lt_false_iff.
    destruct (dt_lt_cases d s) as [(C & ->)|(C & v & ->)].
    + split; [intros _; left; eauto|intros _; eauto].
    + destruct v.
      * split; [intros (e & H); discriminate|].
        intros [(s' & H & C')|(H & _)]; [inversion H; subst; congruence|discriminate].
      * destruct end_ as [en|].
        -- destruct (dt_gt_cases d en) as [(C' & ->)|(C' & w & ->)].
           ++ split; [intros _; right; eauto|intros _; eauto].
           ++ split; [destruct w; intros (e & H); discriminate|].
              intros [(s' & H & C'')|(_ & en' & H & C'')]; inversion H; subst; congruence.
        -- split; [intros (e & H); discriminate|].
           intros [(s' & H & C')|(_ & en' & H & _)]; [inversion H; subst; congruence|discriminate].
  - destruct end_ as [en|].
    + destruct (dt_gt_cases d en) as [(C' & ->)|(C' & w & ->)].
      * split; [intros _; right; eauto|intros _; eauto].
      * split; [destruct w; intros (e & H); discriminate|].
        intros [(s' & H & _)|(_ & en' & H & C'')]; [discriminate|inversion H; subst; congruence].
    + split; [intros (e & H); discriminate|].
      intros [(s' & H & _)|(_ & en' & H & _)]; discriminate.
Qed.

(** X3.  Without a start and an end bound the card loop keeps every
    card, whatever its date, and cannot raise: it appends one record
    per card, in order, and counts them all. *)
Theorem no_bounds_keep_every_card (src : source) (items : list tag)
  (reviews : list review) (added : Z) :
  for_each (card_of src None None) items (reviews, added)
  = inr ((reviews ++ map (card_record (site_of src)) items)%list,
         added + Z.of_nat (List.length items)).
Proof.
  rewrite card_of_site.
  revert reviews added; induction items as [|it items IH]; intros reviews added;
    cbn [for_each map List.length].
  - rewrite app_nil_r. f_equal. f_equal. lia.
  - rewrite (card_kept (site_of src) None None it reviews added).
    + unfold ebind. rewrite IH, <- app_assoc. cbn [app]. f_equal. f_equal. lia.
    + unfold kept, out_of_range, ebind.
      destruct (card_date_obj (site_of src) it); reflexivity.
Qed.

(** X4.  A bound given as a date by one of the patterns is that day at
    midnight.  So a naive date of the same day with a time after
    midnight passes such a start bound and fails such an end bound: the
    range takes in the whole start day and, of the end day, only
    midnight. *)
Theorem end_day_is_cut_at_midnight (s : string) (e d : datetime) :
  try_formats s formats = Some e ->
  tzinfo d = None ->
  year d = year e -> month d = month e -> day d = day e ->
  0 <= hour d -> 0 <= minute d -> 0 <= second d -> 0 <= microsecond d ->
  0 < hour d + minute d + second d + microsecond d ->
  parse_date_try s = Some e
  /\ within_range d (Some e) None = inr true
  /\ within_range d None (Some e) = inr false.
Proof.
  intros Hs Hd Hy Hm Hday Hh Hmi Hse Hus Hpos.
  split; [unfold parse_date_try; rewrite Hs; reflexivity|].
  destruct (try_formats_midnight _ _ _ Hs) as (Eh & Emi & Ese & Eus & Etz).
  assert (Hcmp : dt_compare d e = inr Gt).
  { unfold dt_compare, fields. rewrite Hd, Etz, Hy, Hm, Hday, Eh, Emi, Ese, Eus.
    cbn [lex_compare]. rewrite !Z.compare_refl.
    destruct (Z.compare_spec (hour d) 0) as [E1|E1|E1]; [|lia|reflexivity].
    destruct (Z.compare_spec (minute d) 0) as [E2|E2|E2]; [|lia|reflexivity].
    destruct (Z.compare_spec (second d) 0) as [E3|E3|E3]; [|lia|reflexivity].
    destruct (Z.compare_spec (microsecond d) 0) as [E4|E4|E4]; [lia|lia|reflexivity]. }
  unfold within_range, ebind, dt_lt, dt_gt. rewrite Hcmp. split; reflexivity.
Qed.

(** X5.  When the locator has returned a product URL and page
    [1 + k] of it raises, does not answer with status 200 or has no
    card selected, the scraper ends, given more than [k] iterations, and
    its page loop makes at most [k + 1] requests. *)
Theorem scrape_ends_at_last_page (src : source) (fuel : nat) (company : string)
  (start end_ : option datetime) (st st1 : io) (p : string) (k : nat) :
  product_url_of src company st = (st1, Return p) ->
  (k < fuel)%nat ->
  last_page (site_of src) p (1 + Z.of_nat k) ->
  snd (scrape_of src fuel company start end_ st) <> Unfinished
  /\ (List.length (requested_since st1 (fst (scrape_of src fuel company start end_ st)))
      <= S k)%nat.
Proof.
  intros Hloc Hk Hlast. rewrite scrape_of_unfold, Hloc, pages_of_site.
  destruct (pages_bounded (site_of src) start end_ p fuel 1 [] st1 k Hk Hlast)
    as (k' & Hk' & Hst & Hres).
  split; [assumption|].
  rewrite Hst, requested_since_app, requests_fetched, length_map, length_page_range.
  assumption.
Qed.

(** X6.  Every URL a scraper requests starts with the URL it was
    given, trailing slashes removed, or, for a name, with the base URL
    of its site. *)
Theorem requests_start_with_root (src : source) (fuel : nat) (company : string)
  (start end_ : option datetime) (st : io) :
  Forall (fun url => startswith url (run_root src company) = true)
         (requested_since st (fst (scrape_of src fuel company start end_ st))).
Proof.
  rewrite scrape_of_unfold.
  assert (Hpages : forall root p, String.prefix root p = true ->
            forall k, Forall (fun url => startswith url root = true)
                             (requests (fetched (site_of src) p (page_range 1 k)))).
  { intros root p Hp k. rewrite requests_fetched, <- page_url_of_site.
    apply Forall_forall. intros url Hin. apply in_map_iff in Hin.
    destruct Hin as (n & <- & _). apply page_url_of_prefix; assumption. }
  unfold run_root.
  destruct (startswith company "http") eqn:Hurl.
  - rewrite (product_url_of_url src company st Hurl).
    destruct (pages_of_requests src fuel (rstrip company "/") start end_ 1 [] st)
      as (k & _ & ->).
    rewrite requested_since_app. apply Hpages. apply prefix_refl.
  - rewrite (product_url_of_name src company st Hurl).
    destruct (session_get (search_url_of src company)) as [e|r].
    + cbn [fst]. rewrite requested_since_after0.
      constructor; [apply search_url_prefix|constructor].
    + destruct (pages_of_requests src fuel (located src company r) start end_ 1 []
                  (after_request st (search_url_of src company))) as (k & _ & ->).
      rewrite requested_since_after.
      constructor; [apply search_url_prefix|]. apply Hpages. apply located_prefix.
Qed.

(** X7.  The page loop never requests a URL twice: the page URLs of
    different page numbers differ. *)
Theorem no_page_requested_twice (src : source) (fuel : nat) (p : string)
  (start end_ : option datetime) (page : Z) (reviews : list review) (st : io) :
  NoDup (requested_since st (fst (pages_of src fuel p start end_ page reviews st)))
  /\ forall n m, page_url_of src p n = page_url_of src p m -> n = m.
Proof.
  split; [|apply page_url_of_inj].
  destruct (pages_of_requests src fuel p start end_ page reviews st) as (k & _ & ->).
  rewrite requested_since_app, requests_fetched, <- page_url_of_site.
  apply NoDup_map_inj; [apply page_url_of_inj|apply NoDup_page_range].
Qed.

(** X8.  A scraper raises only what one of its own requests raised, or
    the TypeError of a date comparison, and that only when a start or
    an end bound is given. *)
Theorem scrape_raises_only (src : source) (fuel : nat) (company : string)
  (start end_ : option datetime) (st st' : io) (e : exn) :
  scrape_of src fuel company start end_ st = (st', Raise e) ->
  (exists url, In url (requested_since st st') /\ session_get url = inl e)
  \/ (e = compare_error /\ (start <> None \/ end_ <> None)).
Proof.
  rewrite scrape_of_unfold.
  destruct (startswith company "http") eqn:Hurl.
  - rewrite (product_url_of_url src company st Hurl), pages_of_site.
    intros H. apply pages_raise in H. destruct H as (k & -> & [(n & Hn & Hget)|Hcmp]);
      [left|right; assumption].
    exists (site_page_url (site_of src) (rstrip company "/") n).
    rewrite requested_since_app, requests_fetched. split; [apply in_map|]; assumption.
  - rewrite (product_url_of_name src company st Hurl).
    destruct (session_get (search_url_of src company)) as [e0|r] eqn:Hsearch.
    + intros H; inversion H; subst. left. exists (search_url_of src company).
      rewrite requested_since_after0. split; [left; reflexivity|assumption].
    + rewrite pages_of_site. intros H. apply pages_raise in H.
      destruct H as (k & -> & [(n & Hn & Hget)|Hcmp]); [left|right; assumption].
      exists (site_page_url (site_of src) (located src company r) n).
      rewrite requested_since_after, requests_fetched.
      split; [right; apply in_map|]; assumption.
Qed.

(** X9.  When every requested source ends, [main] prints for each
    source that returned a line with the number of its records, and the
    list it has to write has as many records as the sources returned
    together.  When the output path opens, the list is written and the
    last line printed gives its length; when [open] raises, [main] ends
    with that error straight after the loop: nothing is written and no
    such line is printed. *)
Theorem main_reports_counts (fuel : nat) (a : args) (st : io) :
  let start := parse_bound (a_start a) in
  let end_ := parse_bound (a_end a) in
  let sources := sources_of (a_source a) in
  let run := fun s => outcome (run_source fuel s (a_company a) start end_) in
  let written := List.concat (map (fun s => records_of (run s)) sources) in
  (forall s, In s sources -> run s <> Unfinished) ->
  List.length written = list_sum (map (fun s => List.length (records_of (run s))) sources)
  /\ (forall s res, In s sources -> run s = Return res ->
                    In (found_line s res) (stderr (fst (main fuel a st))))
  /\ match open_w (a_output a) with
     | None =>
         snd (main fuel a st) = Return tt
         /\ files (fst (main fuel a st)) = (files st ++ [(a_output a, written)])%list
         /\ last (stderr (fst (main fuel a st))) "" = wrote_line written (a_output a)
     | Some e =>
         main fuel a st
         = (fst (run_sources fuel sources (a_company a) start end_ [] st), Raise e)
         /\ files (fst (main fuel a st)) = files st
     end.
Proof.
  intros start end_ sources run written Hfin.
  destruct (run_sources_spec fuel (a_company a) start end_ sources [] st Hfin)
    as (st1 & Hrun & Hfiles & _ & _).
  destruct (run_sources_found fuel (a_company a) start end_ sources [] st Hfin)
    as (_ & Hfound).
  cbn [app] in Hrun. rewrite Hrun in Hfound. cbn [fst] in Hfound.
  fold run in Hfound.
  rewrite (main_after_sources fuel a st st1 written Hrun), Hrun.
  split; [unfold written; rewrite length_concat_sum, map_map; reflexivity|].
  destruct (open_w (a_output a)) as [e|]; cbn [fst snd stderr files].
  - split; [exact Hfound|]. split; [reflexivity|exact Hfiles].
  - split.
    + intros s res Hin Hr. apply in_or_app. left. apply (Hfound s res Hin Hr).
    + split; [reflexivity|]. split; [rewrite Hfiles; reflexivity|].
      rewrite last_last. reflexivity.
Qed.

(** X10.  When every requested source raises, [main] still comes to
    the write, with the empty list.  When the output path opens, it
    returns and the file holds the empty list; when [open] raises,
    [main] ends with that error and no file is written. *)
Theorem all_sources_fail_writes_empty (fuel : nat) (a : args) (st : io) :
  (forall s, In s (sources_of (a_source a)) ->
             exists e, outcome (run_source fuel s (a_company a) (parse_bound (a_start a))
                                           (parse_bound (a_end a))) = Raise e) ->
  match open_w (a_output a) with
  | None =>
      snd (main fuel a st) = Return tt
      /\ files (fst (main fuel a st)) = (files st ++ [(a_output a, [])])%list
  | Some e =>
      snd (main fuel a st) = Raise e
      /\ files (fst (main fuel a st)) = files st
  end.
Proof.
  intros Hall.
  assert (Hfin : forall s, In s (sources_of (a_source a)) ->
            outcome (run_source fuel s (a_company a) (parse_bound (a_start a))
                                (parse_bound (a_end a))) <> Unfinished).
  { intros s Hin. destruct (Hall s Hin) as (e & ->). discriminate. }
  destruct (run_sources_spec fuel (a_company a) (parse_bound (a_start a))
              (parse_bound (a_end a)) (sources_of (a_source a)) [] st Hfin)
    as (st1 & Hrun & Hfiles & _ & _).
  assert (Hnil : List.concat
            (map (fun s => records_of
                             (outcome (run_source fuel s (a_company a)
                                         (parse_bound (a_start a)) (parse_bound (a_end a)))))
                 (sources_of (a_source a))) = []).
  { clear - Hall. induction (sources_of (a_source a)) as [|s l IH]; [reflexivity|].
    cbn [map List.concat]. destruct (Hall s (or_introl eq_refl)) as (e & ->).
    cbn [records_of app]. apply IH. intros s' Hin. apply Hall. right; assumption. }
  rewrite Hnil in Hrun.
  rewrite (main_after_sources fuel a st st1 _ Hrun).
  destruct (open_w (a_output a)) as [e|]; cbn [fst snd files].
  - split; [reflexivity|exact Hfiles].
  - split; [reflexivity|]. rewrite Hfiles. reflexivity.
Qed.

(** X11.  White space around a date text does not change which pattern
    parses it nor the date: a text that a pattern parses is parsed to
    the same date with white space before and after it. *)
Theorem parse_ignores_surrounding_space (pre s post : string) (d : datetime) :
  all_space pre = true -> all_space post = true ->
  try_formats s formats = Some d ->
  try_formats (pre ++ s ++ post) formats = Some d
  /\ parse_date_try (pre ++ s ++ post) = Some d
  /\ parse_date_try s = Some d.
Proof.
  intros Hpre Hpost Hs.
  assert (H : forall fmts, try_formats (pre ++ s ++ post) fmts = try_formats s fmts).
  { induction fmts as [|fmt fmts IH]; [reflexivity|].
    cbn [try_formats]. rewrite strip_surrounded, IH by assumption. reflexivity. }
  unfold parse_date_try. rewrite H, Hs. auto.
Qed.

(** X12.  For a name the locator makes one request, to the search URL
    of the site, in which every space of the name is a plus sign; an
    exception of that request is passed on; otherwise the locator
    returns a URL that starts with the base URL of the site, which is
    the slug URL, free of spaces, when the search page has no usable
    link. *)
Theorem locator_searches_once (src : source) (company : string) (st : io) :
  startswith company "http" = false ->
  fst (product_url_of src company st) = after_request st (search_url_of src company)
  /\ contains " " (search_url_of src company) = false
  /\ match session_get (search_url_of src company) with
     | inl e => snd (product_url_of src company st) = Raise e
     | inr r =>
         snd (product_url_of src company st) = Return (located src company r)
         /\ startswith (located src company r) (site_base src) = true
         /\ (href_of (soup_find (BeautifulSoup (text r)) "a" (search_link src)) = None ->
             located src company r = fallback_url src company
             /\ contains " " (fallback_url src company) = false)
     end.
Proof.
  intros H. rewrite (product_url_of_name src company st H). split; [reflexivity|].
  assert (Hplus : contains " " (replace company " " "+") = false)
    by (apply contains_replace; reflexivity).
  assert (Hslug : contains " " (replace (lower company) " " "-") = false)
    by (apply contains_replace; reflexivity).
  split.
  - destruct src; unfold search_url_of; rewrite contains_char_app, Hplus; reflexivity.
  - destruct (session_get (search_url_of src company)) as [e|r]; [reflexivity|].
    split; [reflexivity|]. split; [apply located_prefix|].
    intros Hnone. unfold located. rewrite Hnone. split; [reflexivity|].
    destruct src; unfold fallback_url; cbv zeta;
      rewrite !contains_char_app, Hslug; reflexivity.
Qed.

(** X13.  Every page URL of the TrustRadius scraper contains
    [/reviews]: it is there already or it is added before the page
    parameter. *)
Theorem trustradius_page_url_has_reviews (p : string) (n : Z) :
  contains "/reviews" (trustradius_page_url p n) = true.
Proof.
  unfold trustradius_page_url.
  destruct (contains "/reviews" p) eqn:H; cbn [negb].
  - apply contains_app_l; assumption.
  - apply contains_app_r. reflexivity.
Qed.

(** X14.  The locator prints nothing, and the page loop prints one
    line for each of its requests, "Fetching" and the URL, in the order
    of the requests: the diagnostic lines of a scraper list the listing
    pages it asked for, not the search. *)
Theorem fetching_lines_match_requests (src : source) (fuel : nat) (company : string)
  (start end_ : option datetime) (st st1 : io) (p : string) :
  product_url_of src company st = (st1, Return p) ->
  stderr st1 = stderr st
  /\ stderr (fst (scrape_of src fuel company start end_ st))
     = (stderr st
        ++ map (fun url => ("Fetching " ++ url)%string)
               (requested_since st1 (fst (scrape_of src fuel company start end_ st))))%list.
Proof.
  intros Hloc.
  assert (Hst : stderr st1 = stderr st).
  { destruct (startswith company "http") eqn:Hurl.
    - rewrite (product_url_of_url src company st Hurl) in Hloc. inversion Hloc; reflexivity.
    - rewrite (product_url_of_name src company st Hurl) in Hloc. inversion Hloc; reflexivity. }
  split; [assumption|].
  rewrite scrape_of_unfold, Hloc.
  destruct (pages_of_requests src fuel p start end_ 1 [] st1) as (k & _ & ->).
  rewrite requested_since_app. cbn [stderr io_app fetched requests]. rewrite Hst. reflexivity.
Qed.

End MoreProperties.

(* ===================================================================== *)
(** * The properties on the run for "Zoom" *)
(* ===================================================================== *)

Module ZoomRun.

Import Zoom.

#[local] Existing Instance W.

(** The whole G2 run with a start date of 2023-01-01: page 1 gives three
    records, page 2 gives none and ends the loop, page 3 is not
    requested. *)
Example scrape_g2_from_2023 :
  @scrape_g2 W 10 "Zoom" (Some jan_1_2023) None io0
  = (mkio ["Fetching https://www.g2.com/products/zoom/reviews?page=1";
           "Fetching https://www.g2.com/products/zoom/reviews?page=2"]
          ["https://www.g2.com/search?q=Zoom";
           "https://www.g2.com/products/zoom/reviews?page=1";
           "https://www.g2.com/products/zoom/reviews?page=2"]
          [],
     Return [mkreview "Great" "Works  well" "2023-03-01T00:00:00" "5" "Ann" "g2";
             mkreview "Fine" "Does the job" "garbage" "4" "Bob" "g2";
             mkreview "No date" "Undated" "" "3" "Cy" "g2"]).
Proof. vm_compute. reflexivity. Qed.

(** A name without a search hit falls back to the slug URL. *)
Example product_url_slug :
  @g2_product_url W "Acme Corp" io0
  = (mkio [] ["https://www.g2.com/search?q=Acme+Corp"] [],
     Return "https://www.g2.com/products/acme-corp/reviews").
Proof. vm_compute. reflexivity. Qed.

(** C1, counterexample.  Page 2 of the G2 listing answers 200 and two
    cards are selected on it, both dated before the start date.  The
    loop returns at page 2 and never requests page 3, which holds a
    review inside the range. *)
Lemma page_of_dropped_cards_ends_pagination :
  ~ next_page_after_any_cards (W := W) G2 listing (Some jan_1_2023) None 2
  /\ @session_get W (g2_page_url listing 2) = inr (mkresponse 200 "g2 page 2")
  /\ @g2_items W (@BeautifulSoup W "g2 page 2") = [g2_card_d; g2_card_e]
  /\ @g2_pages W 5 listing (Some jan_1_2023) None 2 [] io0
     = (mkio ["Fetching https://www.g2.com/products/zoom/reviews?page=2"]
             ["https://www.g2.com/products/zoom/reviews?page=2"] [],
        Return [])
  /\ @g2_pages W 5 listing (Some jan_1_2023) None 3 [] io0
     = (mkio ["Fetching https://www.g2.com/products/zoom/reviews?page=3";
              "Fetching https://www.g2.com/products/zoom/reviews?page=4"]
             ["https://www.g2.com/products/zoom/reviews?page=3";
              "https://www.g2.com/products/zoom/reviews?page=4"] [],
        Return [mkreview "Recent" "From June" "2023-06-01T00:00:00" "5" "Flo" "g2"]).
Proof.
  split; [|repeat split; vm_compute; reflexivity].
  intros H.
  specialize (H (mkresponse 200 "g2 page 2") eq_refl eq_refl).
  assert (Hne : @items_of W G2 (@BeautifulSoup W (text (mkresponse 200 "g2 page 2"))) <> [])
    by (intros Hx; vm_compute in Hx; discriminate Hx).
  specialize (H Hne). vm_compute in H.
  destruct H as [H|[]]. discriminate H.
Qed.

(** C1 (amended), at page 2 of that run: both cards are dropped and the
    loop returns there. *)
Lemma pagination_stops_without_kept_cards_witness :
  @pages_of W G2 1 listing (Some jan_1_2023) None 2 [] io0
  = (io_app io0 (fetched (site_of G2) listing [2]), Return []).
Proof.
  refine (proj1 (proj2 (proj2
    (proj2 (pagination_stops_without_kept_cards (W := W) G2 0 listing (Some jan_1_2023) None
              2 [] io0 (mkresponse 200 "g2 page 2") _) _ [] 0 _))) _).
  - reflexivity.
  - reflexivity.
  - vm_compute. reflexivity.
  - repeat constructor.
    + exists (mkdatetime 2020 5 1 0 0 0 0 None). split; vm_compute; reflexivity.
    + exists (mkdatetime 2021 1 3 0 0 0 0 None). split; vm_compute; reflexivity.
Defined.

(** C2, on card b of page 1, whose date text is "garbage". *)
Lemma unparsed_date_never_excluded_witness :
  In (mkreview "Fine" "Does the job" "garbage" "4" "Bob" "g2")
     (records_of (outcome (@scrape_g2 W 10 "Zoom" (Some jan_1_2023) (Some dec_31_2023)))).
Proof.
  refine (proj1 (proj1
    (unparsed_date_never_excluded (W := W) G2 10 "Zoom" (Some jan_1_2023) (Some dec_31_2023)
       io0 (effects (product_url_of G2 "Zoom"))
       (effects (scrape_of G2 10 "Zoom" (Some jan_1_2023) (Some dec_31_2023)))
       listing
       (records_of (outcome (scrape_of G2 10 "Zoom" (Some jan_1_2023) (Some dec_31_2023))))
       1 (mkresponse 200 "g2 page 1") g2_card_b _ _ _ _ _ _) _)).
  - vm_compute. reflexivity.
  - vm_compute. reflexivity.
  - vm_compute. left. reflexivity.
  - reflexivity.
  - reflexivity.
  - vm_compute. right. left. reflexivity.
  - right. vm_compute. reflexivity.
Defined.

(** C3, counterexample.  For the TrustRadius product page of Zoom, which
    has no query string, page 1 is fetched at [/reviews?page=1] below
    it, not at [?page=1]. *)
Lemma trustradius_page_url_differs :
  ~ page_param_as_stated TrustRadius "https://www.trustradius.com/products/zoom" 1
  /\ trustradius_page_url "https://www.trustradius.com/products/zoom" 1
     = "https://www.trustradius.com/products/zoom/reviews?page=1".
Proof.
  split; [|vm_compute; reflexivity].
  unfold page_param_as_stated. vm_compute. discriminate.
Qed.

(** C3 (amended), at that URL. *)
Lemma page_url_by_source_witness :
  page_url_of TrustRadius "https://www.trustradius.com/products/zoom" 1
  = "https://www.trustradius.com/products/zoom/reviews?page=1".
Proof.
  refine (eq_trans (proj1
    (page_url_by_source (W := W) TrustRadius "https://www.trustradius.com/products/zoom" 1 _))
    _).
  - intros _. vm_compute. reflexivity.
  - vm_compute. reflexivity.
Defined.

(** C6, counterexample.  Card a of page 1 carries the date text
    "2023-03-01", which parses; the [date] of its record is a date and
    time, not the calendar date. *)
Lemma parsed_date_is_not_a_calendar_date :
  ~ date_as_stated (W := W) g2_site g2_card_a (card_record (W := W) g2_site g2_card_a)
  /\ card_date_text (W := W) g2_site g2_card_a = "2023-03-01"
  /\ card_date_obj (W := W) g2_site g2_card_a = Some (mkdatetime 2023 3 1 0 0 0 0 None)
  /\ card_record (W := W) g2_site g2_card_a
     = mkreview "Great" "Works  well" "2023-03-01T00:00:00" "5" "Ann" "g2"
  /\ In (card_record (W := W) g2_site g2_card_a)
        (records_of (outcome (@scrape_g2 W 10 "Zoom" None None))).
Proof.
  split; [|repeat split; vm_compute; auto].
  unfold date_as_stated. vm_compute. discriminate.
Qed.

(** C6 (amended), on the G2 run without bounds. *)
Lemma date_field_isoformat_or_raw_witness :
  Forall (fun rec => exists it, rec = card_record (W := W) (site_of G2) it
                                /\ date_field_ok (site_of G2) it rec)
         (records_of (outcome (@scrape_g2 W 10 "Zoom" None None))).
Proof.
  refine (proj1
    (date_field_isoformat_or_raw (W := W) G2 10 "Zoom" None None io0
       (effects (scrape_of G2 10 "Zoom" None None))
       (records_of (outcome (scrape_of G2 10 "Zoom" None None))) _)).
  vm_compute. reflexivity.
Defined.

(** C7, on the three sources: G2 returns 3 records, Capterra raises,
    TrustRadius returns 5; the output path opens, the file holds 8
    records and the error line names Capterra. *)
Lemma failing_source_is_skipped_witness :
  exists st',
    @main W 10 (cli (Some "2023-01-01") None "all") io0 = (st', Return tt)
    /\ (exists l, files st' = [("reviews_output.json", l)] /\ List.length l = 8%nat)
    /\ In "Error scraping capterra: connection refused" (stderr st').
Proof.
  destruct (failing_source_is_skipped (W := W) 10 (cli (Some "2023-01-01") None "all") io0)
    as (st1 & _ & _ & Herr & Hmain).
  - intros s [<-|[<-|[<-|[]]]]; vm_compute; discriminate.
  - hnf in Hmain. destruct Hmain as (st' & Hmain & Hfiles & Hmono).
    exists st'. split; [exact Hmain|]. split.
    + eexists. split; [exact Hfiles|]. vm_compute. reflexivity.
    + apply Hmono. apply (Herr "capterra" (RequestException "connection refused")).
      * vm_compute. auto.
      * vm_compute. reflexivity.
Defined.

(** C8, on the URL of the spec. *)
Lemma locator_keeps_given_url_witness :
  @product_url_of W G2 "https://example.com/p/x/reviews/" io0
  = (io0, Return "https://example.com/p/x/reviews").
Proof.
  refine (eq_trans (proj1
    (locator_keeps_given_url (W := W) G2 "https://example.com/p/x/reviews/" io0 _)) _).
  - vm_compute. reflexivity.
  - vm_compute. reflexivity.
Defined.

(** C9, on the TrustRadius run. *)
Lemma records_carry_source_tag_witness :
  Forall (fun rec => r_source rec = "trustradius")
         (records_of (outcome (@scrape_trustradius W 10 "Zoom" None None))).
Proof.
  refine (records_carry_source_tag (W := W) TrustRadius 10 "Zoom" None None io0
            (effects (scrape_of TrustRadius 10 "Zoom" None None))
            (records_of (outcome (scrape_of TrustRadius 10 "Zoom" None None))) _).
  vm_compute. reflexivity.
Defined.

(** C10, with "garbage" as the start date. *)
Lemma unparseable_bound_is_no_bound_witness :
  @main W 10 (cli (Some "garbage") None "g2") io0 = @main W 10 (cli None None "g2") io0.
Proof.
  refine (proj1
    (unparseable_bound_is_no_bound (W := W) 10 "Zoom" None None "g2" "reviews_output.json"
       "garbage" io0 _)).
  vm_compute. reflexivity.
Defined.

End ZoomRun.

(* ===================================================================== *)
(** * The further properties on concrete runs *)
(* ===================================================================== *)

Module MeetRun.

#[local] Existing Instance Meet.W.

(** Without bounds the card with the UTC offset is recorded, offset
    and all. *)
Example scrape_meet_no_bounds :
  outcome (scrape_g2 5 Meet.company None None)
  = Return [mkreview "Calls" "Clear sound" "2023-05-01T10:00:00+00:00" "5" "Gus" "g2"].
Proof. vm_compute. reflexivity. Qed.

(** With a start date the comparison of the aware date with the naive
    bound raises, the scraper raises, and [main] writes no record. *)
Example main_meet_with_start :
  main 5 (mkargs Meet.company (Some "2023-01-01") None "g2" "out.json") io0
  = (mkio ["Fetching https://www.g2.com/products/meet/reviews?page=1";
           "Error scraping g2: can't compare offset-naive and offset-aware datetimes";
           "Wrote 0 reviews to out.json"]
          ["https://www.g2.com/products/meet/reviews?page=1"]
          [("out.json", [])],
     Return tt).
Proof. vm_compute. reflexivity. Qed.

(** With the empty text as output path [open] raises after the
    scraping: [main] ends with that error, no file is written and the
    last line is not printed. *)
Example main_meet_empty_output :
  main 5 (mkargs Meet.company None None "g2" "") io0
  = (mkio ["Fetching https://www.g2.com/products/meet/reviews?page=1";
           "Fetching https://www.g2.com/products/meet/reviews?page=2";
           "Found 1 reviews from g2"]
          ["https://www.g2.com/products/meet/reviews?page=1";
           "https://www.g2.com/products/meet/reviews?page=2"]
          [],
     Raise (OSError "[Errno 2] No such file or directory: ''")).
Proof. vm_compute. reflexivity. Qed.

(** X8, on that run. *)
Lemma scrape_raises_only_witness :
  (exists url,
      In url (requested_since io0
                (effects (scrape_of G2 5 Meet.company (Some Zoom.jan_1_2023) None)))
      /\ session_get url = inl compare_error)
  \/ (compare_error = compare_error
      /\ (Some Zoom.jan_1_2023 <> None \/ @None datetime <> None)).
Proof.
  refine (scrape_raises_only G2 5 Meet.company (Some Zoom.jan_1_2023) None io0
            (effects (scrape_of G2 5 Meet.company (Some Zoom.jan_1_2023) None))
            compare_error _).
  vm_compute. reflexivity.
Defined.

End MeetRun.

Module ZoomMore.

Import Zoom.

#[local] Existing Instance W.

(** X1, on the G2 run without bounds: four pages are requested and the
    records are those of pages 1 to 4 in order. *)
Lemma scrape_output_in_page_order_witness :
  records_of (outcome (scrape_g2 10 "Zoom" None None))
  = flat_map (page_records (site_of G2) None None listing) [1; 2; 3; 4].
Proof.
  refine (eq_trans (proj2
    (scrape_output_in_page_order G2 10 "Zoom" None None io0
       (effects (product_url_of G2 "Zoom"))
       (effects (scrape_of G2 10 "Zoom" None None))
       listing
       (records_of (outcome (scrape_of G2 10 "Zoom" None None))) _ _)) _).
  - vm_compute. reflexivity.
  - vm_compute. reflexivity.
  - vm_compute. reflexivity.
Defined.

(** X4, with the end bound 2023-12-31 and a review of that day at
    15:00. *)
Lemma end_day_is_cut_at_midnight_witness :
  within_range (mkdatetime 2023 12 31 15 0 0 0 None) (Some dec_31_2023) None = inr true
  /\ within_range (mkdatetime 2023 12 31 15 0 0 0 None) None (Some dec_31_2023) = inr false.
Proof.
  refine (proj2 (end_day_is_cut_at_midnight "2023-12-31" dec_31_2023
                   (mkdatetime 2023 12 31 15 0 0 0 None) _ _ _ _ _ _ _ _ _ _));
    try reflexivity; try (vm_compute; discriminate).
Defined.

(** X5, on the G2 listing: page 4 answers 404, so at most 4 pages are
    requested. *)
Lemma scrape_ends_at_last_page_witness :
  snd (scrape_of G2 10 "Zoom" None None io0) <> Unfinished
  /\ (List.length (requested_since (effects (product_url_of G2 "Zoom"))
                     (fst (scrape_of G2 10 "Zoom" None None io0))) <= 4)%nat.
Proof.
  refine (scrape_ends_at_last_page G2 10 "Zoom" None None io0
            (effects (product_url_of G2 "Zoom")) listing 3 _ _ _).
  - vm_compute. reflexivity.
  - lia.
  - left. vm_compute. discriminate.
Defined.

(** X9, on the three sources: the output path opens and the last
    line reports 8 records. *)
Lemma main_reports_counts_witness :
  snd (main 10 (cli (Some "2023-01-01") None "all") io0) = Return tt
  /\ (exists written,
        files (fst (main 10 (cli (Some "2023-01-01") None "all") io0))
        = [("reviews_output.json", written)]
        /\ List.length written = 8%nat)
  /\ last (stderr (fst (main 10 (cli (Some "2023-01-01") None "all") io0))) ""
     = "Wrote 8 reviews to reviews_output.json"
  /\ In "Found 3 reviews from g2"
        (stderr (fst (main 10 (cli (Some "2023-01-01") None "all") io0)))
  /\ In "Found 5 reviews from trustradius"
        (stderr (fst (main 10 (cli (Some "2023-01-01") None "all") io0))).
Proof.
  destruct (main_reports_counts 10 (cli (Some "2023-01-01") None "all") io0)
    as (_ & Hfound & Hmain).
  - intros s [<-|[<-|[<-|[]]]]; vm_compute; discriminate.
  - hnf in Hmain. destruct Hmain as (Hret & Hfiles & Hlast).
    split; [exact Hret|]. split; [|split; [|split]].
    + eexists. split; [exact Hfiles|]. vm_compute. reflexivity.
    + rewrite Hlast. vm_compute. reflexivity.
    + let r := eval vm_compute in
        (records_of (outcome (scrape_g2 10 "Zoom" (Some jan_1_2023) None))) in
      refine (_ (Hfound "g2" r _ _));
        [intros H; vm_compute in H; vm_compute; exact H
        |vm_compute; auto|vm_compute; reflexivity].
    + let r := eval vm_compute in
        (records_of (outcome (scrape_trustradius 10 "Zoom" (Some jan_1_2023) None))) in
      refine (_ (Hfound "trustradius" r _ _));
        [intros H; vm_compute in H; vm_compute; exact H
        |vm_compute; auto|vm_compute; reflexivity].
Defined.

(** X10, with Capterra as the only source: the output path opens and
    the file holds the empty list. *)
Lemma all_sources_fail_writes_empty_witness :
  snd (main 10 (cli None None "capterra") io0) = Return tt
  /\ files (fst (main 10 (cli None None "capterra") io0)) = [("reviews_output.json", [])].
Proof.
  refine (all_sources_fail_writes_empty 10 (cli None None "capterra") io0 _).
  intros s [<-|[]]. exists (RequestException "connection refused"). vm_compute. reflexivity.
Defined.

(** X11, with two spaces before and one after. *)
Lemma parse_ignores_surrounding_space_witness :
  parse_date_try "  Jan 15, 2023 " = Some (mkdatetime 2023 1 15 0 0 0 0 None).
Proof.
  refine (proj1 (proj2
    (parse_ignores_surrounding_space "  " "Jan 15, 2023" " "
       (mkdatetime 2023 1 15 0 0 0 0 None) _ _ _)));
    vm_compute; reflexivity.
Defined.

(** X12, for a name that the search does not know. *)
Lemma locator_searches_once_witness :
  fst (product_url_of G2 "Zoom Meetings" io0)
  = after_request io0 "https://www.g2.com/search?q=Zoom+Meetings"
  /\ snd (product_url_of G2 "Zoom Meetings" io0)
     = Return "https://www.g2.com/products/zoom-meetings/reviews".
Proof.
  pose proof (locator_searches_once G2 "Zoom Meetings" io0 eq_refl) as (Hfst & _ & Hres).
  split; [exact Hfst|].
  change (session_get (search_url_of G2 "Zoom Meetings"))
    with (@inr exn response (mkresponse 404 "")) in Hres.
  destruct Hres as (Hsnd & _ & Hfall). rewrite Hsnd.
  destruct (Hfall eq_refl) as (-> & _). vm_compute. reflexivity.
Defined.

(** X14, on the G2 run without bounds. *)
Lemma fetching_lines_match_requests_witness :
  stderr (fst (scrape_of G2 10 "Zoom" None None io0))
  = ["Fetching https://www.g2.com/products/zoom/reviews?page=1";
     "Fetching https://www.g2.com/products/zoom/reviews?page=2";
     "Fetching https://www.g2.com/products/zoom/reviews?page=3";
     "Fetching https://www.g2.com/products/zoom/reviews?page=4"].
Proof.
  refine (eq_trans (proj2
    (fetching_lines_match_requests G2 10 "Zoom" None None io0
       (effects (product_url_of G2 "Zoom")) listing _)) _).
  - vm_compute. reflexivity.
  - vm_compute. reflexivity.
Defined.

End ZoomMore.
